(** * Real-time threat detection: the event-triage pipeline

    A shallow embedding of the Python sources

      - [config.py]                            (module [Config])
      - [alerts/alert_manager.py]              (module [Alerts])
      - [data_collection/unified_collector.py] (module [Collector])
      - [preprocessing/feature_extractor.py]   (module [Features])
      - [preprocessing/preprocessor.py]        (module [Preprocessor])
      - [ml_detection/threat_detector.py]      (module [Detector])

    followed by the properties of the pipeline.

    Conventions.  A Python dictionary whose printed form or key order
    matters is an association list ([Py.dict]); the flat feature mapping
    is a [gmap].  Python floats are rationals ([Q]), text is a string of
    8-bit characters.  A computation that can raise returns a sum with
    the exception on the left.  The wall clock is a function from the
    number of the reading to its [isoformat()] string, and every object
    that reads it counts its readings.  Library functions (regular
    expressions, date parsing, [repr], the fitted forest) are parameters
    of the sections that use them; in the feature extractor [repr] and
    the digest of an encoded text are parameters that can raise, since
    [str] fails on an integer of more than 4300 digits or on deep
    nesting, and [encode] on a lone surrogate.  [hashlib.md5] is also
    given in full (module [MD5]).  The two collection threads are
    interleaved at the granularity of the atomic operations of
    [queue.Queue]. *)

From Stdlib Require Import ZArith QArith Qminmax String Ascii List Lia.
From Stdlib Require Import Sorted Permutation Lqa.
From stdpp Require Import base option list strings gmap pretty.
Import ListNotations.

Local Open Scope string_scope.
Local Open Scope list_scope.
Local Open Scope Z_scope.

(** ** Python values *)

Module Py.

(** The closed set of values an event payload can hold (JSON-like). *)
#[warnings="-register-all"]
Inductive pyval : Type :=
| VNone
| VBool (b : bool)
| VInt (z : Z)
| VFloat (q : Q)
| VStr (s : string)
| VList (l : list pyval)
| VDict (d : list (string * pyval)).

(** A Python [dict] with string keys, in insertion order. *)
Definition dict : Type := list (string * pyval).

Inductive exn : Type :=
| AttributeError
| IndexError
| ValueError
| TypeError
| RecursionError
| UnicodeEncodeError.

(** [bool(v)]: Python truthiness. *)
Definition truthy (v : pyval) : bool :=
  match v with
  | VNone => false
  | VBool b => b
  | VInt z => negb (z =? 0)
  | VFloat q => negb (Qeq_bool q 0)
  | VStr s => negb (String.eqb s "")
  | VList l => match l with [] => false | _ => true end
  | VDict d => match d with [] => false | _ => true end
  end.

(** [k in d] and [d[k]] on a dictionary. *)
Fixpoint dict_lookup (k : string) (d : dict) : option pyval :=
  match d with
  | [] => None
  | (k', v) :: rest => if String.eqb k' k then Some v else dict_lookup k rest
  end.

Definition dict_contains (k : string) (d : dict) : bool :=
  match dict_lookup k d with Some _ => true | None => false end.

(** [d.get(k, default)] on a dictionary. *)
Definition dict_get (d : dict) (k : string) (default : pyval) : pyval :=
  match dict_lookup k d with Some v => v | None => default end.

(** [v.get(k, default)] on an arbitrary value: only dictionaries have
    the method, anything else raises [AttributeError]. *)
Definition py_get (v : pyval) (k : string) (default : pyval) : exn + pyval :=
  match v with
  | VDict d => inr (dict_get d k default)
  | _ => inl AttributeError
  end.

(** [l[i]] with Python's negative indices; out of range raises
    [IndexError]. *)
Definition py_index {A : Type} (l : list A) (i : Z) : exn + A :=
  let n := Z.of_nat (length l) in
  let j := if i <? 0 then i + n else i in
  if (0 <=? j) && (j <? n) then
    match nth_error l (Z.to_nat j) with
    | Some x => inr x
    | None => inl IndexError
    end
  else inl IndexError.

(** [isinstance(v, dict)] *)
Definition is_dict (v : pyval) : bool :=
  match v with VDict _ => true | _ => false end.

(** Sequencing of computations that can raise. *)
Definition bind {A B : Type} (c : exn + A) (k : A -> exn + B) : exn + B :=
  match c with
  | inl e => inl e
  | inr a => k a
  end.

(** [a or <rest>]: the right operand is evaluated only when [a] is falsy. *)
Definition py_or (a : pyval) (rest : exn + pyval) : exn + pyval :=
  if truthy a then inr a else rest.

End Py.

Notation "x <- c ;; k" := (Py.bind c (fun x => k))
  (at level 100, c at next level, right associativity).

(** ** config.py *)

Module Config.

Record t : Type := {
  CONFIDENCE_THRESHOLD : Q;
  HIGH_SEVERITY_THRESHOLD : Q;
  MEDIUM_SEVERITY_THRESHOLD : Q;
  SLACK_WEBHOOK_URL : option string;
  ALERT_EMAIL : string
}.

(** The values taken when no environment variable overrides them. *)
Definition default : t := {|
  CONFIDENCE_THRESHOLD := 7 # 10;
  HIGH_SEVERITY_THRESHOLD := 85 # 100;
  MEDIUM_SEVERITY_THRESHOLD := 65 # 100;
  SLACK_WEBHOOK_URL := None;
  ALERT_EMAIL := "security-team@example.com"
|}.

End Config.

(** ** hashlib.md5

    The digest the alert ids and the feature hashes are cut from (RFC 1321),
    on 32-bit words held in [Z]. *)

Module MD5.

Definition mask32 : Z := 0xFFFFFFFF.

Definition add32 (a b : Z) : Z := Z.land (a + b) mask32.

Definition not32 (x : Z) : Z := Z.lxor x mask32.

Definition rotl32 (x c : Z) : Z :=
  Z.lor (Z.land (Z.shiftl x c) mask32) (Z.shiftr x (32 - c)).

Definition shifts : list Z :=
  [ 7; 12; 17; 22;  7; 12; 17; 22;  7; 12; 17; 22;  7; 12; 17; 22;
    5;  9; 14; 20;  5;  9; 14; 20;  5;  9; 14; 20;  5;  9; 14; 20;
    4; 11; 16; 23;  4; 11; 16; 23;  4; 11; 16; 23;  4; 11; 16; 23;
    6; 10; 15; 21;  6; 10; 15; 21;  6; 10; 15; 21;  6; 10; 15; 21 ].

Definition K : list Z :=
  [ 0xd76aa478; 0xe8c7b756; 0x242070db; 0xc1bdceee;
    0xf57c0faf; 0x4787c62a; 0xa8304613; 0xfd469501;
    0x698098d8; 0x8b44f7af; 0xffff5bb1; 0x895cd7be;
    0x6b901122; 0xfd987193; 0xa679438e; 0x49b40821;
    0xf61e2562; 0xc040b340; 0x265e5a51; 0xe9b6c7aa;
    0xd62f105d; 0x02441453; 0xd8a1e681; 0xe7d3fbc8;
    0x21e1cde6; 0xc33707d6; 0xf4d50d87; 0x455a14ed;
    0xa9e3e905; 0xfcefa3f8; 0x676f02d9; 0x8d2a4c8a;
    0xfffa3942; 0x8771f681; 0x6d9d6122; 0xfde5380c;
    0xa4beea44; 0x4bdecfa9; 0xf6bb4b60; 0xbebfbc70;
    0x289b7ec6; 0xeaa127fa; 0xd4ef3085; 0x04881d05;
    0xd9d4d039; 0xe6db99e5; 0x1fa27cf8; 0xc4ac5665;
    0xf4292244; 0x432aff97; 0xab9423a7; 0xfc93a039;
    0x655b59c3; 0x8f0ccc92; 0xffeff47d; 0x85845dd1;
    0x6fa87e4f; 0xfe2ce6e0; 0xa3014314; 0x4e0811a1;
    0xf7537e82; 0xbd3af235; 0x2ad7d2bb; 0xeb86d391 ].

Definition state : Type := (Z * Z * Z * Z)%type.

Definition initial : state := (0x67452301, 0xefcdab89, 0x98badcfe, 0x10325476).

(** Operation [i] of the 64 applied to one block of sixteen words. *)
Definition operation (M : list Z) (st : state) (i : nat) : state :=
  let '(A, B, C, D) := st in
  let iz := Z.of_nat i in
  let '(F, g) :=
    if iz <? 16 then (Z.lor (Z.land B C) (Z.land (not32 B) D), iz)
    else if iz <? 32 then (Z.lor (Z.land D B) (Z.land (not32 D) C), (5 * iz + 1) mod 16)
    else if iz <? 48 then (Z.lxor (Z.lxor B C) D, (3 * iz + 5) mod 16)
    else (Z.lxor C (Z.lor B (not32 D)), (7 * iz) mod 16) in
  let F := add32 (add32 (add32 F A) (nth i K 0)) (nth (Z.to_nat g) M 0) in
  (D, add32 B (rotl32 F (nth i shifts 0)), B, C).

Definition process_block (st : state) (M : list Z) : state :=
  let '(a0, b0, c0, d0) := st in
  let '(A, B, C, D) := fold_left (operation M) (seq 0 64) st in
  (add32 a0 A, add32 b0 B, add32 c0 C, add32 d0 D).

(** [n] little-endian bytes of [x]. *)
Fixpoint le_bytes (n : nat) (x : Z) : list Z :=
  match n with
  | O => []
  | S n' => Z.land x 0xFF :: le_bytes n' (Z.shiftr x 8)
  end.

Fixpoint of_le_bytes (bytes : list Z) : Z :=
  match bytes with
  | [] => 0
  | b :: rest => b + 256 * of_le_bytes rest
  end.

(** The message followed by the bit 1, zeros, and its length in bits. *)
Definition pad (bytes : list Z) : list Z :=
  let len := Z.of_nat (length bytes) in
  bytes ++ [0x80] ++ repeat 0 (Z.to_nat ((55 - len) mod 64)) ++ le_bytes 8 (8 * len).

(** Consecutive groups of [n] elements. *)
Fixpoint chunks {A : Type} (fuel n : nat) (l : list A) : list (list A) :=
  match fuel with
  | O => []
  | S fuel' =>
      match l with
      | [] => []
      | _ => firstn n l :: chunks fuel' n (skipn n l)
      end
  end.

Definition hex_char (d : Z) : ascii :=
  ascii_of_nat (Z.to_nat (if d <? 10 then 48 + d else 87 + d)).

Definition hex_of_byte (b : Z) : string :=
  String (hex_char (b / 16)) (String (hex_char (b mod 16)) EmptyString).

(** [hashlib.md5(s.encode()).hexdigest()] for ASCII text. *)
Definition hexdigest (s : string) : string :=
  let bytes := map (fun c => Z.of_nat (nat_of_ascii c)) (list_ascii_of_string s) in
  let padded := pad bytes in
  let words := map of_le_bytes (chunks (length padded) 4 padded) in
  let blocks := chunks (length words) 16 words in
  let '(a, b, c, d) := fold_left process_block blocks initial in
  String.concat "" (map hex_of_byte (le_bytes 4 a ++ le_bytes 4 b ++ le_bytes 4 c ++ le_bytes 4 d)).

End MD5.

(** ** alerts/alert_manager.py *)

Module Alerts.
Import Py.

Inductive AlertSeverity : Type := LOW | MEDIUM | HIGH | CRITICAL.

(** [severity.value] *)
Definition value (s : AlertSeverity) : string :=
  match s with
  | LOW => "low"
  | MEDIUM => "medium"
  | HIGH => "high"
  | CRITICAL => "critical"
  end.

(** One entry of the list returned by [ThreatDetector.detect_threats]; a
    key the dictionary does not carry is [None]. *)
Record threat_result : Type := {
  index : option Z;
  is_threat : option bool;
  confidence : option Q;
  prediction : option Z;
  exceeds_threshold : option bool
}.

(** The alert dictionary built by [generate_alert]; the three keys added
    later by [acknowledge_alert] and [resolve_alert] are optional. *)
Record alert : Type := {
  alert_id : string;
  timestamp : string;
  severity : string;
  alert_confidence : Q;
  source : pyval;
  event_timestamp : pyval;
  description : string;
  recommendations : list string;
  event_data : dict;
  threat_info : threat_result;
  status : string;
  acknowledged_at : option string;
  resolved_at : option string;
  resolution_notes : option string
}.

(** [self.alert_history], [self.alert_count], and the number of wall-clock
    readings taken so far (the next [datetime.utcnow()] is reading number
    [clock_reads]). *)
Record AlertManager : Type := {
  alert_history : list alert;
  alert_count : gmap string nat;
  clock_reads : nat
}.

(** [AlertManager.__init__] *)
Definition init : AlertManager := {|
  alert_history := [];
  alert_count :=
    <["low" := 0%nat]> (<["medium" := 0%nat]> (<["high" := 0%nat]>
      (<["critical" := 0%nat]> ∅)));
  clock_reads := 0
|}.

Definition opt_truthy (b : option bool) : bool :=
  match b with Some true => true | _ => false end.

Section WithEnvironment.

(** [datetime.utcnow().isoformat()] at the n-th reading of the clock. *)
Variable utcnow_iso : nat -> string.
(** [hashlib.md5(s.encode()).hexdigest()] *)
Variable md5_hexdigest : string -> string.
(** [str(v)] as used by an f-string, and [f"{x:.1f}"]. *)
Variable py_str : pyval -> string.
Variable format_1f : Q -> string.

Variable cfg : Config.t.

(** [_calculate_severity] *)
Definition calculate_severity (threat_info : threat_result) : AlertSeverity :=
  let confidence := default (0 : Q) (confidence threat_info) in
  if Qle_bool (Config.HIGH_SEVERITY_THRESHOLD cfg) confidence then
    if Qle_bool (95 # 100) confidence then CRITICAL else HIGH
  else if Qle_bool (Config.MEDIUM_SEVERITY_THRESHOLD cfg) confidence then
    MEDIUM
  else
    LOW.

(** The string hashed by [_generate_alert_id]. *)
Definition unique_str (timestamp : string) (n : nat) : string :=
  timestamp +:+ "_" +:+ pretty n.

(** The id computed at clock reading [reading] for history length [n]:
    [hashlib.md5(unique_str.encode()).hexdigest()[:12]]. *)
Definition alert_id_at (reading n : nat) : string :=
  substring 0 12 (md5_hexdigest (unique_str (utcnow_iso reading) n)).

(** [_generate_alert_id]: one clock reading, the history length, and the
    first 12 hexadecimal digits of the digest. *)
Definition generate_alert_id (m : AlertManager) : string :=
  alert_id_at (clock_reads m) (length (alert_history m)).

(** [_generate_description] *)
Definition generate_description (event_data : dict) (threat_info : threat_result)
  : string :=
  let source := dict_get event_data "source" (VStr "unknown") in
  let confidence := (default (0 : Q) (confidence threat_info) * 100)%Q in
  let d0 := "Potential security threat detected from " +:+ py_str source +:+ " " in
  let d1 := d0 +:+ "with " +:+ format_1f confidence +:+ "% confidence. " in
  let d2 :=
    match dict_lookup "activity" event_data with
    | Some a => d1 +:+ "Activity: " +:+ py_str a +:+ ". "
    | None => d1
    end in
  match dict_lookup "ip_address" event_data with
  | Some ip => d2 +:+ "Source IP: " +:+ py_str ip +:+ ". "
  | None => d2
  end.

(** [_generate_recommendations] *)
Definition generate_recommendations (severity : AlertSeverity) : list string :=
  match severity with
  | HIGH | CRITICAL =>
      [ "Immediately investigate this event";
        "Review all recent activities from this source";
        "Consider blocking the source IP address";
        "Check for any successful unauthorized access" ]
  | MEDIUM =>
      [ "Review this event during next security review";
        "Monitor the source for additional suspicious activity";
        "Verify user identity if applicable" ]
  | LOW =>
      [ "Log for future analysis";
        "Monitor for pattern escalation" ]
  end.

(** The sinks [_distribute_alert] writes to; none of them touches the
    history, and a failing sink is logged and swallowed. *)
Inductive sink : Type := LogSink | SlackSink | EmailSink.

Definition distribute_alert (a : alert) : list sink :=
  [LogSink]
  ++ (match Config.SLACK_WEBHOOK_URL cfg with
      | Some url =>
          if negb (String.eqb url "")
             && (String.eqb (severity a) "high" || String.eqb (severity a) "critical")
          then [SlackSink] else []
      | None => []
      end)
  ++ (if String.eqb (severity a) "critical" then [EmailSink] else []).

(** [generate_alert].  The dictionary literal is evaluated in key order:
    the id is computed first (clock reading [clock_reads m]), the
    timestamp second (the next reading).  On these typed inputs no
    statement of the [try] body raises, so the [except] branch that
    returns the empty dictionary is not taken. *)
Definition generate_alert (m : AlertManager) (event_data : dict)
    (threat_info : threat_result) (severity : option AlertSeverity)
  : AlertManager * alert :=
  let severity :=
    match severity with
    | Some s => s
    | None => calculate_severity threat_info
    end in
  let a := {|
    alert_id := generate_alert_id m;
    timestamp := utcnow_iso (S (clock_reads m));
    severity := value severity;
    alert_confidence := default (0 : Q) (confidence threat_info);
    source := dict_get event_data "source" (VStr "unknown");
    event_timestamp := dict_get event_data "timestamp" (VStr "");
    description := generate_description event_data threat_info;
    recommendations := generate_recommendations severity;
    event_data := event_data;
    threat_info := threat_info;
    status := "open";
    acknowledged_at := None;
    resolved_at := None;
    resolution_notes := None
  |} in
  ({| alert_history := alert_history m ++ [a];
      alert_count :=
        <[value severity := S (default 0%nat (alert_count m !! value severity))]>
          (alert_count m);
      clock_reads := S (S (clock_reads m)) |},
   a).

(** One [generate_alert] call after another, by a single writer. *)
Fixpoint generate_sequence (m : AlertManager)
    (inputs : list (dict * threat_result)) : AlertManager :=
  match inputs with
  | [] => m
  | (event_data, threat_info) :: rest =>
      generate_sequence (fst (generate_alert m event_data threat_info None)) rest
  end.

(** The loop of [generate_batch_alerts]; [i] is the position given by
    [enumerate].  [events[event_idx]] can raise [IndexError], which no
    handler catches: the alerts generated so far stay in the history. *)
Fixpoint batch_loop (events : list dict) (i : nat) (threat_results : list threat_result)
    (m : AlertManager) (alerts : list alert)
  : AlertManager * (exn + list alert) :=
  match threat_results with
  | [] => (m, inr alerts)
  | threat_result :: rest =>
      if opt_truthy (is_threat threat_result)
         || opt_truthy (exceeds_threshold threat_result)
      then
        let event_idx := default (Z.of_nat i) (index threat_result) in
        if event_idx <? Z.of_nat (length events) then
          match py_index events event_idx with
          | inl e => (m, inl e)
          | inr event_data =>
              let '(m', a) := generate_alert m event_data threat_result None in
              batch_loop events (S i) rest m' (alerts ++ [a])
          end
        else batch_loop events (S i) rest m alerts
      else batch_loop events (S i) rest m alerts
  end.

(** [generate_batch_alerts] *)
Definition generate_batch_alerts (m : AlertManager) (events : list dict)
    (threat_results : list threat_result)
  : AlertManager * (exn + list alert) :=
  batch_loop events 0 threat_results m [].

(** [alert['status'] = 'acknowledged'; alert['acknowledged_at'] = now] *)
Definition set_acknowledged (now : string) (a : alert) : alert := {|
  alert_id := alert_id a;
  timestamp := timestamp a;
  severity := severity a;
  alert_confidence := alert_confidence a;
  source := source a;
  event_timestamp := event_timestamp a;
  description := description a;
  recommendations := recommendations a;
  event_data := event_data a;
  threat_info := threat_info a;
  status := "acknowledged";
  acknowledged_at := Some now;
  resolved_at := resolved_at a;
  resolution_notes := resolution_notes a
|}.

(** [alert['status'] = 'resolved'; alert['resolved_at'] = now;
    alert['resolution_notes'] = notes] *)
Definition set_resolved (now notes : string) (a : alert) : alert := {|
  alert_id := alert_id a;
  timestamp := timestamp a;
  severity := severity a;
  alert_confidence := alert_confidence a;
  source := source a;
  event_timestamp := event_timestamp a;
  description := description a;
  recommendations := recommendations a;
  event_data := event_data a;
  threat_info := threat_info a;
  status := "resolved";
  acknowledged_at := acknowledged_at a;
  resolved_at := Some now;
  resolution_notes := Some notes
|}.

(** [for alert in self.alert_history: if alert['alert_id'] == alert_id:
    <update>; return True] followed by [return False]: the first alert
    with that id is updated in place. *)
Fixpoint update_first (update : alert -> alert) (id : string) (history : list alert)
  : list alert * bool :=
  match history with
  | [] => ([], false)
  | a :: rest =>
      if String.eqb (alert_id a) id then (update a :: rest, true)
      else let '(rest', found) := update_first update id rest in (a :: rest', found)
  end.

(** [acknowledge_alert]: the clock is read only when the id is found. *)
Definition acknowledge_alert (m : AlertManager) (id : string) : AlertManager * bool :=
  let now := utcnow_iso (clock_reads m) in
  let '(history, found) := update_first (set_acknowledged now) id (alert_history m) in
  ({| alert_history := history;
      alert_count := alert_count m;
      clock_reads := if found then S (clock_reads m) else clock_reads m |},
   found).

(** [resolve_alert] *)
Definition resolve_alert (m : AlertManager) (id : string) (notes : string)
  : AlertManager * bool :=
  let now := utcnow_iso (clock_reads m) in
  let '(history, found) := update_first (set_resolved now notes) id (alert_history m) in
  ({| alert_history := history;
      alert_count := alert_count m;
      clock_reads := if found then S (clock_reads m) else clock_reads m |},
   found).

(** The alert an id denotes: the first one in the history carrying it. *)
Definition find_alert (id : string) (history : list alert) : option alert :=
  List.find (fun a => String.eqb (alert_id a) id) history.

End WithEnvironment.

(** *** Queries

    [get_active_alerts] and [get_alert_statistics] read the history
    without changing it. *)

(** [alerts.sort(key=lambda x: x['timestamp'], reverse=True)]: the stable
    sort, newest first; alerts with equal timestamps keep their order.
    An alert is placed before the first one that is strictly older. *)
Fixpoint insert_newest_first (a : alert) (sorted : list alert) : list alert :=
  match sorted with
  | [] => [a]
  | b :: rest =>
      if String.leb (timestamp a) (timestamp b) then b :: insert_newest_first a rest
      else a :: b :: rest
  end.

Definition sort_newest_first (alerts : list alert) : list alert :=
  fold_left (fun sorted a => insert_newest_first a sorted) alerts [].

(** [l[:limit]], with Python's reading of a negative bound. *)
Definition slice_to {A : Type} (limit : Z) (l : list A) : list A :=
  if limit <? 0 then firstn (Z.to_nat (Z.of_nat (length l) + limit)) l
  else firstn (Z.to_nat limit) l.

Definition is_open (a : alert) : bool := String.eqb (status a) "open".

(** [get_active_alerts(severity, limit)]; the filter is skipped for
    [None] and for the empty string. *)
Definition get_active_alerts (m : AlertManager) (severity : option string) (limit : Z)
  : list alert :=
  let alerts := List.filter is_open (alert_history m) in
  let alerts :=
    match severity with
    | Some s =>
        if String.eqb s "" then alerts
        else List.filter (fun a => String.eqb (Alerts.severity a) s) alerts
    | None => alerts
    end in
  slice_to limit (sort_newest_first alerts).

(** The dictionary returned by [get_alert_statistics]. *)
Record statistics : Type := {
  total_alerts : nat;
  active_alerts : nat;
  by_severity : gmap string nat;
  recent_alerts : list alert
}.

(** [get_alert_statistics] *)
Definition get_alert_statistics (m : AlertManager) : statistics := {|
  total_alerts := length (alert_history m);
  active_alerts := length (List.filter is_open (alert_history m));
  by_severity := alert_count m;
  recent_alerts := get_active_alerts m None 10
|}.

(** The fields of an alert that no operation writes after its creation. *)
Definition core (a : alert)
  : string * string * string * Q * pyval * pyval * string * list string
    * dict * threat_result :=
  (alert_id a, timestamp a, severity a, alert_confidence a, source a,
   event_timestamp a, description a, recommendations a, event_data a,
   threat_info a).

(** The number of alerts of a history that carry a severity. *)
Definition count_severity (s : string) (history : list alert) : nat :=
  length (List.filter (fun a => String.eqb (severity a) s) history).

(** The counters agree with the history: every alert has one of the four
    severities and each counter is the number of alerts of its severity. *)
Definition consistent (m : AlertManager) : Prop :=
  (forall a, In a (alert_history m) -> exists sev, severity a = value sev)
  /\ forall sev,
       alert_count m !! value sev = Some (count_severity (value sev) (alert_history m)).

(** The order of the enumeration: Low < Medium < High < Critical. *)
Definition rank (s : AlertSeverity) : nat :=
  match s with
  | LOW => 0
  | MEDIUM => 1
  | HIGH => 2
  | CRITICAL => 3
  end.

End Alerts.

(** ** data_collection/unified_collector.py *)

Module Collector.
Import Py.

(** [queue.Queue(maxsize)]: the items in arrival order. *)
Record Queue : Type := {
  maxsize : nat;
  items : list dict
}.

Definition qsize (q : Queue) : nat := length (items q).

(** [Queue.full()]: [0 < maxsize <= qsize]. *)
Definition full (q : Queue) : bool :=
  (0 <? maxsize q)%nat && (maxsize q <=? qsize q)%nat.

(** [Queue.empty()] *)
Definition empty (q : Queue) : bool := (qsize q =? 0)%nat.

(** [Queue.put(item)] with its defaults [block=True, timeout=None]: the
    item is appended when a slot is free; otherwise the calling thread
    waits for a slot, which is the result [None] here. *)
Definition put (q : Queue) (item : dict) : option Queue :=
  if (maxsize q =? 0)%nat || (qsize q <? maxsize q)%nat
  then Some {| maxsize := maxsize q; items := items q ++ [item] |}
  else None.

(** [Queue.get_nowait()]: [None] stands for the exception [queue.Empty]. *)
Definition get_nowait (q : Queue) : option (dict * Queue) :=
  match items q with
  | [] => None
  | item :: rest => Some (item, {| maxsize := maxsize q; items := rest |})
  end.

Inductive log_record : Type :=
| Warning (msg : string)
| Error (msg : string).

(** The collector object, with the records written to the logger. *)
Record UnifiedCollector : Type := {
  event_queue : Queue;
  running : bool;
  log : list log_record
}.

(** [UnifiedCollector.__init__] *)
#[warnings="-abstract-large-number"]
Definition init : UnifiedCollector := {|
  event_queue := {| maxsize := 10000; items := [] |};
  running := false;
  log := []
|}.

Definition with_queue (c : UnifiedCollector) (q : Queue) : UnifiedCollector :=
  {| event_queue := q; running := running c; log := log c |}.

Definition with_log (c : UnifiedCollector) (r : log_record) : UnifiedCollector :=
  {| event_queue := event_queue c; running := running c; log := log c ++ [r] |}.

(** The body of [for event in events] in [_collect_aws_logs] and
    [_collect_azure_logs], run without another thread in between;
    [None] when the thread is left waiting inside [put]. *)
Definition push (c : UnifiedCollector) (event : dict) : option UnifiedCollector :=
  if negb (full (event_queue c)) then
    match put (event_queue c) event with
    | Some q => Some (with_queue c q)
    | None => None
    end
  else Some (with_log c (Warning "Event queue is full, dropping event")).

(** [for event in events: ...] by one thread alone. *)
Fixpoint push_all (c : UnifiedCollector) (events : list dict) : option UnifiedCollector :=
  match events with
  | [] => Some c
  | event :: rest =>
      match push c event with
      | Some c' => push_all c' rest
      | None => None
      end
  end.

(** [get_events(max_events)]: at most [max_events] items, oldest first. *)
Fixpoint get_events (max_events : nat) (q : Queue) : list dict * Queue :=
  match max_events with
  | O => ([], q)
  | S n =>
      if negb (empty q) then
        match get_nowait q with
        | Some (event, q') =>
            let '(events, q'') := get_events n q' in (event :: events, q'')
        | None => ([], q)
        end
      else ([], q)
  end.

(** *** The two collection threads and the consumer, interleaved

    Each operation of [queue.Queue] is atomic (it holds the queue's
    mutex), but a thread can be preempted between two of them, notably
    between [full()] and [put()]. *)

Inductive producer : Type := Aws | Azure.

(** Where a collection thread stands in its loop. *)
Inductive pc : Type :=
| Polling                                    (* about to call get_recent_events *)
| AtFullCheck (pending : list dict)          (* at [if not self.event_queue.full()] *)
| AtPut (event : dict) (pending : list dict). (* the test passed, at [put(event)] *)

Record system : Type := {
  collector : UnifiedCollector;
  aws : pc;
  azure : pc
}.

Definition pc_of (who : producer) (s : system) : pc :=
  match who with Aws => aws s | Azure => azure s end.

Definition set_pc (who : producer) (p : pc) (c : UnifiedCollector) (s : system) : system :=
  match who with
  | Aws => {| collector := c; aws := p; azure := azure s |}
  | Azure => {| collector := c; aws := aws s; azure := p |}
  end.

Inductive action : Type :=
| Poll (who : producer) (events : list dict) (* get_recent_events returned events *)
| Step (who : producer)                      (* the thread runs its next operation *)
| Get.                                       (* the consumer runs one get_nowait *)

(** One atomic step; [None] when the action is not enabled: a thread
    waiting inside [put] cannot run. *)
Definition step (a : action) (s : system) : option system :=
  let c := collector s in
  match a with
  | Poll who events =>
      match pc_of who s with
      | Polling => Some (set_pc who (AtFullCheck events) c s)
      | _ => None
      end
  | Step who =>
      match pc_of who s with
      | Polling => None
      | AtFullCheck [] => Some (set_pc who Polling c s)
      | AtFullCheck (event :: pending) =>
          if negb (full (event_queue c)) then Some (set_pc who (AtPut event pending) c s)
          else Some (set_pc who (AtFullCheck pending)
                       (with_log c (Warning "Event queue is full, dropping event")) s)
      | AtPut event pending =>
          match put (event_queue c) event with
          | Some q => Some (set_pc who (AtFullCheck pending) (with_queue c q) s)
          | None => None
          end
      end
  | Get =>
      match get_nowait (event_queue c) with
      | Some (_, q) => Some {| collector := with_queue c q; aws := aws s; azure := azure s |}
      | None => Some s
      end
  end.

Fixpoint run (trace : list action) (s : system) : option system :=
  match trace with
  | [] => Some s
  | a :: rest =>
      match step a s with
      | Some s' => run rest s'
      | None => None
      end
  end.

(** [start_collection]: both threads at the top of their loop. *)
Definition start (c : UnifiedCollector) : system :=
  {| collector := {| event_queue := event_queue c; running := true; log := log c |};
     aws := Polling; azure := Polling |}.

Definition reachable (s : system) : Prop :=
  exists trace, run trace (start init) = Some s.

(** A thread is blocked when it stands at [put] and [put] cannot return. *)
Definition blocked (who : producer) (s : system) : Prop :=
  exists event pending,
    pc_of who s = AtPut event pending /\ step (Step who) s = None.

(** The occupancy bound of the buffer. *)
#[warnings="-abstract-large-number"]
Definition bounded (s : system) : Prop :=
  maxsize (event_queue (collector s)) = 10000%nat
  /\ (0 < maxsize (event_queue (collector s)))%nat
  /\ (qsize (event_queue (collector s)) <= maxsize (event_queue (collector s)))%nat.

(** The AWS thread runs alone: the Azure thread is idle, and whenever the
    AWS thread stands at [put] the slot seen by [full()] is still free. *)
Definition alone (s : system) : Prop :=
  azure s = Polling
  /\ (0 < maxsize (event_queue (collector s)))%nat
  /\ forall event pending,
       aws s = AtPut event pending ->
       (qsize (event_queue (collector s)) < maxsize (event_queue (collector s)))%nat.

(** Schedules in which the Azure thread never receives events. *)
Definition no_azure_poll (a : action) : Prop :=
  match a with Poll Azure _ => False | _ => True end.

(** *** Accounting for events

    Where the events handed to the threads are: still held by a thread,
    in the queue, or dropped with a warning. *)

(** The events a thread still has to offer. *)
Definition pending (p : pc) : nat :=
  match p with
  | Polling => 0
  | AtFullCheck events => length events
  | AtPut _ events => S (length events)
  end.

Definition accounted (s : system) : nat :=
  qsize (event_queue (collector s)) + length (log (collector s))
  + pending (aws s) + pending (azure s).

(** The events handed over by the polls of a schedule, and its number of
    consumer steps. *)
Fixpoint polled (trace : list action) : nat :=
  match trace with
  | [] => 0
  | Poll _ events :: rest => length events + polled rest
  | _ :: rest => polled rest
  end.

Fixpoint gets (trace : list action) : nat :=
  match trace with
  | [] => 0
  | Get :: rest => S (gets rest)
  | _ :: rest => gets rest
  end.

End Collector.

(** ** preprocessing/feature_extractor.py *)

Module Features.
Import Py.

(** The value stored under a feature name. *)
Inductive fval : Type :=
| FInt (z : Z)
| FFloat (q : Q)
| FVal (v : pyval).

(** [datetime]: the two fields the extractor reads. *)
Record datetime : Type := {
  hour : Z;
  weekday : Z
}.

(** [self.ip_cache] *)
Record FeatureExtractor : Type := {
  ip_cache : gmap string Q
}.

(** [FeatureExtractor.__init__] *)
Definition init : FeatureExtractor := {| ip_cache := ∅ |}.

Definition SUSPICIOUS_AGENTS : list string :=
  ["bot"; "crawler"; "scanner"; "sqlmap"; "nikto"; "nmap"].

Definition MALICIOUS_PATTERNS : list string :=
  [ "(?i)(select|union|insert|drop|delete|update|exec|script)";
    "(?i)(<script|javascript:|onerror=|onclick=)";
    "(?i)(\.\.\/|\.\.\\)";
    "(?i)(cmd\.exe|/bin/bash|/bin/sh)";
    "(?i)(base64_decode|eval\(|system\()" ].

(** [needle in hay] on strings. *)
Fixpoint contains (needle hay : string) : bool :=
  String.prefix needle hay
  || match hay with
     | EmptyString => false
     | String _ rest => contains needle rest
     end.

Definition lower_char (c : ascii) : ascii :=
  let n := nat_of_ascii c in
  if (65 <=? n)%nat && (n <=? 90)%nat then ascii_of_nat (n + 32) else c.

(** [s.lower()] (on ASCII text). *)
Fixpoint lower (s : string) : string :=
  match s with
  | EmptyString => EmptyString
  | String c rest => String (lower_char c) (lower rest)
  end.

(** [c.isalnum()] (on ASCII text). *)
Definition isalnum (c : ascii) : bool :=
  let n := nat_of_ascii c in
  ((48 <=? n)%nat && (n <=? 57)%nat)
  || ((65 <=? n)%nat && (n <=? 90)%nat)
  || ((97 <=? n)%nat && (n <=? 122)%nat).

(** [s.replace('Z', '+00:00')] *)
Fixpoint replace_Z (s : string) : string :=
  match s with
  | EmptyString => EmptyString
  | String c rest =>
      if Ascii.eqb c "Z"%char then "+00:00" +:+ replace_Z rest
      else String c (replace_Z rest)
  end.

(** [s.split('.')] *)
Fixpoint split_dot_go (cur : string) (s : string) : list string :=
  match s with
  | EmptyString => [cur]
  | String c rest =>
      if Ascii.eqb c "."%char then cur :: split_dot_go EmptyString rest
      else split_dot_go (cur +:+ String c EmptyString) rest
  end.

Definition split_dot (s : string) : list string := split_dot_go EmptyString s.

Definition hex_digit (c : ascii) : Z :=
  let n := Z.of_nat (nat_of_ascii c) in
  if (48 <=? n) && (n <=? 57) then n - 48
  else if (97 <=? n) && (n <=? 102) then n - 87
  else if (65 <=? n) && (n <=? 70) then n - 55
  else 0.

(** [int(s, 16)] on a string of hexadecimal digits. *)
Definition int_of_hex (s : string) : Z :=
  fold_left (fun acc c => 16 * acc + hex_digit c) (list_ascii_of_string s) 0.

(** [min(count / 10.0, 1.0)] *)
Definition score_of_count (count : nat) : Q :=
  Qmin (inject_Z (Z.of_nat count) / 10) 1.

(** [freq[char] = freq.get(char, 0) + 1] over the text, keys in order of
    first occurrence. *)
Fixpoint bump (c : ascii) (freq : list (ascii * nat)) : list (ascii * nat) :=
  match freq with
  | [] => [(c, 1%nat)]
  | (c', n) :: rest =>
      if Ascii.eqb c' c then (c', S n) :: rest else (c', n) :: bump c rest
  end.

Definition char_freq (text : string) : list (ascii * nat) :=
  fold_left (fun freq c => bump c freq) (list_ascii_of_string text) [].

Section WithLibraries.

(** [hashlib.md5(s.encode()).hexdigest()]; [inl UnicodeEncodeError] when
    [encode] raises, as it does on a text that holds a lone surrogate
    (which [json.loads] accepts in a log line). *)
Variable md5_hexdigest : string -> exn + string.
(** [repr(v)], the value of [str(v)] when [v] is not a string; [inl] when
    it raises: [ValueError] on an integer of more than 4300 digits,
    [RecursionError] on a value nested too deeply. *)
Variable py_repr : pyval -> exn + string.
(** [datetime.fromisoformat(s)]; [None] when it raises [ValueError]. *)
Variable fromisoformat : string -> option datetime.
(** [int(s)]; [None] when it raises [ValueError]. *)
Variable py_int : string -> option Z.
(** [len(re.findall(pattern, text))] *)
Variable findall_count : string -> string -> nat.
(** [np.log2] *)
Variable log2 : Q -> Q.

(** [str(v)] *)
Definition str (v : pyval) : exn + string :=
  match v with
  | VStr s => inr s
  | _ => py_repr v
  end.

(** [_hash_value] *)
Definition hash_value (value : string) : exn + Z :=
  if String.eqb value "" || String.eqb value "unknown" then inr 0
  else
    digest <- md5_hexdigest value ;;
    inr (int_of_hex (substring 0 8 digest) mod 1000000).

(** [_is_private_ip]: every exception of the body returns 0. *)
Definition is_private_ip (ip : string) : Z :=
  match split_dot ip with
  | [o0; o1; _; _] =>
      match py_int o0 with
      | None => 0
      | Some first =>
          match py_int o1 with
          | None => 0
          | Some second =>
              if first =? 10 then 1
              else if (first =? 172) && (16 <=? second) && (second <=? 31) then 1
              else if (first =? 192) && (second =? 168) then 1
              else 0
          end
      end
  | _ => 0
  end.

(** [_get_ip_reputation], with the cache it fills. *)
Definition get_ip_reputation (fe : FeatureExtractor) (ip : string)
  : Q * FeatureExtractor :=
  match ip_cache fe !! ip with
  | Some score => (score, fe)
  | None =>
      let score := if is_private_ip ip =? 0 then 5 # 10 else 9 # 10 in
      (score, {| ip_cache := <[ip := score]> (ip_cache fe) |})
  end.

(** [_check_suspicious_agent] *)
Definition check_suspicious_agent (user_agent : pyval) : exn + Z :=
  text <- str user_agent ;;
  let user_agent_lower := lower text in
  inr (if existsb (fun agent => contains agent user_agent_lower) SUSPICIOUS_AGENTS
       then 1 else 0).

(** [_check_pattern]; [re.findall] does not raise on the fixed patterns. *)
Definition check_pattern (text pattern : string) : Q :=
  score_of_count (findall_count pattern text).

(** [_calculate_entropy] *)
Definition calculate_entropy (text : string) : Q :=
  if String.eqb text "" then 0
  else
    let length := inject_Z (Z.of_nat (String.length text)) in
    fold_left
      (fun entropy '(_, count) =>
         let p := (inject_Z (Z.of_nat count) / length)%Q in
         (entropy - p * log2 p)%Q)
      (char_freq text) (0 : Q).

Definition temporal_sentinels : gmap string fval :=
  <["hour" := FInt (-1)]> (<["day_of_week" := FInt (-1)]>
    (<["is_weekend" := FInt 0]> (<["is_business_hours" := FInt 0]>
      (<["is_night" := FInt 0]> ∅)))).

(** The [try] body of [_extract_temporal_features]. *)
Definition temporal_body (log_event : dict) : exn + gmap string fval :=
  let timestamp_str := dict_get log_event "timestamp" (VStr "") in
  if truthy timestamp_str then
    s <- match timestamp_str with
         | VStr s => inr s
         | _ => inl AttributeError
         end ;;
    dt <- match fromisoformat (replace_Z s) with
          | Some dt => inr dt
          | None => inl ValueError
          end ;;
    inr (<["hour" := FInt (hour dt)]> (<["day_of_week" := FInt (weekday dt)]>
      (<["is_weekend" := FInt (if 5 <=? weekday dt then 1 else 0)]>
        (<["is_business_hours" :=
             FInt (if (9 <=? hour dt) && (hour dt <=? 17) then 1 else 0)]>
          (<["is_night" :=
               FInt (if (hour dt <? 6) || (22 <? hour dt) then 1 else 0)]> ∅)))))
  else inr temporal_sentinels.

(** [_extract_temporal_features]: any exception of the body is caught
    and replaced by the sentinels. *)
Definition extract_temporal_features (log_event : dict) : gmap string fval :=
  match temporal_body log_event with
  | inr features => features
  | inl _ => temporal_sentinels
  end.

(** [_extract_network_features].  [message.get] and [raw_data.get] raise
    [AttributeError] on a value that is not a dictionary, and [str] and
    [_hash_value] can raise on the address, all before the cache is
    touched; [str] can raise on the user agent after the cache has been
    filled.  An exception leaves with the cache as it is at that point. *)
Definition extract_network_features (fe : FeatureExtractor) (log_event : dict)
  : exn * FeatureExtractor + gmap string fval * FeatureExtractor :=
  let message := dict_get log_event "message" (VDict []) in
  let raw_data := dict_get log_event "raw_data" (VDict []) in
  let address : exn + string * Z :=
    a <- py_get message "ip_address" VNone ;;
    ip_address <-
      py_or a (b <- py_get message "IPAddress" VNone ;;
               py_or b (c <- py_get raw_data "ip_address" VNone ;;
                        py_or c (inr (VStr "unknown")))) ;;
    ip <- str ip_address ;;
    ip_address_hash <- hash_value ip ;;
    inr (ip, ip_address_hash) in
  match address with
  | inl e => inl (e, fe)
  | inr (ip, ip_address_hash) =>
      let '(score, fe') := get_ip_reputation fe ip in
      let agent : exn + Z * string :=
        ua <- py_get message "user_agent" (VStr "") ;;
        user_agent <- py_or ua (py_get message "UserAgent" (VStr "")) ;;
        is_suspicious_agent <- check_suspicious_agent user_agent ;;
        text <- str user_agent ;;
        inr (is_suspicious_agent, text) in
      match agent with
      | inl e => inl (e, fe')
      | inr (is_suspicious_agent, text) =>
          inr (<["ip_address_hash" := FInt ip_address_hash]>
                (<["is_private_ip" := FInt (is_private_ip ip)]>
                  (<["ip_reputation_score" := FFloat score]>
                    (<["is_suspicious_agent" := FInt is_suspicious_agent]>
                      (<["user_agent_length" :=
                           FInt (Z.of_nat (String.length text))]> ∅)))),
               fe')
      end
  end.

(** [_extract_event_features] *)
Definition extract_event_features (log_event : dict) : exn + gmap string fval :=
  let message := dict_get log_event "message" (VDict []) in
  e <- py_or (dict_get log_event "event_id" (VStr ""))
             (py_get message "EventID" (VStr "unknown")) ;;
  event_id <- str e ;;
  activity <- py_or (dict_get log_event "activity" (VStr ""))
                    (py_get message "Activity" (VStr "")) ;;
  category <- py_or (dict_get log_event "category" (VStr ""))
                    (py_get message "Category" (VStr "unknown")) ;;
  event_id_hash <- hash_value event_id ;;
  activity_str <- str activity ;;
  activity_hash <- hash_value activity_str ;;
  category_str <- str category ;;
  category_hash <- hash_value category_str ;;
  result_type <-
    py_or (dict_get log_event "result_type" VNone)
          (r <- py_get message "ResultType" VNone ;;
           py_or r (st <- py_get message "Status" VNone ;;
                    py_or st (inr (VStr "unknown")))) ;;
  result_str <- str result_type ;;
  identity <- py_or (dict_get log_event "identity" (VStr ""))
                    (py_get message "Identity" (VStr "")) ;;
  identity_str <- str identity ;;
  identity_hash <- hash_value identity_str ;;
  inr (<["event_id_hash" := FInt event_id_hash]>
        (<["activity_hash" := FInt activity_hash]>
          (<["category_hash" := FInt category_hash]>
            (<["is_failure" :=
                 FInt (if contains "fail" (lower result_str) then 1 else 0)]>
              (<["is_success" :=
                   FInt (if contains "success" (lower result_str) then 1 else 0)]>
                (<["identity_hash" := FInt identity_hash]>
                  (<["has_identity" := FInt (if truthy identity then 1 else 0)]> ∅))))))).

(** [_extract_pattern_features] *)
Definition extract_pattern_features (log_event : dict) : exn + gmap string fval :=
  text <- str (VDict log_event) ;;
  let log_str := lower text in
  let pat i := nth i MALICIOUS_PATTERNS "" in
  let sql := check_pattern log_str (pat 0%nat) in
  let xss := check_pattern log_str (pat 1%nat) in
  let path := check_pattern log_str (pat 2%nat) in
  let cmd := check_pattern log_str (pat 3%nat) in
  let code := check_pattern log_str (pat 4%nat) in
  inr (<["sql_injection_score" := FFloat sql]>
    (<["xss_score" := FFloat xss]>
      (<["path_traversal_score" := FFloat path]>
        (<["command_injection_score" := FFloat cmd]>
          (<["code_execution_score" := FFloat code]>
            (<["overall_malicious_score" :=
                 FFloat ((sql + xss + path + cmd + code) / 5)%Q]> ∅)))))).

(** [_extract_statistical_features] *)
Definition extract_statistical_features (log_event : dict) : exn + gmap string fval :=
  let message := dict_get log_event "message" (VDict []) in
  message_str <- str message ;;
  inr (<["message_length" := FInt (Z.of_nat (String.length message_str))]>
    (<["num_special_chars" :=
         FInt (Z.of_nat (length (filter (fun c => negb (isalnum c))
                                        (list_ascii_of_string message_str))))]>
      (<["entropy" := FFloat (calculate_entropy message_str)]>
        (<["num_fields" :=
             FInt (match message with
                   | VDict d => Z.of_nat (length d)
                   | _ => 0
                   end)]> ∅)))).

(** [features.update(more)] *)
Definition update (features more : gmap string fval) : gmap string fval :=
  more ∪ features.

(** The [try] body of [extract_features].  The cache keeps what the
    network extraction stored in it, also when a later step raises. *)
Definition extract_body (fe : FeatureExtractor) (log_event : dict)
  : exn * FeatureExtractor + gmap string fval * FeatureExtractor :=
  let features :=
    <["timestamp" := FVal (dict_get log_event "timestamp" (VStr ""))]>
      (<["source" := FVal (dict_get log_event "source" (VStr "unknown"))]> ∅) in
  let features := update features (extract_temporal_features log_event) in
  match extract_network_features fe log_event with
  | inl failure => inl failure
  | inr (network, fe') =>
      let features := update features network in
      let rest : exn + gmap string fval :=
        event <- extract_event_features log_event ;;
        let features := update features event in
        pattern <- extract_pattern_features log_event ;;
        let features := update features pattern in
        statistical <- extract_statistical_features log_event ;;
        inr (update features statistical) in
      match rest with
      | inl e => inl (e, fe')
      | inr features => inr (features, fe')
      end
  end.

(** [extract_features]: any exception of the body is logged and the
    empty dictionary is returned. *)
Definition extract_features (fe : FeatureExtractor) (log_event : dict)
  : gmap string fval * FeatureExtractor :=
  match extract_body fe log_event with
  | inr r => r
  | inl (_, fe') => (∅, fe')
  end.

(** The score [_get_ip_reputation] computes for an address it has not
    cached. *)
Definition computed_reputation (ip : string) : Q :=
  if is_private_ip ip =? 0 then 5 # 10 else 9 # 10.

(** A cache that holds nothing but computed scores. *)
Definition cache_sound (fe : FeatureExtractor) : Prop :=
  forall ip score, ip_cache fe !! ip = Some score -> score = computed_reputation ip.

End WithLibraries.

Definition temporal_names : list string :=
  ["hour"; "day_of_week"; "is_weekend"; "is_business_hours"; "is_night"].

Definition network_names : list string :=
  ["ip_address_hash"; "is_private_ip"; "ip_reputation_score";
   "is_suspicious_agent"; "user_agent_length"].

Definition event_names : list string :=
  ["event_id_hash"; "activity_hash"; "category_hash"; "is_failure";
   "is_success"; "identity_hash"; "has_identity"].

Definition pattern_names : list string :=
  ["sql_injection_score"; "xss_score"; "path_traversal_score";
   "command_injection_score"; "code_execution_score"; "overall_malicious_score"].

Definition statistical_names : list string :=
  ["message_length"; "num_special_chars"; "entropy"; "num_fields"].

(** Every name [extract_features] assigns on a run without exception. *)
Definition declared_features : list string :=
  ["source"; "timestamp"] ++ temporal_names ++ network_names ++ event_names
  ++ pattern_names ++ statistical_names.

End Features.

(** ** preprocessing/preprocessor.py *)

Module Preprocessor.
Import Py.

(** A floating-point cell of a numeric column. *)
Inductive cell : Type :=
| Num (q : Q)
| NaN
| PosInf
| NegInf.

(** A column with its dtype: [np.number] or anything else (object, bool,
    datetime). *)
Inductive column : Type :=
| NumCol (values : list cell)
| ObjCol (values : list pyval).

(** A [pandas.DataFrame]: the row count and the named columns in order;
    column names are unique, as they are for a frame built from a list of
    dictionaries. *)
Record DataFrame : Type := {
  nrows : nat;
  columns : list (string * column)
}.

(** [self.feature_columns]; [None] before any training call. *)
Record LogPreprocessor : Type := {
  feature_columns : option (list string)
}.

(** [LogPreprocessor.__init__] *)
Definition init : LogPreprocessor := {| feature_columns := None |}.

(** [df.empty]: an axis of length zero. *)
Definition df_empty (df : DataFrame) : bool :=
  (nrows df =? 0)%nat || match columns df with [] => true | _ => false end.

(** A frame of numeric columns only. *)
Definition numeric_frame : Type := list (string * list cell).

(** [df.select_dtypes(include=[np.number])] *)
Fixpoint select_numeric (cols : list (string * column)) : numeric_frame :=
  match cols with
  | [] => []
  | (name, NumCol values) :: rest => (name, values) :: select_numeric rest
  | (_, ObjCol _) :: rest => select_numeric rest
  end.

(** [numeric_features.drop(columns=[col for col in ['timestamp'] if col in
    numeric_features.columns], errors='ignore')] *)
Definition drop_timestamp (nf : numeric_frame) : numeric_frame :=
  filter (fun '(name, _) => negb (String.eqb name "timestamp")) nf.

Fixpoint column_of (name : string) (nf : numeric_frame) : option (list cell) :=
  match nf with
  | [] => None
  | (name', values) :: rest =>
      if String.eqb name' name then Some values else column_of name rest
  end.

(** [for col in self.feature_columns: if col not in numeric_features.columns:
    numeric_features[col] = 0] *)
Fixpoint add_missing (n : nat) (feature_columns : list string) (nf : numeric_frame)
  : numeric_frame :=
  match feature_columns with
  | [] => nf
  | col :: rest =>
      match column_of col nf with
      | Some _ => add_missing n rest nf
      | None => add_missing n rest (nf ++ [(col, repeat (Num 0) n)])
      end
  end.

(** [numeric_features[self.feature_columns]]: the listed columns, in the
    order of the list; [None] stands for the [KeyError] of a missing name. *)
Fixpoint reindex (feature_columns : list string) (nf : numeric_frame)
  : option numeric_frame :=
  match feature_columns with
  | [] => Some []
  | col :: rest =>
      match column_of col nf, reindex rest nf with
      | Some values, Some cols => Some ((col, values) :: cols)
      | _, _ => None
      end
  end.

(** [fillna(0)] then [replace([np.inf, -np.inf], 0)] on one cell. *)
Definition clean (c : cell) : Q :=
  match c with
  | Num q => q
  | NaN => 0
  | PosInf => 0
  | NegInf => 0
  end.

(** [numeric_features.values] after cleaning: one list per row. *)
Definition row_at (nf : numeric_frame) (i : nat) : list Q :=
  map (fun '(_, values) => clean (nth i values NaN)) nf.

Definition values (n : nat) (nf : numeric_frame) : list (list Q) :=
  map (row_at nf) (seq 0 n).

(** [prepare_for_ml]: the new preprocessor and the array, [[]] for the
    empty array [np.array([])]. *)
Definition prepare_for_ml (p : LogPreprocessor) (df : DataFrame) (training : bool)
  : LogPreprocessor * list (list Q) :=
  if df_empty df then (p, [])
  else
    let numeric_features := drop_timestamp (select_numeric (columns df)) in
    if training then
      ({| feature_columns := Some (map fst numeric_features) |},
       values (nrows df) numeric_features)
    else
      match feature_columns p with
      | Some (col :: cols) =>
          let feature_columns := col :: cols in
          match reindex feature_columns
                  (add_missing (nrows df) feature_columns numeric_features) with
          | Some nf => (p, values (nrows df) nf)
          | None => (p, [])
          end
      | _ => (p, values (nrows df) numeric_features)
      end.

(** The one-row frame [pd.DataFrame([mapping])] of a numeric mapping. *)
Definition frame_of_mapping (mapping : list (string * cell)) : DataFrame :=
  {| nrows := 1;
     columns := map (fun '(name, c) => (name, NumCol [c])) mapping |}.

Section WithExtractor.

(** The library functions of the feature extractor. *)
Variable md5_hexdigest : string -> exn + string.
Variable py_repr : pyval -> exn + string.
Variable fromisoformat : string -> option Features.datetime.
Variable py_int : string -> option Z.
Variable findall_count : string -> string -> nat.
Variable log2 : Q -> Q.

(** The loop of [normalize_logs]: the feature dictionaries of the logs, in
    order, without those for which [extract_features] returned the empty
    dictionary ([if features:]). *)
Fixpoint processed_logs (fe : Features.FeatureExtractor) (raw_logs : list dict)
  : list (gmap string Features.fval) * Features.FeatureExtractor :=
  match raw_logs with
  | [] => ([], fe)
  | log :: rest =>
      let '(features, fe1) :=
        Features.extract_features md5_hexdigest py_repr fromisoformat py_int
          findall_count log2 fe log in
      let '(rows, fe2) := processed_logs fe1 rest in
      (if (size features =? 0)%nat then rows else features :: rows, fe2)
  end.

End WithExtractor.

(** [get_feature_names] *)
Definition get_feature_names (p : LogPreprocessor) : list string :=
  match feature_columns p with
  | Some (col :: cols) => col :: cols
  | _ => []
  end.

End Preprocessor.

(** ** ml_detection/threat_detector.py *)

Module Detector.
Import Py.

Record ThreatDetector : Type := {
  is_trained : bool
}.

Section WithModel.

(** [self.model.predict] and [self.model.predict_proba] of the fitted
    forest; [inl] when scikit-learn raises. *)
Variable model_predict : list (list Q) -> exn + list Z.
Variable model_predict_proba : list (list Q) -> exn + list (Q * Q).

(** [predict] *)
Definition predict (d : ThreatDetector) (X : list (list Q)) : list Z :=
  if negb (is_trained d) then repeat 0 (length X)
  else
    match model_predict X with
    | inr predictions => predictions
    | inl _ => repeat 0 (length X)
    end.

(** [predict_proba] *)
Definition predict_proba (d : ThreatDetector) (X : list (list Q)) : list (Q * Q) :=
  if negb (is_trained d) then repeat (5 # 10, 5 # 10)%Q (length X)
  else
    match model_predict_proba X with
    | inr probabilities => probabilities
    | inl _ => repeat (5 # 10, 5 # 10)%Q (length X)
    end.

(** The loop [for i in range(len(X))] of [detect_threats]; indexing a
    result shorter than [X] raises [IndexError]. *)
Fixpoint detect_loop (predictions : list Z) (probabilities : list (Q * Q))
    (threshold : Q) (indices : list nat)
  : exn + list Alerts.threat_result :=
  match indices with
  | [] => inr []
  | i :: rest =>
      p <- match nth_error probabilities i with
           | Some p => inr p
           | None => inl IndexError
           end ;;
      y <- match nth_error predictions i with
           | Some y => inr y
           | None => inl IndexError
           end ;;
      let threat_prob := snd p in
      let result := {|
        Alerts.index := Some (Z.of_nat i);
        Alerts.is_threat := Some (y =? 1);
        Alerts.confidence := Some threat_prob;
        Alerts.prediction := Some y;
        Alerts.exceeds_threshold := Some (Qle_bool threshold threat_prob)
      |} in
      results <- detect_loop predictions probabilities threshold rest ;;
      inr (result :: results)
  end.

(** [detect_threats]: an exception inside returns the empty list. *)
Definition detect_threats (cfg : Config.t) (d : ThreatDetector) (X : list (list Q))
    (threshold : option Q)
  : list Alerts.threat_result :=
  let threshold :=
    match threshold with
    | Some t => t
    | None => Config.CONFIDENCE_THRESHOLD cfg
    end in
  match detect_loop (predict d X) (predict_proba d X) threshold (seq 0 (length X)) with
  | inr results => results
  | inl _ => []
  end.

End WithModel.

End Detector.

(** ** Test fixtures used in the statements below *)

(** A classification result that carries only a confidence. *)
Definition scored (c : Q) : Alerts.threat_result := {|
  Alerts.index := None;
  Alerts.is_threat := None;
  Alerts.confidence := Some c;
  Alerts.prediction := None;
  Alerts.exceeds_threshold := None
|}.

(** A result as [detect_threats] builds it, with the given flags. *)
Definition flagged (i : Z) (threat exceeds : bool) (c : Q) : Alerts.threat_result := {|
  Alerts.index := Some i;
  Alerts.is_threat := Some threat;
  Alerts.confidence := Some c;
  Alerts.prediction := Some (if threat then 1 else 0);
  Alerts.exceeds_threshold := Some exceeds
|}.

(** The reconciled value of one registered name in row [i], in the words
    of the specification: the cleaned cell of the produced numeric column
    of that name, or 0 when there is none. *)
Definition reconciled (nf : Preprocessor.numeric_frame) (i : nat) (col : string) : Q :=
  match Preprocessor.column_of col nf with
  | Some values => Preprocessor.clean (nth i values Preprocessor.NaN)
  | None => 0
  end.

(** An event that carries only its source tag. *)
Definition event_from (source : string) : Py.dict := [("source", Py.VStr source)].


(** A schedule of the two collection threads that fills the queue up to
    one free slot from the AWS thread alone, then lets both threads pass
    the [full()] test before either of them calls [put]. *)
Definition race_schedule : list Collector.action :=
  [Collector.Poll Collector.Aws (repeat (event_from "aws") 9999)]
  ++ repeat (Collector.Step Collector.Aws) (2 * 9999 + 1)
  ++ [ Collector.Poll Collector.Aws [event_from "aws"];
       Collector.Poll Collector.Azure [event_from "azure"];
       Collector.Step Collector.Aws;     (* AWS: full() is False *)
       Collector.Step Collector.Azure;   (* Azure: full() is False *)
       Collector.Step Collector.Aws ].   (* AWS: put() takes the last slot *)

(** The state that schedule leads to: the queue is full, the AWS thread
    has finished its [put], the Azure thread is about to call its own. *)
#[warnings="-abstract-large-number"]
Definition race_state : Collector.system := {|
  Collector.collector := {|
    Collector.event_queue := {|
      Collector.maxsize := 10000;
      Collector.items := repeat (event_from "aws") 9999 ++ [event_from "aws"]
    |};
    Collector.running := true;
    Collector.log := []
  |};
  Collector.aws := Collector.AtFullCheck [];
  Collector.azure := Collector.AtPut (event_from "azure") []
|}.

(** [n] in decimal, padded with zeros on the left to [width] digits. *)
Definition zero_pad (width n : nat) : string :=
  let digits := pretty n in
  String.concat "" (repeat "0" (width - String.length digits)) +:+ digits.

(** [datetime.isoformat()] of 2026-11-04 08:00:00 plus [seconds] seconds
    (fewer than 16 hours) and [micro] microseconds (not zero). *)
Definition iso_time (seconds micro : nat) : string :=
  "2026-11-04T" +:+ zero_pad 2 (8 + seconds / 3600) +:+ ":"
  +:+ zero_pad 2 ((seconds / 60) mod 60) +:+ ":"
  +:+ zero_pad 2 (seconds mod 60) +:+ "." +:+ zero_pad 6 micro.

(** A strictly increasing clock: alert number [k] reads it twice in second
    [k] after 08:00:00, first for its id, then for its timestamp. *)
Definition steady_clock (reading : nat) : string :=
  let k := (reading / 2)%nat in
  let micro :=
    if Nat.even reading then
      if (k =? 3012)%nat then 5192%nat
      else if (k =? 3973)%nat then 2864%nat
      else 1%nat
    else 999999%nat in
  iso_time k micro.

(** Whether the character [_] occurs in a string. *)
Fixpoint has_underscore (s : string) : bool :=
  match s with
  | EmptyString => false
  | String c rest => Ascii.eqb c "_"%char || has_underscore rest
  end.

(** Stand-ins for [str], [repr] and [f"{x:.1f}"], used where a statement
    that holds for every such function is instantiated. *)
Definition plain_str (v : Py.pyval) : string :=
  match v with
  | Py.VStr s => s
  | Py.VNone => "None"
  | Py.VBool true => "True"
  | Py.VBool false => "False"
  | Py.VInt z => pretty z
  | _ => "..."
  end.

(** Text conversions that do not raise: [str] and [repr] as above, and
    the MD5 digest of a text that encodes. *)
Definition plain_repr (v : Py.pyval) : Py.exn + string := inr (plain_str v).

Definition plain_digest (s : string) : Py.exn + string := inr (MD5.hexdigest s).

Definition plain_format (q : Q) : string :=
  pretty (Qnum q * 10 / Zpos (Qden q) / 10) +:+ "."
  +:+ pretty ((Qnum q * 10 / Zpos (Qden q)) mod 10).

(** An open alert as [generate_alert] leaves it in the history. *)
Definition sample_alert : Alerts.alert := {|
  Alerts.alert_id := "751a1a3554ed";
  Alerts.timestamp := "2026-11-04T08:50:12.999999";
  Alerts.severity := "high";
  Alerts.alert_confidence := 9 # 10;
  Alerts.source := Py.VStr "aws";
  Alerts.event_timestamp := Py.VStr "";
  Alerts.description := "Potential security threat detected from aws with 90.0% confidence. ";
  Alerts.recommendations := Alerts.generate_recommendations Alerts.HIGH;
  Alerts.event_data := event_from "aws";
  Alerts.threat_info := scored (9 # 10);
  Alerts.status := "open";
  Alerts.acknowledged_at := None;
  Alerts.resolved_at := None;
  Alerts.resolution_notes := None
|}.

(** The alert generated 961 positions later, whose id is the same twelve
    digits (the identifier strings of the two alerts have MD5 digests
    that agree on their first 48 bits). *)
Definition twin_alert : Alerts.alert := {|
  Alerts.alert_id := "751a1a3554ed";
  Alerts.timestamp := "2026-11-04T09:06:13.999999";
  Alerts.severity := "high";
  Alerts.alert_confidence := 9 # 10;
  Alerts.source := Py.VStr "aws";
  Alerts.event_timestamp := Py.VStr "";
  Alerts.description := "Potential security threat detected from aws with 90.0% confidence. ";
  Alerts.recommendations := Alerts.generate_recommendations Alerts.HIGH;
  Alerts.event_data := event_from "aws";
  Alerts.threat_info := scored (9 # 10);
  Alerts.status := "open";
  Alerts.acknowledged_at := None;
  Alerts.resolved_at := None;
  Alerts.resolution_notes := None
|}.

(** A manager whose history holds both. *)
Definition twin_manager : Alerts.AlertManager := {|
  Alerts.alert_history := [sample_alert; twin_alert];
  Alerts.alert_count := <["high" := 2%nat]> (Alerts.alert_count Alerts.init);
  Alerts.clock_reads := 4
|}.

Definition sample_manager (a : Alerts.alert) : Alerts.AlertManager := {|
  Alerts.alert_history := [a];
  Alerts.alert_count := <["high" := 1%nat]> (Alerts.alert_count Alerts.init);
  Alerts.clock_reads := 2
|}.

(** Stand-ins for the remaining library functions: no timestamp parses,
    [int] reads plain decimal digits, no pattern matches, and the
    logarithm is flat. *)
Definition plain_fromisoformat (s : string) : option Features.datetime := None.

Definition plain_int (s : string) : option Z :=
  if String.eqb s "" then None
  else
    fold_left
      (fun acc c =>
         let n := Z.of_nat (nat_of_ascii c) in
         match acc with
         | Some z => if (48 <=? n) && (n <=? 57) then Some (10 * z + (n - 48)) else None
         | None => None
         end)
      (list_ascii_of_string s) (Some 0).

Definition plain_findall_count (pattern text : string) : nat := 0.

Definition plain_log2 (q : Q) : Q := 0.

(** An event as the Azure collector builds it, and one as the AWS
    collector builds it from a log line that is a JSON string literal:
    [json.loads] then returns a [str], not a dictionary. *)
Definition structured_event : Py.dict :=
  [ ("source", Py.VStr "azure");
    ("message", Py.VDict [("ip_address", Py.VStr "10.0.0.1");
                          ("ResultType", Py.VStr "Failure")]);
    ("raw_data", Py.VDict []) ].

Definition raw_text_event : Py.dict :=
  [ ("timestamp", Py.VStr "2026-11-04T08:50:12");
    ("log_stream", Py.VStr "app/web-1");
    ("message", Py.VStr "service started");
    ("source", Py.VStr "aws");
    ("event_id", Py.VStr "37021");
    ("raw_data", Py.VDict [("eventId", Py.VStr "37021")]) ].

(** A frame without any numeric column. *)
Definition text_only_frame : Preprocessor.DataFrame := {|
  Preprocessor.nrows := 1;
  Preprocessor.columns := [("source", Preprocessor.ObjCol [Py.VStr "aws"])]
|}.

(** Whether an alert passes the severity filter of [get_active_alerts]. *)
Definition severity_matches (severity : option string) (a : Alerts.alert) : bool :=
  match severity with
  | Some s => String.eqb s "" || String.eqb (Alerts.severity a) s
  | None => true
  end.

(** * Properties *)

(** ** Severity assignment *)

Section SeverityFacts.
Import Alerts.

Lemma Qle_bool_false (x y : Q) : (y < x)%Q -> Qle_bool x y = false.
Proof.
  intros Hlt. destruct (Qle_bool x y) eqn:E; [|reflexivity].
  apply Qle_bool_iff in E. exfalso. exact (Qlt_not_le _ _ Hlt E).
Qed.

Lemma Qle_bool_true (x y : Q) : (x <= y)%Q -> Qle_bool x y = true.
Proof. apply Qle_bool_iff. Qed.

(** Below the medium threshold the high test fails too, because the
    default thresholds are ordered. *)
Lemma below_medium_below_high (c : Q) : (c < 65 # 100)%Q -> (c < 85 # 100)%Q.
Proof. intros H. eapply Qlt_trans; [exact H | reflexivity]. Qed.

Lemma at_least_critical_at_least_high (c : Q) :
  (95 # 100 <= c)%Q -> (85 # 100 <= c)%Q.
Proof. intros H. eapply Qle_trans; [|exact H]. discriminate. Qed.

(** C3. With the default thresholds 0.65 and 0.85, a confidence below
    0.65 is Low, one in [0.65, 0.85) is Medium, one in [0.85, 0.95) is
    High, one of at least 0.95 is Critical; and 0.50, 0.70, 0.90, 0.97
    map to Low, Medium, High, Critical. *)
Theorem severity_by_thresholds (threat_info : threat_result) (c : Q) :
  confidence threat_info = Some c ->
  ((c < 65 # 100)%Q -> calculate_severity Config.default threat_info = LOW)
  /\ ((65 # 100 <= c)%Q -> (c < 85 # 100)%Q ->
      calculate_severity Config.default threat_info = MEDIUM)
  /\ ((85 # 100 <= c)%Q -> (c < 95 # 100)%Q ->
      calculate_severity Config.default threat_info = HIGH)
  /\ ((95 # 100 <= c)%Q -> calculate_severity Config.default threat_info = CRITICAL)
  /\ calculate_severity Config.default (scored (50 # 100)) = LOW
  /\ calculate_severity Config.default (scored (70 # 100)) = MEDIUM
  /\ calculate_severity Config.default (scored (90 # 100)) = HIGH
  /\ calculate_severity Config.default (scored (97 # 100)) = CRITICAL.
Proof.
  intros Hc. unfold calculate_severity. rewrite Hc. cbn [default Config.default
    Config.HIGH_SEVERITY_THRESHOLD Config.MEDIUM_SEVERITY_THRESHOLD from_option id].
  repeat split.
  - intros Hlow.
    rewrite (Qle_bool_false _ _ (below_medium_below_high c Hlow)).
    now rewrite (Qle_bool_false _ _ Hlow).
  - intros Hge Hlt.
    rewrite (Qle_bool_false _ _ Hlt). now rewrite (Qle_bool_true _ _ Hge).
  - intros Hge Hlt.
    rewrite (Qle_bool_true _ _ Hge). now rewrite (Qle_bool_false _ _ Hlt).
  - intros Hge.
    rewrite (Qle_bool_true _ _ (at_least_critical_at_least_high c Hge)).
    now rewrite (Qle_bool_true _ _ Hge).
Qed.

Lemma severity_by_thresholds_witness :
  calculate_severity Config.default (scored (70 # 100)) = MEDIUM
  /\ calculate_severity Config.default (scored (1 # 10)) = LOW
  /\ calculate_severity Config.default (scored (9 # 10)) = HIGH
  /\ calculate_severity Config.default (scored 1) = CRITICAL.
Proof.
  split; [|split; [|split]].
  - apply (proj1 (proj2 (severity_by_thresholds (scored (70 # 100)) (70 # 100) eq_refl)));
      unfold Qle, Qlt; simpl; lia.
  - apply (proj1 (severity_by_thresholds (scored (1 # 10)) (1 # 10) eq_refl));
      unfold Qlt; simpl; lia.
  - apply (proj1 (proj2 (proj2 (severity_by_thresholds (scored (9 # 10)) (9 # 10) eq_refl))));
      unfold Qle, Qlt; simpl; lia.
  - apply (proj1 (proj2 (proj2 (proj2 (severity_by_thresholds (scored 1) 1 eq_refl)))));
      unfold Qle; simpl; lia.
Defined.

(** The default of a missing confidence is 0.0, hence Low. *)
Lemma severity_without_confidence (threat_info : threat_result) :
  confidence threat_info = None ->
  calculate_severity Config.default threat_info = LOW.
Proof. intros H. unfold calculate_severity. now rewrite H. Qed.

End SeverityFacts.

(** ** Alert lifecycle *)

Section LifecycleFacts.
Import Alerts.

Variable utcnow_iso : nat -> string.

Lemma find_alert_none (id : string) (history : list alert) :
  find_alert id history = None <->
  (forall a, In a history -> alert_id a <> id).
Proof.
  unfold find_alert. split.
  - intros Hnone a Hin Heq.
    pose proof (find_none _ _ Hnone a Hin) as Hf. cbn in Hf.
    apply String.eqb_neq in Hf. contradiction.
  - intros Hall. induction history as [|a rest IH]; [reflexivity|].
    cbn. destruct (String.eqb (alert_id a) id) eqn:E.
    + apply String.eqb_eq in E. exfalso. exact (Hall a (or_introl eq_refl) E).
    + apply IH. intros b Hb. apply Hall. now right.
Qed.

(** While the ids of the history are pairwise distinct, every alert is the
    one its id denotes. *)
Lemma find_alert_of_member (history : list alert) (a : alert) :
  List.NoDup (map alert_id history) ->
  In a history ->
  find_alert (alert_id a) history = Some a.
Proof.
  unfold find_alert. induction history as [|x rest IH]; intros Hnd Hin; [contradiction|].
  cbn [map] in Hnd. apply List.NoDup_cons_iff in Hnd as [Hnotin Hnd].
  cbn [List.find]. destruct (String.eqb (alert_id x) (alert_id a)) eqn:E.
  - apply String.eqb_eq in E. destruct Hin as [->|Hin]; [reflexivity|].
    exfalso. apply Hnotin. rewrite E. now apply in_map.
  - destruct Hin as [->|Hin]; [now rewrite String.eqb_refl in E|].
    now apply IH.
Qed.

(** An unknown id leaves the history as it is. *)
Lemma update_first_unknown (update : alert -> alert) (id : string)
    (history : list alert) :
  find_alert id history = None ->
  update_first update id history = (history, false).
Proof.
  unfold find_alert. induction history as [|a rest IH]; [reflexivity|].
  cbn. destruct (String.eqb (alert_id a) id); [discriminate|].
  intros H. now rewrite (IH H).
Qed.

(** A known id updates the alert it denotes, and only that one. *)
Lemma update_first_known (update : alert -> alert) (id : string)
    (history : list alert) (a : alert) :
  (forall x, alert_id (update x) = alert_id x) ->
  find_alert id history = Some a ->
  exists history',
    update_first update id history = (history', true)
    /\ find_alert id history' = Some (update a)
    /\ length history' = length history.
Proof.
  intros Hid. unfold find_alert. induction history as [|x rest IH]; [discriminate|].
  cbn. destruct (String.eqb (alert_id x) id) eqn:E.
  - intros [= <-]. eexists. split; [reflexivity|]. cbn.
    rewrite Hid, E. now split.
  - intros Hfind. destruct (IH Hfind) as (rest' & Hup & Hf & Hlen).
    rewrite Hup. eexists. split; [reflexivity|]. cbn. rewrite E.
    split; [exact Hf | now rewrite Hlen].
Qed.

Lemma acknowledge_known (m : AlertManager) (id : string) (a : alert) :
  find_alert id (alert_history m) = Some a ->
  exists m',
    acknowledge_alert utcnow_iso m id = (m', true)
    /\ find_alert id (alert_history m')
       = Some (set_acknowledged (utcnow_iso (clock_reads m)) a)
    /\ clock_reads m' = S (clock_reads m)
    /\ length (alert_history m') = length (alert_history m).
Proof.
  intros Hfind. unfold acknowledge_alert.
  destruct (update_first_known (set_acknowledged (utcnow_iso (clock_reads m)))
              id (alert_history m) a (fun _ => eq_refl) Hfind)
    as (h' & Hup & Hf & Hlen).
  rewrite Hup. eexists. split; [reflexivity|]. cbn. auto.
Qed.

Lemma resolve_known (m : AlertManager) (id notes : string) (a : alert) :
  find_alert id (alert_history m) = Some a ->
  exists m',
    resolve_alert utcnow_iso m id notes = (m', true)
    /\ find_alert id (alert_history m')
       = Some (set_resolved (utcnow_iso (clock_reads m)) notes a)
    /\ clock_reads m' = S (clock_reads m)
    /\ length (alert_history m') = length (alert_history m).
Proof.
  intros Hfind. unfold resolve_alert.
  destruct (update_first_known (set_resolved (utcnow_iso (clock_reads m)) notes)
              id (alert_history m) a (fun _ => eq_refl) Hfind)
    as (h' & Hup & Hf & Hlen).
  rewrite Hup. eexists. split; [reflexivity|]. cbn. auto.
Qed.

Lemma acknowledge_unknown (m : AlertManager) (id : string) :
  find_alert id (alert_history m) = None ->
  acknowledge_alert utcnow_iso m id = (m, false).
Proof.
  intros H. unfold acknowledge_alert. rewrite (update_first_unknown _ _ _ H).
  now destruct m.
Qed.

Lemma resolve_unknown (m : AlertManager) (id notes : string) :
  find_alert id (alert_history m) = None ->
  resolve_alert utcnow_iso m id notes = (m, false).
Proof.
  intros H. unfold resolve_alert. rewrite (update_first_unknown _ _ _ H).
  now destruct m.
Qed.

(** The lifecycle on the alert an id denotes, which is the first alert
    of the history that carries it.  For an id that no alert carries,
    acknowledge and resolve return false and change nothing.  When the
    alert the id denotes is open, acknowledge then resolve with the notes
    "fixed" both return true and leave that alert resolved, with these
    notes and with both timestamps set. *)
Theorem lifecycle_acknowledge_then_resolve (m : AlertManager) (id : string) :
  ((forall a, In a (alert_history m) -> alert_id a <> id) ->
     acknowledge_alert utcnow_iso m id = (m, false)
     /\ forall notes, resolve_alert utcnow_iso m id notes = (m, false))
  /\ (forall a,
        find_alert id (alert_history m) = Some a ->
        status a = "open" ->
        exists m1 m2 a',
          acknowledge_alert utcnow_iso m id = (m1, true)
          /\ resolve_alert utcnow_iso m1 id "fixed" = (m2, true)
          /\ find_alert id (alert_history m2) = Some a'
          /\ status a' = "resolved"
          /\ resolution_notes a' = Some "fixed"
          /\ acknowledged_at a' = Some (utcnow_iso (clock_reads m))
          /\ resolved_at a' = Some (utcnow_iso (S (clock_reads m)))
          /\ alert_id a' = alert_id a
          /\ length (alert_history m2) = length (alert_history m)).
Proof.
  split.
  - intros Hnone. apply find_alert_none in Hnone. split.
    + now apply acknowledge_unknown.
    + intros notes. now apply resolve_unknown.
  - intros a Hfind _.
    destruct (acknowledge_known m id a Hfind) as (m1 & Hack & Hf1 & Hclk & Hlen1).
    destruct (resolve_known m1 id "fixed" _ Hf1) as (m2 & Hres & Hf2 & _ & Hlen2).
    exists m1, m2, (set_resolved (utcnow_iso (clock_reads m1)) "fixed"
                      (set_acknowledged (utcnow_iso (clock_reads m)) a)).
    rewrite Hclk in *. cbn. repeat split; try assumption; try reflexivity.
    now rewrite Hlen2.
Qed.

(** The loop stops at the first alert carrying the id: every later
    position keeps its alert, and an alert with the id stays in front of
    it. *)
Lemma update_first_stops (update : alert -> alert) (id : string)
    (history : list alert) (i j : nat) (a : alert) :
  (forall x, alert_id (update x) = alert_id x) ->
  nth_error history i = Some a ->
  alert_id a = id ->
  (i < j)%nat ->
  exists history' i' a',
    update_first update id history = (history', true)
    /\ nth_error history' i' = Some a'
    /\ alert_id a' = id
    /\ (i' < j)%nat
    /\ nth_error history' j = nth_error history j.
Proof.
  intros Hid. revert i j. induction history as [|x rest IH]; intros i j Hi Ha Hij.
  - destruct i; discriminate.
  - cbn [update_first]. destruct (String.eqb (alert_id x) id) eqn:E.
    + apply String.eqb_eq in E. exists (update x :: rest), 0%nat, (update x).
      split; [reflexivity|]. split; [reflexivity|]. split; [now rewrite Hid|].
      split; [lia|]. destruct j as [|j]; [lia|reflexivity].
    + destruct i as [|i].
      * cbn in Hi. injection Hi as ->. rewrite Ha, String.eqb_refl in E.
        discriminate.
      * destruct j as [|j]; [lia|]. cbn in Hi.
        destruct (IH i j Hi Ha ltac:(lia)) as (rest' & i' & a' & Hup & Hn & Hida & Hlt & Hj).
        rewrite Hup. exists (x :: rest'), (S i'), a'.
        split; [reflexivity|]. split; [exact Hn|]. split; [exact Hida|].
        split; [lia|exact Hj].
Qed.

(** C7, where the code departs from it.  Both loops return at the first
    alert whose id matches, which is the alert meant only while ids are
    unique, as the docstring of [_generate_alert_id] promises; the ids
    are twelve digits of a digest and do repeat.  When an earlier alert
    of the history carries the same id, acknowledge and resolve both
    return true, yet the alert at the later position is exactly as it
    was: an open alert stays open, without notes and timestamps. *)
Theorem lifecycle_misses_duplicate_id (m : AlertManager) (id : string)
    (i j : nat) (a b : alert) :
  nth_error (alert_history m) i = Some a ->
  nth_error (alert_history m) j = Some b ->
  (i < j)%nat ->
  alert_id a = id ->
  alert_id b = id ->
  exists m1 m2,
    acknowledge_alert utcnow_iso m id = (m1, true)
    /\ resolve_alert utcnow_iso m1 id "fixed" = (m2, true)
    /\ nth_error (alert_history m2) j = Some b.
Proof.
  intros Hi Hj Hij Ha _.
  destruct (update_first_stops (set_acknowledged (utcnow_iso (clock_reads m))) id
              (alert_history m) i j a (fun _ => eq_refl) Hi Ha Hij)
    as (h1 & i1 & a1 & Hup1 & Hn1 & Hid1 & Hlt1 & Hj1).
  destruct (update_first_stops
              (set_resolved (utcnow_iso (S (clock_reads m))) "fixed") id
              h1 i1 j a1 (fun _ => eq_refl) Hn1 Hid1 Hlt1)
    as (h2 & _ & _ & Hup2 & _ & _ & _ & Hj2).
  exists {| alert_history := h1; alert_count := alert_count m;
            clock_reads := S (clock_reads m) |},
    {| alert_history := h2; alert_count := alert_count m;
       clock_reads := S (S (clock_reads m)) |}.
  split; [|split].
  - unfold acknowledge_alert. now rewrite Hup1.
  - unfold resolve_alert. cbn [alert_history clock_reads alert_count].
    now rewrite Hup2.
  - cbn [alert_history]. now rewrite Hj2, Hj1.
Qed.

(** C10. For an id present in the history, whatever the status of the
    alert it denotes (resolved included), acknowledge returns true and
    sets the status to acknowledged, and resolve returns true, sets the
    status to resolved and overwrites the resolution notes. *)
Theorem lifecycle_no_terminal_status (m : AlertManager) (id notes : string)
    (a : alert) :
  find_alert id (alert_history m) = Some a ->
  (exists m' a',
      acknowledge_alert utcnow_iso m id = (m', true)
      /\ find_alert id (alert_history m') = Some a'
      /\ status a' = "acknowledged")
  /\ (exists m' a',
        resolve_alert utcnow_iso m id notes = (m', true)
        /\ find_alert id (alert_history m') = Some a'
        /\ status a' = "resolved"
        /\ resolution_notes a' = Some notes).
Proof.
  intros Hfind. split.
  - destruct (acknowledge_known m id a Hfind) as (m' & Hack & Hf & _).
    exists m'. eexists. split; [exact Hack|]. split; [exact Hf | reflexivity].
  - destruct (resolve_known m id notes a Hfind) as (m' & Hres & Hf & _).
    exists m'. eexists. split; [exact Hres|]. split; [exact Hf|]. now split.
Qed.

End LifecycleFacts.

(** ** Feature extraction *)

Section FeatureFacts.
Import Py Features.

Variable md5_hexdigest : string -> exn + string.
Variable py_repr : pyval -> exn + string.
Variable fromisoformat : string -> option datetime.
Variable py_int : string -> option Z.
Variable findall_count : string -> string -> nat.
Variable log2 : Q -> Q.

Abbreviation temporal := (extract_temporal_features fromisoformat).
Abbreviation network := (extract_network_features md5_hexdigest py_repr py_int).
Abbreviation event := (extract_event_features md5_hexdigest py_repr).
Abbreviation pattern := (extract_pattern_features py_repr findall_count).
Abbreviation statistical := (extract_statistical_features py_repr log2).
Abbreviation body :=
  (extract_body md5_hexdigest py_repr fromisoformat py_int findall_count log2).
Abbreviation extract :=
  (extract_features md5_hexdigest py_repr fromisoformat py_int findall_count log2).

Lemma bind_inr_inv {A B : Type} (c : exn + A) (k : A -> exn + B) (b : B) :
  bind c k = inr b -> exists a, c = inr a /\ k a = inr b.
Proof. destruct c as [e|a]; [discriminate|]. intros H. now exists a. Qed.

Lemma py_or_inr (a r : pyval) :
  py_or a (inr r) = inr (if truthy a then a else r).
Proof. unfold py_or. now destruct (truthy a). Qed.

Lemma py_get_inr_inv (v : pyval) (k : string) (d r : pyval) :
  py_get v k d = inr r -> is_dict v = true.
Proof. now destruct v. Qed.

Lemma py_get_not_dict (v : pyval) (k : string) (d : pyval) :
  is_dict v = false -> py_get v k d = inl AttributeError.
Proof. now destruct v. Qed.

Lemma py_get_dict (v : pyval) (k : string) (d : pyval) :
  is_dict v = true -> exists r, py_get v k d = inr r.
Proof. destruct v; try discriminate. intros _. now eexists. Qed.

Ltac names_in_dom :=
  intros k Hin; apply elem_of_dom; cbn in Hin;
  repeat (destruct Hin as [<-|Hin]; [simplify_map_eq; eauto|]);
  contradiction.

Lemma temporal_names_present (log_event : dict) :
  forall k, In k temporal_names -> k ∈ dom (temporal log_event).
Proof.
  unfold extract_temporal_features, temporal_body.
  destruct (truthy _); [|unfold temporal_sentinels; names_in_dom].
  destruct (dict_get _ _ _); cbn [bind];
    try (unfold temporal_sentinels; names_in_dom).
  destruct (fromisoformat _); cbn [bind];
    unfold temporal_sentinels; names_in_dom.
Qed.

(** What a run of the network extraction without exception returns. *)
Lemma network_inr_inv (fe fe' : FeatureExtractor) (log_event : dict)
    (nw : gmap string fval) :
  network fe log_event = inr (nw, fe') ->
  exists ip ip_address_hash user_agent is_suspicious_agent text,
    hash_value md5_hexdigest ip = inr ip_address_hash
    /\ check_suspicious_agent py_repr user_agent = inr is_suspicious_agent
    /\ str py_repr user_agent = inr text
    /\ nw = <["ip_address_hash" := FInt ip_address_hash]>
              (<["is_private_ip" := FInt (is_private_ip py_int ip)]>
                (<["ip_reputation_score" :=
                     FFloat (fst (get_ip_reputation py_int fe ip))]>
                  (<["is_suspicious_agent" := FInt is_suspicious_agent]>
                    (<["user_agent_length" :=
                         FInt (Z.of_nat (String.length text))]> ∅))))
    /\ fe' = snd (get_ip_reputation py_int fe ip).
Proof.
  unfold extract_network_features. cbv zeta. intros H.
  destruct (bind (py_get _ "ip_address" _) _) as [x|[ip h]] eqn:Ea; [discriminate|].
  apply bind_inr_inv in Ea as (a & _ & Ea).
  apply bind_inr_inv in Ea as (ip_address & _ & Ea).
  apply bind_inr_inv in Ea as (ip' & _ & Ea).
  apply bind_inr_inv in Ea as (h' & Hh & Ea).
  injection Ea as -> ->.
  destruct (get_ip_reputation py_int fe ip) as [score fe1] eqn:Er.
  destruct (bind (py_get _ "user_agent" _) _) as [x|[flag text]] eqn:Eb;
    [discriminate|].
  apply bind_inr_inv in Eb as (ua & _ & Eb).
  apply bind_inr_inv in Eb as (user_agent & _ & Eb).
  apply bind_inr_inv in Eb as (flag' & Hflag & Eb).
  apply bind_inr_inv in Eb as (text' & Htext & Eb).
  injection Eb as -> ->. injection H as <- <-.
  exists ip, h, user_agent, flag, text. rewrite Er. now repeat split.
Qed.

(** What a run of the event extraction without exception returns. *)
Lemma event_inr_inv (log_event : dict) (ev : gmap string fval) :
  event log_event = inr ev ->
  exists event_id activity category result_str identity_str identity
         event_id_hash activity_hash category_hash identity_hash,
    hash_value md5_hexdigest event_id = inr event_id_hash
    /\ hash_value md5_hexdigest activity = inr activity_hash
    /\ hash_value md5_hexdigest category = inr category_hash
    /\ hash_value md5_hexdigest identity_str = inr identity_hash
    /\ ev = <["event_id_hash" := FInt event_id_hash]>
              (<["activity_hash" := FInt activity_hash]>
                (<["category_hash" := FInt category_hash]>
                  (<["is_failure" :=
                       FInt (if contains "fail" (lower result_str) then 1 else 0)]>
                    (<["is_success" :=
                         FInt (if contains "success" (lower result_str)
                               then 1 else 0)]>
                      (<["identity_hash" := FInt identity_hash]>
                        (<["has_identity" :=
                             FInt (if truthy identity then 1 else 0)]> ∅)))))).
Proof.
  unfold extract_event_features. intros H.
  apply bind_inr_inv in H as (e0 & _ & H).
  apply bind_inr_inv in H as (event_id & _ & H).
  apply bind_inr_inv in H as (activity & _ & H).
  apply bind_inr_inv in H as (category & _ & H).
  apply bind_inr_inv in H as (h1 & H1 & H).
  apply bind_inr_inv in H as (activity_str & _ & H).
  apply bind_inr_inv in H as (h2 & H2 & H).
  apply bind_inr_inv in H as (category_str & _ & H).
  apply bind_inr_inv in H as (h3 & H3 & H).
  apply bind_inr_inv in H as (result_type & _ & H).
  apply bind_inr_inv in H as (result_str & _ & H).
  apply bind_inr_inv in H as (identity & _ & H).
  apply bind_inr_inv in H as (identity_str & _ & H).
  apply bind_inr_inv in H as (h4 & H4 & H).
  injection H as <-.
  exists event_id, activity_str, category_str, result_str, identity_str, identity,
    h1, h2, h3, h4.
  now repeat split.
Qed.

(** What a run of the pattern extraction without exception returns. *)
Lemma pattern_inr_inv (log_event : dict) (pat : gmap string fval) :
  pattern log_event = inr pat ->
  exists sql xss path cmd code,
    pat = <["sql_injection_score" := FFloat (score_of_count sql)]>
            (<["xss_score" := FFloat (score_of_count xss)]>
              (<["path_traversal_score" := FFloat (score_of_count path)]>
                (<["command_injection_score" := FFloat (score_of_count cmd)]>
                  (<["code_execution_score" := FFloat (score_of_count code)]>
                    (<["overall_malicious_score" :=
                         FFloat ((score_of_count sql + score_of_count xss
                                  + score_of_count path + score_of_count cmd
                                  + score_of_count code) / 5)%Q]> ∅))))).
Proof.
  unfold extract_pattern_features, check_pattern. intros H.
  apply bind_inr_inv in H as (text & _ & H). injection H as <-.
  now do 5 eexists.
Qed.

(** What a run of the statistical extraction without exception returns. *)
Lemma statistical_inr_inv (log_event : dict) (st : gmap string fval) :
  statistical log_event = inr st ->
  exists message_str,
    str py_repr (dict_get log_event "message" (VDict [])) = inr message_str
    /\ st = <["message_length" := FInt (Z.of_nat (String.length message_str))]>
              (<["num_special_chars" :=
                   FInt (Z.of_nat (length (filter (fun c => negb (isalnum c))
                                             (list_ascii_of_string message_str))))]>
                (<["entropy" := FFloat (calculate_entropy log2 message_str)]>
                  (<["num_fields" :=
                       FInt (match dict_get log_event "message" (VDict []) with
                             | VDict d => Z.of_nat (length d)
                             | _ => 0
                             end)]> ∅))).
Proof.
  unfold extract_statistical_features. intros H.
  apply bind_inr_inv in H as (message_str & Hs & H). injection H as <-.
  now exists message_str.
Qed.

(** A run of the body without exception ran every extraction and merged
    their results in the order of the source. *)
Lemma body_inr_inv (fe fe' : FeatureExtractor) (log_event : dict)
    (features : gmap string fval) :
  body fe log_event = inr (features, fe') ->
  exists nw ev pat st,
    network fe log_event = inr (nw, fe')
    /\ event log_event = inr ev
    /\ pattern log_event = inr pat
    /\ statistical log_event = inr st
    /\ features
       = update (update (update (update (update
           (<["timestamp" := FVal (dict_get log_event "timestamp" (VStr ""))]>
              (<["source" := FVal (dict_get log_event "source" (VStr "unknown"))]> ∅))
           (temporal log_event)) nw) ev) pat) st.
Proof.
  unfold extract_body. cbv zeta. intros H.
  destruct (network fe log_event) as [[x f]|[nw fe1]] eqn:En; [discriminate|].
  destruct (bind (event log_event) _) as [x|f] eqn:Er; [discriminate|].
  injection H as <- <-.
  apply bind_inr_inv in Er as (ev & Hev & Er).
  apply bind_inr_inv in Er as (pat & Hpat & Er).
  apply bind_inr_inv in Er as (st & Hst & Er).
  injection Er as <-. now exists nw, ev, pat, st.
Qed.

Lemma network_names_present (fe fe' : FeatureExtractor) (log_event : dict)
    (features : gmap string fval) :
  network fe log_event = inr (features, fe') ->
  forall k, In k network_names -> k ∈ dom features.
Proof.
  intros H.
  destruct (network_inr_inv _ _ _ _ H) as (? & ? & ? & ? & ? & _ & _ & _ & -> & _).
  names_in_dom.
Qed.

Lemma event_names_present (log_event : dict) (features : gmap string fval) :
  event log_event = inr features ->
  forall k, In k event_names -> k ∈ dom features.
Proof.
  intros H.
  destruct (event_inr_inv _ _ H)
    as (? & ? & ? & ? & ? & ? & ? & ? & ? & ? & _ & _ & _ & _ & ->).
  names_in_dom.
Qed.

Lemma pattern_names_present (log_event : dict) (features : gmap string fval) :
  pattern log_event = inr features ->
  forall k, In k pattern_names -> k ∈ dom features.
Proof.
  intros H. destruct (pattern_inr_inv _ _ H) as (? & ? & ? & ? & ? & ->).
  names_in_dom.
Qed.

Lemma statistical_names_present (log_event : dict) (features : gmap string fval) :
  statistical log_event = inr features ->
  forall k, In k statistical_names -> k ∈ dom features.
Proof.
  intros H. destruct (statistical_inr_inv _ _ H) as (? & _ & ->).
  names_in_dom.
Qed.

Lemma network_needs_message (fe : FeatureExtractor) (log_event : dict) r :
  network fe log_event = inr r ->
  is_dict (dict_get log_event "message" (VDict [])) = true.
Proof.
  unfold extract_network_features. cbv zeta. intros H.
  destruct (bind (py_get _ "ip_address" _) _) as [x|[ip h]] eqn:Ea; [discriminate|].
  apply bind_inr_inv in Ea as (a & Ha & _). exact (py_get_inr_inv _ _ _ _ Ha).
Qed.

(** [message.get] on a message that is not a dictionary: the network
    extraction raises [AttributeError] before it touches the cache. *)
Lemma network_fails_without_message (fe : FeatureExtractor) (log_event : dict) :
  is_dict (dict_get log_event "message" (VDict [])) = false ->
  network fe log_event = inl (AttributeError, fe).
Proof.
  intros H. unfold extract_network_features.
  now rewrite (py_get_not_dict _ _ _ H).
Qed.

Lemma str_succeeds (v : pyval) :
  (forall v', exists s, py_repr v' = inr s) -> exists s, str py_repr v = inr s.
Proof. intros Hrepr. destruct v; cbn; eauto. Qed.

Lemma hash_value_succeeds (value : string) :
  (forall s, exists d, md5_hexdigest s = inr d) ->
  exists z, hash_value md5_hexdigest value = inr z.
Proof.
  intros Hmd5. unfold hash_value. destruct (_ || _); [now eexists|].
  destruct (Hmd5 value) as [d ->]. cbn. now eexists.
Qed.

(** With text conversions that do not raise, the network extraction
    succeeds on dictionaries. *)
Lemma network_succeeds (fe : FeatureExtractor) (log_event : dict) :
  (forall v, exists s, py_repr v = inr s) ->
  (forall s, exists d, md5_hexdigest s = inr d) ->
  is_dict (dict_get log_event "message" (VDict [])) = true ->
  is_dict (dict_get log_event "raw_data" (VDict [])) = true ->
  exists r, network fe log_event = inr r.
Proof.
  intros Hrepr Hmd5 Hm Hr. unfold extract_network_features.
  destruct (dict_get log_event "message" _) as [| | | | | |dm]; try discriminate.
  destruct (dict_get log_event "raw_data" _) as [| | | | | |dr]; try discriminate.
  cbn [py_get bind]. rewrite !py_or_inr. cbn [bind].
  set (ip_address := if truthy _ then _ else _).
  destruct (str_succeeds ip_address Hrepr) as [ip ->]. cbn [bind].
  destruct (hash_value_succeeds ip Hmd5) as [h ->]. cbn [bind].
  destruct (get_ip_reputation py_int fe ip) as [score fe1].
  set (user_agent := if truthy _ then _ else _).
  unfold check_suspicious_agent.
  destruct (str_succeeds user_agent Hrepr) as [text ->]. cbn [bind].
  now eexists.
Qed.

Lemma event_succeeds (log_event : dict) :
  (forall v, exists s, py_repr v = inr s) ->
  (forall s, exists d, md5_hexdigest s = inr d) ->
  is_dict (dict_get log_event "message" (VDict [])) = true ->
  exists features, event log_event = inr features.
Proof.
  intros Hrepr Hmd5 Hm. unfold extract_event_features.
  destruct (dict_get log_event "message" _) as [| | | | | |dm]; try discriminate.
  cbn [py_get bind]. rewrite !py_or_inr. cbn [bind].
  repeat first
    [ match goal with
      | |- context [str py_repr ?v] =>
          let s := fresh "s" in destruct (str_succeeds v Hrepr) as [s ->]; cbn [bind]
      end
    | match goal with
      | |- context [hash_value md5_hexdigest ?v] =>
          let z := fresh "z" in
          destruct (hash_value_succeeds v Hmd5) as [z ->]; cbn [bind]
      end
    | rewrite !py_or_inr; cbn [bind] ].
  now eexists.
Qed.

Lemma dom_update (features more : gmap string fval) (k : string) :
  k ∈ dom (update features more) <-> k ∈ dom more \/ k ∈ dom features.
Proof. unfold update. rewrite dom_union. apply elem_of_union. Qed.

(** A run of the body without exception assigns every declared name. *)
Lemma body_complete (fe fe' : FeatureExtractor) (log_event : dict)
    (features : gmap string fval) :
  body fe log_event = inr (features, fe') ->
  forall k, In k declared_features -> k ∈ dom features.
Proof.
  intros H.
  destruct (body_inr_inv _ _ _ _ H) as (nw & ev & pat & st & Hnw & Hev & Hpat & Hst & ->).
  intros k Hin.
  unfold declared_features in Hin. rewrite !in_app_iff in Hin.
  rewrite !dom_update.
  destruct Hin as [Hin|[Hin|[Hin|[Hin|[Hin|Hin]]]]].
  - do 5 right. apply elem_of_dom. cbn in Hin.
    destruct Hin as [<-|[<-|[]]]; simplify_map_eq; eauto.
  - do 4 right. left. now apply temporal_names_present.
  - do 3 right. left. now apply (network_names_present _ _ _ _ Hnw).
  - do 2 right. left. now apply (event_names_present _ _ Hev).
  - right. left. now apply (pattern_names_present _ _ Hpat).
  - left. now apply (statistical_names_present _ _ Hst).
Qed.

(** With text conversions that do not raise, the body succeeds when the
    message and the raw data are dictionaries or absent. *)
Lemma body_succeeds (fe : FeatureExtractor) (log_event : dict) :
  (forall v, exists s, py_repr v = inr s) ->
  (forall s, exists d, md5_hexdigest s = inr d) ->
  is_dict (dict_get log_event "message" (VDict [])) = true ->
  is_dict (dict_get log_event "raw_data" (VDict [])) = true ->
  exists r, body fe log_event = inr r.
Proof.
  intros Hrepr Hmd5 Hm Hr. unfold extract_body.
  destruct (network_succeeds fe log_event Hrepr Hmd5 Hm Hr) as ([nw fe1] & ->).
  destruct (event_succeeds log_event Hrepr Hmd5 Hm) as (ev & ->).
  unfold extract_pattern_features, extract_statistical_features.
  destruct (str_succeeds (VDict log_event) Hrepr) as [text ->].
  destruct (str_succeeds (dict_get log_event "message" (VDict [])) Hrepr)
    as [message_str ->].
  cbn [bind]. now eexists.
Qed.

Lemma body_fails_without_message (fe : FeatureExtractor) (log_event : dict) :
  is_dict (dict_get log_event "message" (VDict [])) = false ->
  body fe log_event = inl (AttributeError, fe).
Proof.
  intros Hm. unfold extract_body.
  now rewrite (network_fails_without_message fe log_event Hm).
Qed.

(** What of the completeness claim holds of the code: [extract_features]
    returns the empty dictionary or one that holds every declared name,
    and it holds every declared name when the message and the raw data
    are dictionaries or absent and no text conversion raises, whatever
    the timestamp. *)
Lemma result_is_empty_or_complete (fe : FeatureExtractor) (log_event : dict) :
  let features := fst (extract fe log_event) in
  (features = ∅ \/ forall k, In k declared_features -> is_Some (features !! k))
  /\ ((forall v, exists s, py_repr v = inr s) ->
      (forall s, exists d, md5_hexdigest s = inr d) ->
      is_dict (dict_get log_event "message" (VDict [])) = true ->
      is_dict (dict_get log_event "raw_data" (VDict [])) = true ->
      forall k, In k declared_features -> is_Some (features !! k)).
Proof.
  cbn zeta. unfold extract_features. split.
  - destruct (body fe log_event) as [[e fe']|[features fe']] eqn:E; [now left|].
    right. intros k Hin. apply elem_of_dom. exact (body_complete _ _ _ _ E k Hin).
  - intros Hrepr Hmd5 Hm Hr.
    destruct (body_succeeds fe log_event Hrepr Hmd5 Hm Hr) as ([features fe'] & E).
    rewrite E. intros k Hin. apply elem_of_dom.
    exact (body_complete _ _ _ _ E k Hin).
Qed.

(** C1, where the code departs from it.  [_extract_network_features]
    calls [message.get] without asking whether the message is a
    dictionary, which [_extract_statistical_features] does ask
    ([isinstance(message, dict)]).  For an event whose message is not a
    dictionary (a log line that is a JSON string, number or list) the
    call raises [AttributeError]; the only handler is the one around the
    whole body of [extract_features], so the result is the empty
    dictionary: no declared feature name is present, although the
    temporal extraction had produced all of its features and the
    statistical extraction handles such a message. *)
Theorem text_message_aborts_extraction (fe : FeatureExtractor) (log_event : dict) :
  is_dict (dict_get log_event "message" (VDict [])) = false ->
  extract fe log_event = (∅, fe)
  /\ (forall k, In k declared_features -> fst (extract fe log_event) !! k = None)
  /\ (forall k, In k temporal_names -> is_Some (temporal log_event !! k))
  /\ (forall message_str,
        str py_repr (dict_get log_event "message" (VDict [])) = inr message_str ->
        exists features,
          statistical log_event = inr features
          /\ features !! "num_fields" = Some (FInt 0)
          /\ features !! "message_length"
             = Some (FInt (Z.of_nat (String.length message_str)))).
Proof.
  intros Hm.
  assert (He : extract fe log_event = (∅, fe)).
  { unfold extract_features. now rewrite (body_fails_without_message fe log_event Hm). }
  split; [exact He|]. split; [|split].
  - intros k _. rewrite He. apply lookup_empty.
  - intros k Hin. apply elem_of_dom. now apply temporal_names_present.
  - intros message_str Hs. unfold extract_statistical_features. rewrite Hs.
    cbn [bind]. eexists. split; [reflexivity|].
    destruct (dict_get log_event "message" (VDict [])); try discriminate;
      split; now simplify_map_eq.
Qed.

(** The text conversions end the same way: when [str(log_event)] raises
    (on an integer of more than 4300 digits or a value nested too deeply
    anywhere in the event), the result is the empty dictionary, also for
    an event whose message is a dictionary. *)
Lemma failed_text_conversion_empties_result (fe : FeatureExtractor)
    (log_event : dict) (e : exn) :
  str py_repr (VDict log_event) = inl e ->
  fst (extract fe log_event) = ∅.
Proof.
  intros He. unfold extract_features, extract_body. cbv zeta.
  destruct (network fe log_event) as [[x fe1]|[nw fe1]]; [reflexivity|].
  destruct (event log_event) as [x|ev]; cbn [bind]; [reflexivity|].
  unfold extract_pattern_features. now rewrite He.
Qed.

Lemma temporal_of_missing_timestamp (log_event : dict) :
  dict_lookup "timestamp" log_event = None
  \/ dict_lookup "timestamp" log_event = Some (VStr "") ->
  temporal log_event = temporal_sentinels.
Proof.
  intros H. unfold extract_temporal_features, temporal_body, dict_get.
  now destruct H as [-> | ->].
Qed.

(** C8. For an event whose timestamp is absent or the empty string, the
    temporal extraction yields exactly hour = -1, day_of_week = -1,
    is_weekend = 0, is_business_hours = 0, is_night = 0, and these are
    the values found in the result of a run of [extract_features]
    without exception. *)
Theorem missing_timestamp_sentinels (log_event : dict) :
  dict_lookup "timestamp" log_event = None
  \/ dict_lookup "timestamp" log_event = Some (VStr "") ->
  (temporal log_event !! "hour" = Some (FInt (-1))
   /\ temporal log_event !! "day_of_week" = Some (FInt (-1))
   /\ temporal log_event !! "is_weekend" = Some (FInt 0)
   /\ temporal log_event !! "is_business_hours" = Some (FInt 0)
   /\ temporal log_event !! "is_night" = Some (FInt 0)
   /\ forall k, is_Some (temporal log_event !! k) -> In k temporal_names)
  /\ forall fe fe' features,
       body fe log_event = inr (features, fe') ->
       features !! "hour" = Some (FInt (-1))
       /\ features !! "day_of_week" = Some (FInt (-1))
       /\ features !! "is_weekend" = Some (FInt 0)
       /\ features !! "is_business_hours" = Some (FInt 0)
       /\ features !! "is_night" = Some (FInt 0).
Proof.
  intros Hts. pose proof (temporal_of_missing_timestamp log_event Hts) as Ht.
  split.
  - rewrite Ht. unfold temporal_sentinels.
    repeat (split; [now simplify_map_eq|]).
    intros k [v Hv]. unfold temporal_names. cbn [In].
    repeat (rewrite lookup_insert in Hv; case_decide; [now auto 10|]).
    now rewrite lookup_empty in Hv.
  - intros fe fe' features H.
    destruct (body_inr_inv _ _ _ _ H)
      as (nw & ev & pat & st & Hnw & Hev & Hpat & Hst & ->).
    rewrite Ht.
    destruct (network_inr_inv _ _ _ _ Hnw) as (? & ? & ? & ? & ? & _ & _ & _ & -> & _).
    destruct (event_inr_inv _ _ Hev)
      as (? & ? & ? & ? & ? & ? & ? & ? & ? & ? & _ & _ & _ & _ & ->).
    destruct (pattern_inr_inv _ _ Hpat) as (? & ? & ? & ? & ? & ->).
    destruct (statistical_inr_inv _ _ Hst) as (? & _ & ->).
    unfold update, temporal_sentinels.
    repeat split; now simplify_map_eq.
Qed.

End FeatureFacts.

(** ** The untrained classifier *)

Section DetectorFacts.
Import Py Detector.

Variable model_predict : list (list Q) -> exn + list Z.
Variable model_predict_proba : list (list Q) -> exn + list (Q * Q).

Lemma nth_error_repeat_lt {A : Type} (x : A) (n i : nat) :
  (i < n)%nat -> nth_error (repeat x n) i = Some x.
Proof.
  revert i. induction n as [|n IH]; intros i Hi; [lia|].
  destruct i as [|i]; [reflexivity|]. cbn. apply IH. lia.
Qed.

(** On an untrained detector every index below the number of rows
    yields the neutral result. *)
Lemma detect_loop_untrained (n : nat) (threshold : Q) (indices : list nat) :
  Forall (fun i => (i < n)%nat) indices ->
  detect_loop (repeat 0 n) (repeat (5 # 10, 5 # 10)%Q n) threshold indices
  = inr (map (fun i => {|
             Alerts.index := Some (Z.of_nat i);
             Alerts.is_threat := Some false;
             Alerts.confidence := Some (5 # 10)%Q;
             Alerts.prediction := Some 0;
             Alerts.exceeds_threshold := Some (Qle_bool threshold (5 # 10)) |})
           indices).
Proof.
  induction 1 as [|i rest Hi _ IH]; [reflexivity|].
  cbn [detect_loop map]. rewrite !nth_error_repeat_lt by exact Hi.
  cbn [bind]. rewrite IH. reflexivity.
Qed.

Lemma seq_below (n : nat) : Forall (fun i => (i < n)%nat) (seq 0 n).
Proof. apply List.Forall_forall. intros i Hi. apply in_seq in Hi. lia. Qed.

(** C6. An untrained detector answers [predict_proba] with the pair
    (0.5, 0.5) for every row, without consulting the model; each result
    of [detect_threats] then carries confidence 0.5, which the severity
    mapping turns into Low. *)
Theorem untrained_is_neutral (d : ThreatDetector) (X : list (list Q)) :
  is_trained d = false ->
  predict_proba model_predict_proba d X = repeat (5 # 10, 5 # 10)%Q (length X)
  /\ (forall i p, nth_error (predict_proba model_predict_proba d X) i = Some p ->
        snd p = (5 # 10)%Q)
  /\ length (detect_threats model_predict model_predict_proba Config.default d X None)
     = length X
  /\ (forall r,
        In r (detect_threats model_predict model_predict_proba Config.default d X None) ->
        Alerts.confidence r = Some (5 # 10)%Q
        /\ Alerts.calculate_severity Config.default r = Alerts.LOW).
Proof.
  intros Hd.
  assert (Hp : predict_proba model_predict_proba d X
               = repeat (5 # 10, 5 # 10)%Q (length X))
    by (unfold predict_proba; now rewrite Hd).
  assert (Hy : predict model_predict d X = repeat 0 (length X))
    by (unfold predict; now rewrite Hd).
  split; [exact Hp|]. split.
  - rewrite Hp. intros i p Hnth. apply nth_error_In, repeat_spec in Hnth. now subst.
  - unfold detect_threats. rewrite Hp, Hy.
    rewrite (detect_loop_untrained _ _ _ (seq_below (length X))).
    split.
    + now rewrite length_map, length_seq.
    + intros r Hr. apply in_map_iff in Hr as (i & <- & _). now split.
Qed.

End DetectorFacts.

(** ** Schema reconciliation *)

Section PreprocessorFacts.
Import Py Preprocessor.

Lemma column_of_app (name : string) (nf : numeric_frame) (name' : string)
    (values : list cell) :
  column_of name (nf ++ [(name', values)])
  = match column_of name nf with
    | Some v => Some v
    | None => if String.eqb name' name then Some values else None
    end.
Proof.
  induction nf as [|[n v] rest IH]; [reflexivity|].
  cbn. destruct (String.eqb n name); [reflexivity | exact IH].
Qed.

(** Adding the missing columns keeps the produced ones. *)
Lemma add_missing_keeps (n : nat) (cols : list string) (nf : numeric_frame)
    (name : string) (values : list cell) :
  column_of name nf = Some values ->
  column_of name (add_missing n cols nf) = Some values.
Proof.
  revert nf. induction cols as [|col rest IH]; intros nf H; [exact H|].
  cbn. destruct (column_of col nf); [now apply IH|].
  apply IH. rewrite column_of_app. now rewrite H.
Qed.

(** A registered name the frame lacks gets a column of zeros. *)
Lemma add_missing_adds (n : nat) (cols : list string) (nf : numeric_frame)
    (name : string) :
  In name cols ->
  column_of name nf = None ->
  column_of name (add_missing n cols nf) = Some (repeat (Num 0) n).
Proof.
  revert nf. induction cols as [|col rest IH]; intros nf Hin Hnone; [contradiction|].
  cbn. destruct (String.eqb col name) eqn:E.
  - apply String.eqb_eq in E. subst col. rewrite Hnone.
    apply add_missing_keeps. rewrite column_of_app, Hnone.
    now rewrite String.eqb_refl.
  - destruct Hin as [->|Hin]; [now rewrite String.eqb_refl in E|].
    destruct (column_of col nf); [now apply IH|].
    apply IH; [exact Hin|]. rewrite column_of_app, Hnone. now rewrite E.
Qed.

Lemma nth_repeat_zero (n i : nat) : clean (nth i (repeat (Num 0) n) NaN) = 0%Q.
Proof.
  revert i. induction n as [|n IH]; intros [|i]; cbn; try reflexivity. apply IH.
Qed.

(** Selecting the registered names from a frame that has them all. *)
Lemma reindex_total (cols : list string) (nf : numeric_frame) :
  (forall name, In name cols -> column_of name nf <> None) ->
  exists nf',
    reindex cols nf = Some nf'
    /\ map fst nf' = cols
    /\ forall i, row_at nf' i = map (reconciled nf i) cols.
Proof.
  induction cols as [|col rest IH]; intros Hall.
  - exists []. now repeat split.
  - destruct IH as (nf' & Hre & Hfst & Hrow).
    { intros name Hin. apply Hall. now right. }
    cbn. destruct (column_of col nf) as [values|] eqn:E.
    + rewrite Hre. eexists. split; [reflexivity|]. cbn. split; [now rewrite Hfst|].
      intros i. unfold row_at in *. cbn [map]. rewrite Hrow.
      f_equal. unfold reconciled. now rewrite E.
    + exfalso. apply (Hall col); [now left | exact E].
Qed.

Lemma reconciled_add_missing (n : nat) (cols : list string) (nf : numeric_frame)
    (i : nat) (name : string) :
  In name cols ->
  reconciled (add_missing n cols nf) i name = reconciled nf i name.
Proof.
  intros Hin. unfold reconciled.
  destruct (column_of name nf) as [values|] eqn:E.
  - now rewrite (add_missing_keeps _ _ _ _ _ E).
  - rewrite (add_missing_adds _ _ _ _ Hin E). apply nth_repeat_zero.
Qed.

(** Training stores the numeric, non-timestamp names in frame order. *)
Lemma training_registers (p : LogPreprocessor) (df : DataFrame) :
  df_empty df = false ->
  feature_columns (fst (prepare_for_ml p df true))
  = Some (map fst (drop_timestamp (select_numeric (columns df)))).
Proof. intros H. unfold prepare_for_ml. now rewrite H. Qed.

(** C2, as the code has it.  With a non-empty registered list and a
    non-empty produced frame, inference-time [prepare_for_ml] leaves the
    registry unchanged and outputs, for every row, the registered names
    in registered order: the cleaned value of the produced numeric
    column of that name, 0 when there is none; produced names outside
    the registry do not appear.  Registry [a, b, c] with the produced
    mapping {a: 5, c: 7, d: 9} yields the single row [5, 0, 7]. *)
Theorem prepare_for_ml_reconciles (p : LogPreprocessor) (df : DataFrame)
    (cols : list string) :
  feature_columns p = Some cols ->
  cols <> [] ->
  df_empty df = false ->
  prepare_for_ml p df false
  = (p, map (fun i => map (reconciled (drop_timestamp (select_numeric (columns df))) i)
                        cols)
            (seq 0 (nrows df)))
  /\ prepare_for_ml {| feature_columns := Some ["a"; "b"; "c"] |}
       (frame_of_mapping [("a", Num 5); ("c", Num 7); ("d", Num 9)]) false
     = ({| feature_columns := Some ["a"; "b"; "c"] |}, [[5%Q; 0%Q; 7%Q]]).
Proof.
  intros Hcols Hne Hdf. split; [|reflexivity].
  unfold prepare_for_ml. rewrite Hdf, Hcols.
  destruct cols as [|col rest]; [contradiction|].
  set (cols := col :: rest) in *.
  set (nf := drop_timestamp (select_numeric (columns df))).
  destruct (reindex_total cols (add_missing (nrows df) cols nf))
    as (nf' & -> & _ & Hrow).
  { intros name Hin. destruct (column_of name nf) as [values|] eqn:E.
    - now rewrite (add_missing_keeps _ _ _ _ _ E).
    - now rewrite (add_missing_adds _ _ _ _ Hin E). }
  f_equal. unfold values. apply map_ext. intros i. rewrite Hrow.
  apply map_ext_in. intros name Hin. now apply reconciled_add_missing.
Qed.

End PreprocessorFacts.

(** ** Batch alerting *)

Section BatchFacts.
Import Py Alerts.

Variable utcnow_iso : nat -> string.
Variable md5_hexdigest : string -> string.
Variable py_str : pyval -> string.
Variable format_1f : Q -> string.
Variable cfg : Config.t.

Abbreviation generate := (generate_alert utcnow_iso md5_hexdigest py_str format_1f cfg).
Abbreviation loop := (batch_loop utcnow_iso md5_hexdigest py_str format_1f cfg).
Abbreviation batch :=
  (generate_batch_alerts utcnow_iso md5_hexdigest py_str format_1f cfg).


(** Below minus the length there is no such element. *)
Lemma py_index_too_negative {A : Type} (l : list A) (i : Z) :
  i < - Z.of_nat (length l) -> py_index l i = inl IndexError.
Proof.
  intros H. unfold py_index.
  destruct (i <? 0) eqn:Eneg; [|apply Z.ltb_ge in Eneg; lia].
  destruct (0 <=? i + Z.of_nat (length l)) eqn:E; [apply Z.leb_le in E; lia|].
  reflexivity.
Qed.

Lemma generate_alert_attribution (m : AlertManager) (event_data : dict)
    (threat_info : threat_result) (severity : option AlertSeverity) :
  let '(m', a) := generate m event_data threat_info severity in
  Alerts.event_data a = event_data
  /\ Alerts.threat_info a = threat_info
  /\ status a = "open"
  /\ alert_history m' = alert_history m ++ [a].
Proof. unfold generate_alert. cbn. auto. Qed.



(** The example of the specification: three results, the first flagged
    as a threat, the second not flagged, the third above the threshold,
    give two alerts, for the first and the third event. *)
Lemma batch_of_three (m : AlertManager) (e0 e1 e2 : dict) :
  exists m' a0 a2,
    batch m [e0; e1; e2]
      [flagged 0 true false (9 # 10); flagged 1 false false (1 # 10);
       flagged 2 false true (8 # 10)]
    = (m', inr [a0; a2])
    /\ event_data a0 = e0 /\ event_data a2 = e2.
Proof. do 3 eexists. split; [reflexivity|]. now split. Qed.

(** A flagged result whose index lies below minus the number of events
    passes the test and aborts the batch, whatever follows it. *)
Lemma too_negative_index_aborts (m : AlertManager) (events : list dict)
    (r : threat_result) (rest : list threat_result) (z : Z) :
  opt_truthy (is_threat r) || opt_truthy (exceeds_threshold r) = true ->
  index r = Some z ->
  z < - Z.of_nat (length events) ->
  batch m events (r :: rest) = (m, inl IndexError).
Proof.
  intros Hflag Hidx Hneg. unfold generate_batch_alerts. cbn [batch_loop].
  rewrite Hflag, Hidx. cbn [default from_option id].
  assert (Hlt : (z <? Z.of_nat (length events)) = true) by (apply Z.ltb_lt; lia).
  rewrite Hlt. now rewrite (py_index_too_negative events z Hneg).
Qed.

(** C5, where the code departs from it.  Only the upper bound of the
    carried index is tested.  With one event and two flagged results,
    the first carrying index -2 and the second index 0, indexing the
    event list raises [IndexError] out of [generate_batch_alerts]: the
    batch is aborted and the second, valid result gets no alert. *)
Theorem negative_index_aborts_batch :
  batch Alerts.init [event_from "aws"]
    [flagged (-2) true false (9 # 10); flagged 0 true false (9 # 10)]
  = (Alerts.init, inl IndexError).
Proof. reflexivity. Qed.

(** A negative index down to minus the length passes the test as well
    and attributes the alert to an event counted from the end. *)
Lemma negative_index_counts_from_end (m : AlertManager) (e0 e1 : dict) :
  exists m' a,
    batch m [e0; e1] [flagged (-1) true false (9 # 10)] = (m', inr [a])
    /\ event_data a = e1.
Proof. do 2 eexists. split; reflexivity. Qed.

End BatchFacts.

(** ** The ingestion buffer *)

Section CollectorFacts.
Import Py Collector.

(** Run by one thread without interruption, a push never waits: [put]
    is only called right after [full()] returned False. *)
Lemma push_never_blocks (c : UnifiedCollector) (event : dict) :
  exists c', push c event = Some c'.
Proof.
  unfold push. destruct (full (event_queue c)) eqn:Efull; cbn [negb]; [now eexists|].
  unfold put. unfold full in Efull. apply andb_false_iff in Efull as [E|E].
  - apply Nat.ltb_ge in E.
    assert (H : (maxsize (event_queue c) =? 0)%nat = true) by (apply Nat.eqb_eq; lia).
    rewrite H. now eexists.
  - apply Nat.leb_gt, Nat.ltb_lt in E. rewrite E, orb_true_r. now eexists.
Qed.

Lemma push_with_room (c : UnifiedCollector) (event : dict) :
  (qsize (event_queue c) < maxsize (event_queue c))%nat ->
  push c event
  = Some (with_queue c {| maxsize := maxsize (event_queue c);
                          items := items (event_queue c) ++ [event] |}).
Proof.
  intros Hroom. unfold push, full, put.
  assert (H1 : (maxsize (event_queue c) <=? qsize (event_queue c))%nat = false)
    by (apply Nat.leb_gt; lia).
  assert (H2 : (qsize (event_queue c) <? maxsize (event_queue c))%nat = true)
    by (apply Nat.ltb_lt; lia).
  rewrite H1, H2. rewrite andb_false_r, orb_true_r. reflexivity.
Qed.

(** On a full queue the incoming event is dropped and a warning logged. *)
Lemma push_when_full (c : UnifiedCollector) (event : dict) :
  (0 < maxsize (event_queue c))%nat ->
  qsize (event_queue c) = maxsize (event_queue c) ->
  push c event = Some (with_log c (Warning "Event queue is full, dropping event")).
Proof.
  intros Hpos Hfull. unfold push, full.
  assert (H1 : (0 <? maxsize (event_queue c))%nat = true) by (apply Nat.ltb_lt; lia).
  assert (H2 : (maxsize (event_queue c) <=? qsize (event_queue c))%nat = true)
    by (apply Nat.leb_le; lia).
  now rewrite H1, H2.
Qed.

Lemma push_all_with_room (events : list dict) (c : UnifiedCollector) :
  (qsize (event_queue c) + length events <= maxsize (event_queue c))%nat ->
  push_all c events
  = Some (with_queue c {| maxsize := maxsize (event_queue c);
                          items := items (event_queue c) ++ events |}).
Proof.
  revert c. induction events as [|event rest IH]; intros c Hroom.
  - destruct c as [[mx its] rn lg]. cbn. unfold with_queue. cbn.
    now rewrite app_nil_r.
  - cbn [push_all]. cbn [length] in Hroom.
    rewrite push_with_room by lia. rewrite IH.
    + cbn. now rewrite <- app_assoc.
    + cbn. unfold qsize. cbn. rewrite length_app. unfold qsize in Hroom. cbn. lia.
Qed.

Lemma push_all_app (events more : list dict) (c : UnifiedCollector) :
  push_all c (events ++ more)
  = match push_all c events with
    | Some c' => push_all c' more
    | None => None
    end.
Proof.
  revert c. induction events as [|event rest IH]; intros c; [reflexivity|].
  cbn. destruct (push c event); [apply IH | reflexivity].
Qed.

Lemma overflow_on_empty (c : UnifiedCollector) (events : list dict) (last : dict) :
  items (event_queue c) = [] ->
  (0 < maxsize (event_queue c))%nat ->
  length events = maxsize (event_queue c) ->
  push_all c (events ++ [last])
  = Some (with_log
            (with_queue c {| maxsize := maxsize (event_queue c); items := events |})
            (Warning "Event queue is full, dropping event")).
Proof.
  intros Hempty Hpos Hlen. rewrite push_all_app.
  rewrite push_all_with_room by (unfold qsize; rewrite Hempty; cbn; lia).
  rewrite Hempty. cbn [app push_all]. rewrite push_when_full.
  - reflexivity.
  - exact Hpos.
  - unfold qsize. cbn. exact Hlen.
Qed.

Lemma capacity_positive : (0 < maxsize (event_queue init))%nat.
Proof. apply Nat.ltb_lt. vm_compute. reflexivity. Qed.

(** Pushing capacity + 1 events onto the empty buffer keeps the first
    10 000 and drops the last one with one warning. *)
Lemma overflow_drops_newest (events : list dict) (last : dict) :
  length events = 10000%nat ->
  push_all init (events ++ [last])
  = Some {| event_queue := {| maxsize := 10000; items := events |};
            running := false;
            log := [Warning "Event queue is full, dropping event"] |}.
Proof.
  intros Hlen.
  exact (overflow_on_empty init events last eq_refl capacity_positive Hlen).
Qed.

Lemma step_bounded (a : action) (s s' : system) :
  bounded s -> step a s = Some s' -> bounded s'.
Proof.
  intros (Hmax & Hpos & Hsize). unfold step, bounded.
  destruct a as [who events|who|].
  - destruct (pc_of who s); try discriminate. intros [= <-].
    destruct who; cbn; auto.
  - destruct (pc_of who s) as [|[|event pending]|event pending]; try discriminate.
    + intros [= <-]. destruct who; cbn; auto.
    + destruct (negb (full _)); intros [= <-]; destruct who; cbn; auto.
    + unfold put.
      assert (H0 : (maxsize (event_queue (collector s)) =? 0)%nat = false)
        by (apply Nat.eqb_neq; lia).
      rewrite H0. cbn [orb].
      destruct (qsize _ <? _)%nat eqn:E; [|discriminate].
      apply Nat.ltb_lt in E. intros [= <-].
      destruct who; cbn [set_pc collector with_queue event_queue maxsize];
        unfold qsize in *; cbn [items]; rewrite length_app; cbn [length];
        repeat split; auto; lia.
  - unfold get_nowait.
    destruct (items (event_queue (collector s))) as [|item rest] eqn:E.
    + intros [= <-]. auto.
    + intros [= <-]. cbn [collector with_queue event_queue maxsize].
      unfold qsize in *. cbn [items]. rewrite E in Hsize. cbn [length] in Hsize.
      repeat split; auto; lia.
Qed.

Lemma run_bounded (trace : list action) (s s' : system) :
  bounded s -> run trace s = Some s' -> bounded s'.
Proof.
  revert s. induction trace as [|a rest IH]; intros s Hb; cbn [run].
  - now intros [= <-].
  - destruct (step a s) as [s1|] eqn:E; [|discriminate].
    apply IH. exact (step_bounded _ _ _ Hb E).
Qed.

(** In every reachable state, whatever the interleaving, the queue
    holds at most 10 000 events. *)
Lemma occupancy_bounded (s : system) :
  reachable s -> (qsize (event_queue (collector s)) <= 10000)%nat.
Proof.
  intros [trace Hrun].
  destruct (run_bounded trace (start init) s) as (Hmax & _ & Hsize).
  - split; [reflexivity|]. split; [exact capacity_positive|].
    unfold qsize. cbn [start collector event_queue init items length]. lia.
  - exact Hrun.
  - now rewrite Hmax in Hsize.
Qed.

Lemma step_alone (a : action) (s s' : system) :
  no_azure_poll a -> alone s -> step a s = Some s' -> alone s'.
Proof.
  intros Ha (Haz & Hpos & Hput). unfold step, alone.
  destruct a as [[|] events|[|]|]; cbn [pc_of set_pc]; try contradiction.
  - destruct (aws s); try discriminate. intros [= <-]. cbn.
    repeat split; auto. discriminate.
  - destruct (aws s) as [|[|event pending]|event pending] eqn:Eaws; try discriminate.
    + intros [= <-]. cbn. repeat split; auto. discriminate.
    + destruct (full _) eqn:Efull; cbn [negb]; intros [= <-]; cbn.
      * repeat split; auto. discriminate.
      * repeat split; auto. intros ev pd [= <- <-]. unfold full in Efull.
        apply andb_false_iff in Efull as [E|E].
        -- apply Nat.ltb_ge in E. lia.
        -- now apply Nat.leb_gt in E.
    + destruct (put _ _) as [q|] eqn:Eput; [|discriminate]. intros [= <-]. cbn.
      unfold put in Eput. destruct (_ || _); [|discriminate].
      injection Eput as <-. cbn. repeat split; auto. discriminate.
  - rewrite Haz. discriminate.
  - unfold get_nowait.
    destruct (items (event_queue (collector s))) as [|item rest] eqn:E;
      intros [= <-]; [now repeat split|].
    cbn. repeat split; auto. intros ev pd Hpc. specialize (Hput ev pd Hpc).
    unfold qsize in *. cbn. rewrite E in Hput. cbn in Hput. lia.
Qed.

Lemma alone_not_blocked (s : system) : alone s -> ~ blocked Aws s.
Proof.
  intros (_ & _ & Hput) (event & pending & Hpc & Hstep). cbn in Hpc.
  specialize (Hput event pending Hpc).
  unfold step in Hstep. cbn [pc_of] in Hstep. rewrite Hpc in Hstep.
  unfold put in Hstep. apply Nat.ltb_lt in Hput. rewrite Hput in Hstep.
  now rewrite orb_true_r in Hstep.
Qed.

Lemma single_producer_never_blocked (trace : list action) (s : system) :
  Forall no_azure_poll trace ->
  run trace (start init) = Some s ->
  ~ blocked Aws s.
Proof.
  intros Hall Hrun. apply alone_not_blocked.
  assert (Hinit : alone (start init)).
  { repeat split; cbn; [lia | discriminate]. }
  revert Hinit Hrun. generalize (start init).
  induction Hall as [|a rest Ha _ IH]; intros s0 H0; cbn.
  - now intros [= <-].
  - destruct (step a s0) as [s1|] eqn:E; [|discriminate].
    apply IH. exact (step_alone _ _ _ Ha H0 E).
Qed.

Lemma run_app (trace more : list action) (s : system) :
  run (trace ++ more) s
  = match run trace s with
    | Some s' => run more s'
    | None => None
    end.
Proof.
  revert s. induction trace as [|a rest IH]; intros s; [reflexivity|].
  cbn [app run]. destruct (step a s); [apply IH | reflexivity].
Qed.

Lemma pc_of_set_pc (who : producer) (p : pc) (c : UnifiedCollector) (s : system) :
  pc_of who (set_pc who p c s) = p.
Proof. now destruct who. Qed.

Lemma set_pc_twice (who : producer) (p p' : pc) (c c' : UnifiedCollector)
    (s : system) :
  set_pc who p c (set_pc who p' c' s) = set_pc who p c s.
Proof. now destruct who. Qed.

Lemma collector_set_pc (who : producer) (p : pc) (c : UnifiedCollector) (s : system) :
  collector (set_pc who p c s) = c.
Proof. now destruct who. Qed.

Lemma put_with_room (q : Queue) (event : dict) :
  (qsize q < maxsize q)%nat ->
  put q event = Some {| maxsize := maxsize q; items := items q ++ [event] |}.
Proof.
  intros H. unfold put. apply Nat.ltb_lt in H. now rewrite H, orb_true_r.
Qed.

Lemma not_full_with_room (q : Queue) : (qsize q < maxsize q)%nat -> full q = false.
Proof.
  intros H. unfold full. apply Nat.leb_gt in H. now rewrite H, andb_false_r.
Qed.

(** One thread running alone moves all its pending events into the
    queue when they fit, in two steps each, and returns to polling. *)
Lemma run_fill (who : producer) (events : list dict) (s : system) :
  pc_of who s = AtFullCheck events ->
  (qsize (event_queue (collector s)) + length events
   <= maxsize (event_queue (collector s)))%nat ->
  run (repeat (Step who) (2 * length events + 1)) s
  = Some (set_pc who Polling
            (with_queue (collector s)
               {| maxsize := maxsize (event_queue (collector s));
                  items := items (event_queue (collector s)) ++ events |}) s).
Proof.
  revert s. induction events as [|event rest IH]; intros s Hpc Hroom.
  - cbn [length Nat.mul Nat.add repeat run]. unfold step. rewrite Hpc.
    rewrite app_nil_r. now destruct s as [[[mx its] rn lg] pa pz], who.
  - cbn [length] in *.
    replace (2 * S (length rest) + 1)%nat with (S (S (2 * length rest + 1))) by lia.
    cbn [repeat run].
    unfold step at 1. rewrite Hpc.
    rewrite not_full_with_room by lia. cbn [negb].
    unfold step at 1. rewrite pc_of_set_pc, collector_set_pc.
    rewrite put_with_room by lia. rewrite set_pc_twice.
    rewrite IH.
    + rewrite set_pc_twice, collector_set_pc. cbn. now rewrite <- app_assoc.
    + apply pc_of_set_pc.
    + rewrite collector_set_pc. unfold qsize in *. cbn. rewrite length_app. cbn. lia.
Qed.

(** C4, where the code departs from it.  [put] is the blocking call of
    [queue.Queue], guarded only by an earlier [full()].  In the reachable
    state below both collection threads have seen a free slot, the AWS
    thread has taken it, and the Azure thread stands at [put] on a full
    queue of 10 000 events: it waits until the consumer removes one. *)
Theorem producer_blocks_on_full_queue :
  run race_schedule (start init) = Some race_state
  /\ reachable race_state
  /\ qsize (event_queue (collector race_state)) = 10000%nat
  /\ full (event_queue (collector race_state)) = true
  /\ blocked Azure race_state.
Proof.
  assert (Hrun : run race_schedule (start init) = Some race_state).
  { unfold race_schedule.
    set (events := repeat (event_from "aws") 9999).
    assert (Hlen : length events = 9999%nat) by apply repeat_length.
    rewrite run_app.
    assert (Hpoll : run [Poll Aws events] (start init)
                    = Some (set_pc Aws (AtFullCheck events)
                              (collector (start init)) (start init)))
      by reflexivity.
    rewrite Hpoll, run_app. rewrite <- Hlen. rewrite run_fill.
    - vm_compute. reflexivity.
    - reflexivity.
    - rewrite Hlen. apply Nat.leb_le. vm_compute. reflexivity. }
  split; [exact Hrun|]. split; [now exists race_schedule|].
  split; [vm_compute; reflexivity|]. split; [vm_compute; reflexivity|].
  exists (event_from "azure"), []. split; [reflexivity | vm_compute; reflexivity].
Qed.

End CollectorFacts.

(** ** Alert identifiers *)

Section IdentifierFacts.
Import Py Alerts.

(** The Rocq digest agrees with the test vectors of RFC 1321. *)
Lemma md5_test_vectors :
  MD5.hexdigest "" = "d41d8cd98f00b204e9800998ecf8427e"
  /\ MD5.hexdigest "abc" = "900150983cd24fb0d6963f7d28e17f72"
  /\ MD5.hexdigest "message digest" = "f96b697d7cb7938d525a2f31aaf161d0"
  /\ MD5.hexdigest
       "12345678901234567890123456789012345678901234567890123456789012345678901234567890"
     = "57edf4a22be3c955ac49da2e2107b67a".
Proof. repeat split; vm_compute; reflexivity. Qed.

Variable utcnow_iso : nat -> string.
Variable md5_hexdigest : string -> string.
Variable py_str : pyval -> string.
Variable format_1f : Q -> string.
Variable cfg : Config.t.

Abbreviation gen := (generate_alert utcnow_iso md5_hexdigest py_str format_1f cfg).
Abbreviation gen_seq :=
  (generate_sequence utcnow_iso md5_hexdigest py_str format_1f cfg).
Abbreviation id_at := (alert_id_at utcnow_iso md5_hexdigest).

(** A sequence of calls only appends to the history. *)
Lemma generate_sequence_extends (inputs : list (dict * threat_result))
    (m : AlertManager) :
  exists new,
    alert_history (gen_seq m inputs) = alert_history m ++ new
    /\ length new = length inputs.
Proof.
  revert m. induction inputs as [|[e r] rest IH]; intros m.
  - exists []. cbn. now rewrite app_nil_r.
  - cbn [generate_sequence].
    destruct (IH (fst (gen m e r None))) as (new & Hh & Hlen).
    eexists (_ :: new). rewrite Hh. cbn. rewrite <- app_assoc. split; [reflexivity|].
    cbn. now rewrite Hlen.
Qed.

(** The k-th alert of a sequence gets the id computed at its own clock
    reading for its own position in the history. *)
Lemma generate_sequence_id (inputs : list (dict * threat_result)) :
  forall (m : AlertManager) (k : nat),
    (k < length inputs)%nat ->
    exists a,
      nth_error (alert_history (gen_seq m inputs)) (length (alert_history m) + k)
      = Some a
      /\ alert_id a = id_at (clock_reads m + 2 * k) (length (alert_history m) + k).
Proof.
  induction inputs as [|[e r] rest IH]; intros m k Hk; [cbn in Hk; lia|].
  cbn [generate_sequence].
  set (m1 := fst (gen m e r None)).
  assert (Hh1 : alert_history m1 = alert_history m ++ [snd (gen m e r None)])
    by reflexivity.
  assert (Hc1 : clock_reads m1 = S (S (clock_reads m))) by reflexivity.
  destruct k as [|k].
  - destruct (generate_sequence_extends rest m1) as (new & Hh & _).
    exists (snd (gen m e r None)). rewrite Hh, Hh1, Nat.add_0_r, <- app_assoc.
    rewrite nth_error_app2 by lia. rewrite Nat.sub_diag. split; [reflexivity|].
    cbn. unfold generate_alert_id. f_equal. lia.
  - destruct (IH m1 k) as (a & Hnth & Hid); [cbn in Hk; lia|].
    exists a. rewrite Hh1, length_app in Hnth, Hid. cbn [length] in Hnth, Hid.
    replace (length (alert_history m) + S k)%nat
      with (length (alert_history m) + 1 + k)%nat by lia.
    split; [exact Hnth|]. rewrite Hid, Hc1. f_equal. lia.
Qed.

End IdentifierFacts.

Section HashedStringFacts.
Import Alerts.

Lemma append_cons (c : ascii) (t x : string) :
  String c t +:+ x = String c (t +:+ x).
Proof. reflexivity. Qed.

Lemma append_nil (x : string) : "" +:+ x = x.
Proof. reflexivity. Qed.

Lemma has_underscore_separator (t d : string) :
  has_underscore (t +:+ String "_" d) = true.
Proof.
  induction t as [|c t IH]; [reflexivity|].
  rewrite append_cons. cbn [has_underscore]. rewrite IH. apply orb_true_r.
Qed.

Lemma pretty_N_go_no_underscore (x : N) (s : string) :
  has_underscore s = false -> has_underscore (pretty_N_go x s) = false.
Proof.
  revert s. induction (N.lt_wf_0 x) as [x _ IH]; intros s Hs.
  assert (x = 0 \/ 0 < x)%N as [->|Hpos] by lia.
  - now rewrite pretty_N_go_0.
  - rewrite pretty_N_go_step by exact Hpos. apply IH.
    + now apply N.div_lt.
    + cbn. rewrite Hs. unfold pretty_N_char. now repeat case_match.
Qed.

(** The decimal form of a position holds no underscore. *)
Lemma pretty_nat_no_underscore (n : nat) : has_underscore (pretty n) = false.
Proof.
  unfold pretty, pretty_nat, pretty, pretty_N.
  case_decide; [reflexivity|]. now apply pretty_N_go_no_underscore.
Qed.

Lemma separator_splits (t1 t2 d1 d2 : string) :
  has_underscore d1 = false ->
  has_underscore d2 = false ->
  t1 +:+ String "_" d1 = t2 +:+ String "_" d2 ->
  t1 = t2 /\ d1 = d2.
Proof.
  intros H1 H2. revert t2.
  induction t1 as [|c1 t1 IH]; intros [|c2 t2] Heq;
    rewrite ?append_cons, ?append_nil in Heq.
  - injection Heq as ->. now split.
  - injection Heq as <- ->.
    now rewrite has_underscore_separator in H1.
  - injection Heq as -> <-.
    now rewrite has_underscore_separator in H2.
  - injection Heq as -> Heq. destruct (IH t2 Heq) as [-> ->]. now split.
Qed.

(** The strings that are hashed differ as soon as the positions or the
    clock readings differ: before hashing, the ids of one writer are
    pairwise distinct. *)
Lemma unique_str_injective (t1 t2 : string) (n1 n2 : nat) :
  unique_str t1 n1 = unique_str t2 n2 -> t1 = t2 /\ n1 = n2.
Proof.
  unfold unique_str. intros Heq.
  destruct (separator_splits _ _ _ _ (pretty_nat_no_underscore n1)
              (pretty_nat_no_underscore n2) Heq) as [Ht Hd].
  split; [exact Ht|]. exact (pretty_nat_inj _ _ Hd).
Qed.

End HashedStringFacts.

(** The two strings hashed for the alerts at positions 3012 and 3973 under
    the steady clock, and their digests: the first twelve digits agree. *)
Lemma colliding_digests :
  Alerts.unique_str (steady_clock (2 * 3012)) 3012 = "2026-11-04T08:50:12.005192_3012"
  /\ Alerts.unique_str (steady_clock (2 * 3973)) 3973 = "2026-11-04T09:06:13.002864_3973"
  /\ MD5.hexdigest "2026-11-04T08:50:12.005192_3012" = "751a1a3554ed1fc6db2a070fd4976b29"
  /\ MD5.hexdigest "2026-11-04T09:06:13.002864_3973" = "751a1a3554ed375d4fffb38d89361a67".
Proof. repeat split; vm_compute; reflexivity. Qed.

(** C9, where the code departs from it.  The id is the first 12
    hexadecimal digits (48 bits) of the MD5 digest of the creation time
    and the history length, and two such prefixes can coincide.  With one
    alert per second from 08:00:00 on, the alert at position 3012, created
    at 08:50:12.005192, and the alert at position 3973, created at
    09:06:13.002864, both get the id 751a1a3554ed: the 10 000 ids of the
    sequence are not pairwise distinct. *)
Theorem sequential_ids_collide (py_str : Py.pyval -> string)
    (format_1f : Q -> string) (cfg : Config.t)
    (inputs : list (Py.dict * Alerts.threat_result)) :
  length inputs = 10000%nat ->
  let m := Alerts.generate_sequence steady_clock MD5.hexdigest py_str format_1f cfg
             Alerts.init inputs in
  length (Alerts.alert_history m) = 10000%nat
  /\ (exists a b,
        nth_error (Alerts.alert_history m) 3012 = Some a
        /\ nth_error (Alerts.alert_history m) 3973 = Some b
        /\ Alerts.alert_id a = "751a1a3554ed"
        /\ Alerts.alert_id b = "751a1a3554ed")
  /\ ~ List.NoDup (map Alerts.alert_id (Alerts.alert_history m)).
Proof.
  intros Hlen m.
  destruct (generate_sequence_extends steady_clock MD5.hexdigest py_str format_1f cfg
              inputs Alerts.init) as (new & Hh & Hnew).
  fold m in Hh. cbn [Alerts.init Alerts.alert_history app] in Hh.
  assert (Hsize : length (Alerts.alert_history m) = 10000%nat) by congruence.
  assert (H1 : (3012 < length inputs)%nat)
    by (rewrite Hlen; apply Nat.ltb_lt; vm_compute; reflexivity).
  assert (H2 : (3973 < length inputs)%nat)
    by (rewrite Hlen; apply Nat.ltb_lt; vm_compute; reflexivity).
  destruct (generate_sequence_id steady_clock MD5.hexdigest py_str format_1f cfg
              inputs Alerts.init 3012 H1) as (a & Ha & Hida).
  destruct (generate_sequence_id steady_clock MD5.hexdigest py_str format_1f cfg
              inputs Alerts.init 3973 H2) as (b & Hb & Hidb).
  fold m in Ha, Hb. cbn [Alerts.init Alerts.alert_history length Nat.add] in Ha, Hb.
  assert (Ea : Alerts.alert_id a = "751a1a3554ed")
    by (rewrite Hida; vm_compute; reflexivity).
  assert (Eb : Alerts.alert_id b = "751a1a3554ed")
    by (rewrite Hidb; vm_compute; reflexivity).
  split; [exact Hsize|].
  split; [exists a, b; split; [exact Ha|]; split; [exact Hb|]; split; [exact Ea | exact Eb]|].
  intros Hnodup. rewrite NoDup_nth_error in Hnodup.
  assert (Habs : 3012%nat = 3973%nat).
  { apply Hnodup.
    - rewrite length_map, Hsize. apply Nat.ltb_lt. vm_compute. reflexivity.
    - rewrite !nth_error_map, Ha, Hb. cbn [option_map]. rewrite Ea, Eb. reflexivity. }
  apply Nat.eqb_eq in Habs. vm_compute in Habs. discriminate.
Qed.

(** ** The statements above at concrete inputs *)

(** An unknown id and the id of the one open alert of a history. *)
Lemma lifecycle_acknowledge_then_resolve_witness :
  (Alerts.acknowledge_alert steady_clock (sample_manager sample_alert) "unknown"
   = (sample_manager sample_alert, false)
   /\ forall notes,
        Alerts.resolve_alert steady_clock (sample_manager sample_alert) "unknown" notes
        = (sample_manager sample_alert, false))
  /\ exists m1 m2 a',
       Alerts.acknowledge_alert steady_clock (sample_manager sample_alert) "751a1a3554ed"
       = (m1, true)
       /\ Alerts.resolve_alert steady_clock m1 "751a1a3554ed" "fixed" = (m2, true)
       /\ Alerts.find_alert "751a1a3554ed" (Alerts.alert_history m2) = Some a'
       /\ Alerts.status a' = "resolved"
       /\ Alerts.resolution_notes a' = Some "fixed"
       /\ Alerts.acknowledged_at a' = Some (steady_clock 2)
       /\ Alerts.resolved_at a' = Some (steady_clock 3)
       /\ Alerts.alert_id a' = "751a1a3554ed"
       /\ length (Alerts.alert_history m2) = 1%nat.
Proof.
  split.
  - apply (proj1 (lifecycle_acknowledge_then_resolve steady_clock
                    (sample_manager sample_alert) "unknown")).
    intros a [<-|[]]. discriminate.
  - apply (proj2 (lifecycle_acknowledge_then_resolve steady_clock
                    (sample_manager sample_alert) "751a1a3554ed") sample_alert);
      reflexivity.
Defined.

(** Two open alerts with one id: after acknowledge and resolve, both of
    which return true, the second is still the open alert it was. *)
Lemma lifecycle_misses_duplicate_id_witness :
  exists m1 m2,
    Alerts.acknowledge_alert steady_clock twin_manager "751a1a3554ed" = (m1, true)
    /\ Alerts.resolve_alert steady_clock m1 "751a1a3554ed" "fixed" = (m2, true)
    /\ nth_error (Alerts.alert_history m2) 1 = Some twin_alert.
Proof.
  apply (lifecycle_misses_duplicate_id steady_clock twin_manager "751a1a3554ed"
           0%nat 1%nat sample_alert twin_alert); try reflexivity.
  lia.
Defined.

(** An alert that is already resolved is acknowledged, and resolved again
    with new notes. *)
Lemma lifecycle_no_terminal_status_witness :
  (exists m' a',
      Alerts.acknowledge_alert steady_clock
        (sample_manager (Alerts.set_resolved "2026-11-04T09:00:00.000001" "done" sample_alert))
        "751a1a3554ed" = (m', true)
      /\ Alerts.find_alert "751a1a3554ed" (Alerts.alert_history m') = Some a'
      /\ Alerts.status a' = "acknowledged")
  /\ (exists m' a',
        Alerts.resolve_alert steady_clock
          (sample_manager (Alerts.set_resolved "2026-11-04T09:00:00.000001" "done" sample_alert))
          "751a1a3554ed" "again" = (m', true)
        /\ Alerts.find_alert "751a1a3554ed" (Alerts.alert_history m') = Some a'
        /\ Alerts.status a' = "resolved"
        /\ Alerts.resolution_notes a' = Some "again").
Proof.
  apply (lifecycle_no_terminal_status steady_clock
           (sample_manager (Alerts.set_resolved "2026-11-04T09:00:00.000001" "done" sample_alert))
           "751a1a3554ed" "again"
           (Alerts.set_resolved "2026-11-04T09:00:00.000001" "done" sample_alert)).
  reflexivity.
Defined.

(** Two rows scored by an untrained detector whose model would raise. *)
Lemma untrained_is_neutral_witness :
  Detector.predict_proba (fun _ => inl Py.ValueError) {| Detector.is_trained := false |}
    [[1%Q; 2%Q]; [3%Q; 4%Q]]
  = [(5 # 10, 5 # 10)%Q; (5 # 10, 5 # 10)%Q].
Proof.
  apply (proj1 (untrained_is_neutral (fun _ => inl Py.ValueError)
                  (fun _ => inl Py.ValueError) {| Detector.is_trained := false |}
                  [[1%Q; 2%Q]; [3%Q; 4%Q]] eq_refl)).
Defined.

(** An event without a timestamp entry. *)
Lemma missing_timestamp_sentinels_witness :
  Features.extract_temporal_features plain_fromisoformat structured_event !! "hour"
  = Some (Features.FInt (-1))
  /\ Features.extract_temporal_features plain_fromisoformat structured_event !! "is_night"
     = Some (Features.FInt 0).
Proof.
  destruct (proj1 (missing_timestamp_sentinels plain_digest plain_repr
                     plain_fromisoformat plain_int plain_findall_count plain_log2
                     structured_event (or_introl eq_refl)))
    as (Hhour & _ & _ & _ & Hnight & _).
  split; [exact Hhour | exact Hnight].
Defined.

(** The event the AWS collector builds from a log line that is a JSON
    string: nothing is extracted, the temporal features included, and the
    cache is untouched. *)
Lemma text_message_aborts_extraction_witness :
  Features.extract_features plain_digest plain_repr plain_fromisoformat plain_int
    plain_findall_count plain_log2 Features.init raw_text_event
  = (∅, Features.init)
  /\ fst (Features.extract_features plain_digest plain_repr plain_fromisoformat
            plain_int plain_findall_count plain_log2 Features.init raw_text_event)
     !! "hour" = None.
Proof.
  destruct (text_message_aborts_extraction plain_digest plain_repr plain_fromisoformat
              plain_int plain_findall_count plain_log2 Features.init raw_text_event
              eq_refl) as (Hempty & Hnone & _).
  split; [exact Hempty|]. apply Hnone. cbn. auto 10.
Defined.

(** A produced mapping with a NaN under a registered name. *)
Lemma prepare_for_ml_reconciles_witness :
  Preprocessor.prepare_for_ml {| Preprocessor.feature_columns := Some ["a"; "b"; "c"] |}
    (Preprocessor.frame_of_mapping
       [("a", Preprocessor.Num 5); ("c", Preprocessor.NaN); ("d", Preprocessor.Num 9)])
    false
  = ({| Preprocessor.feature_columns := Some ["a"; "b"; "c"] |}, [[5%Q; 0%Q; 0%Q]]).
Proof.
  apply (proj1 (prepare_for_ml_reconciles
                  {| Preprocessor.feature_columns := Some ["a"; "b"; "c"] |}
                  (Preprocessor.frame_of_mapping
                     [("a", Preprocessor.Num 5); ("c", Preprocessor.NaN);
                      ("d", Preprocessor.Num 9)])
                  ["a"; "b"; "c"] eq_refl ltac:(discriminate) eq_refl)).
Defined.

(** C2 as stated fails on an empty registry.  Training on a frame without
    numeric columns registers the empty list; at inference the guard
    [if self.feature_columns:] then skips the reconciliation, and the
    produced column [a] stays in the output although the registry does
    not list it. *)
Lemma empty_registry_is_not_reconciled :
  let trained := fst (Preprocessor.prepare_for_ml Preprocessor.init text_only_frame true) in
  let produced := Preprocessor.frame_of_mapping [("a", Preprocessor.Num 5)] in
  Preprocessor.feature_columns trained = Some []
  /\ snd (Preprocessor.prepare_for_ml trained produced false) = [[5%Q]]
  /\ snd (Preprocessor.prepare_for_ml trained produced false)
     <> map (fun i => map (reconciled
                             (Preprocessor.drop_timestamp
                                (Preprocessor.select_numeric
                                   (Preprocessor.columns produced))) i) [])
            (seq 0 (Preprocessor.nrows produced)).
Proof. cbn. repeat split. discriminate. Qed.

(** An empty produced frame is answered with the empty array as well,
    whatever the registry. *)
Lemma empty_frame_is_not_reconciled :
  snd (Preprocessor.prepare_for_ml
         {| Preprocessor.feature_columns := Some ["a"; "b"; "c"] |}
         (Preprocessor.frame_of_mapping []) false) = [].
Proof. reflexivity. Qed.

(** Ten thousand alerts for the same event. *)
#[warnings="-abstract-large-number"]
Lemma sequential_ids_collide_witness :
  length (Alerts.alert_history
            (Alerts.generate_sequence steady_clock MD5.hexdigest plain_str plain_format
               Config.default Alerts.init
               (repeat (event_from "aws", scored (9 # 10)) 10000)))
  = 10000%nat.
Proof.
  apply (proj1 (sequential_ids_collide plain_str plain_format Config.default
                  (repeat (event_from "aws", scored (9 # 10)) 10000)
                  (repeat_length _ _))).
Defined.

(** * Further properties of the modelled code *)

(** ** Alert queries *)

Section QueryFacts.
Import Py Alerts.

(** Newest first: no alert is followed by a strictly newer one. *)
Abbreviation newest_first :=
  (StronglySorted (fun a b : alert => String.leb (timestamp b) (timestamp a) = true)).

Lemma leb_trans (s1 s2 s3 : string) :
  String.leb s1 s2 = true -> String.leb s2 s3 = true -> String.leb s1 s3 = true.
Proof.
  intros H12 H23. apply Is_true_true.
  apply (transitivity (R := String.le) (y := s2)); apply Is_true_true; assumption.
Qed.

Lemma leb_false_flip (s1 s2 : string) :
  String.leb s1 s2 = false -> String.leb s2 s1 = true.
Proof. intros H. destruct (String.leb_total s1 s2) as [E|E]; congruence. Qed.

Lemma insert_newest_first_perm (a : alert) (l : list alert) :
  Permutation (insert_newest_first a l) (a :: l).
Proof.
  induction l as [|b rest IH]; cbn; [reflexivity|].
  destruct (String.leb (timestamp a) (timestamp b)); [|reflexivity].
  rewrite IH. apply perm_swap.
Qed.

Lemma insert_newest_first_sorted (a : alert) (l : list alert) :
  newest_first l -> newest_first (insert_newest_first a l).
Proof.
  induction 1 as [|b rest Hsorted IH Hall]; cbn.
  - repeat constructor.
  - destruct (String.leb (timestamp a) (timestamp b)) eqn:E.
    + constructor; [exact IH|].
      apply List.Forall_forall. intros x Hx.
      apply (Permutation_in _ (insert_newest_first_perm a rest)) in Hx.
      destruct Hx as [<-|Hx]; [exact E|].
      rewrite List.Forall_forall in Hall. now apply Hall.
    + apply leb_false_flip in E. constructor; [now constructor|].
      constructor; [exact E|].
      apply List.Forall_forall. intros x Hx.
      rewrite List.Forall_forall in Hall.
      exact (leb_trans _ _ _ (Hall x Hx) E).
Qed.

Lemma sort_newest_first_acc (l acc : list alert) :
  newest_first acc ->
  newest_first (fold_left (fun sorted a => insert_newest_first a sorted) l acc)
  /\ Permutation (fold_left (fun sorted a => insert_newest_first a sorted) l acc)
       (acc ++ l).
Proof.
  revert acc. induction l as [|a rest IH]; intros acc Hacc; cbn.
  - split; [exact Hacc | now rewrite app_nil_r].
  - destruct (IH _ (insert_newest_first_sorted a acc Hacc)) as [Hs Hp].
    split; [exact Hs|]. rewrite Hp, insert_newest_first_perm.
    cbn [app]. apply Permutation_middle.
Qed.

Lemma sort_newest_first_sorted (l : list alert) : newest_first (sort_newest_first l).
Proof. apply sort_newest_first_acc. constructor. Qed.

Lemma sort_newest_first_perm (l : list alert) : Permutation (sort_newest_first l) l.
Proof. apply (sort_newest_first_acc l []). constructor. Qed.

Lemma firstn_subset {A : Type} (n : nat) (l : list A) (x : A) :
  In x (firstn n l) -> In x l.
Proof.
  intros H. rewrite <- (firstn_skipn n l). apply in_or_app. now left.
Qed.

Lemma firstn_sorted (n : nat) (l : list alert) :
  newest_first l -> newest_first (firstn n l).
Proof.
  intros H. revert n. induction H as [|a rest _ IH Hall]; intros [|n]; cbn;
    try constructor.
  - apply IH.
  - apply List.Forall_forall. intros x Hx. rewrite List.Forall_forall in Hall.
    apply Hall. exact (firstn_subset _ _ _ Hx).
Qed.

Lemma slice_to_subset {A : Type} (limit : Z) (l : list A) (x : A) :
  In x (slice_to limit l) -> In x l.
Proof. unfold slice_to. destruct (limit <? 0); apply firstn_subset. Qed.

(** The alerts [get_active_alerts] selects before sorting and cutting. *)
Lemma active_filter (m : AlertManager) (severity : option string) (a : alert) :
  In a (match severity with
        | Some s =>
            if String.eqb s "" then List.filter is_open (alert_history m)
            else List.filter (fun a => String.eqb (Alerts.severity a) s)
                   (List.filter is_open (alert_history m))
        | None => List.filter is_open (alert_history m)
        end)
  <-> In a (alert_history m) /\ is_open a = true /\ severity_matches severity a = true.
Proof.
  unfold severity_matches. destruct severity as [s|].
  - destruct (String.eqb s "") eqn:E; cbn [orb].
    + rewrite filter_In. tauto.
    + rewrite !filter_In. tauto.
  - rewrite filter_In. tauto.
Qed.

(** X1. [get_active_alerts] returns only alerts of the history that are
    open and pass the severity filter; acknowledged and resolved alerts
    never appear.  When the limit is at least the number of open alerts,
    it returns every such alert. *)
Theorem active_alerts_selection (m : AlertManager) (severity : option string)
    (limit : Z) (a : alert) :
  (In a (get_active_alerts m severity limit) ->
   In a (alert_history m) /\ status a = "open" /\ severity_matches severity a = true)
  /\ (Z.of_nat (length (List.filter is_open (alert_history m))) <= limit ->
      In a (alert_history m) -> status a = "open" ->
      severity_matches severity a = true ->
      In a (get_active_alerts m severity limit)).
Proof.
  unfold get_active_alerts. split.
  - intros Hin. apply slice_to_subset in Hin.
    apply (Permutation_in _ (sort_newest_first_perm _)) in Hin.
    apply active_filter in Hin as (Hh & Ho & Hs).
    repeat split; try assumption. now apply String.eqb_eq.
  - intros Hlimit Hh Ho Hs.
    set (alerts := match severity with Some s => _ | None => _ end).
    assert (Hin : In a alerts).
    { apply active_filter. repeat split; try assumption.
      unfold is_open. now apply String.eqb_eq. }
    assert (Hlen : (length (sort_newest_first alerts)
                    <= length (List.filter is_open (alert_history m)))%nat).
    { rewrite (Permutation_length (sort_newest_first_perm alerts)).
      unfold alerts. destruct severity as [s|]; [|lia].
      destruct (String.eqb s ""); [lia|]. apply filter_length_le. }
    unfold slice_to. assert (Hpos : (limit <? 0) = false) by (apply Z.ltb_ge; lia).
    rewrite Hpos. rewrite firstn_all2 by lia.
    apply (Permutation_in _ (Permutation_sym (sort_newest_first_perm _))). exact Hin.
Qed.

(** X2. The result of [get_active_alerts] is ordered newest first by
    timestamp, and for a limit that is not negative it holds at most
    [limit] alerts. *)
Theorem active_alerts_order_and_cap (m : AlertManager) (severity : option string)
    (limit : Z) :
  newest_first (get_active_alerts m severity limit)
  /\ (0 <= limit -> Z.of_nat (length (get_active_alerts m severity limit)) <= limit).
Proof.
  unfold get_active_alerts, slice_to. split.
  - destruct (limit <? 0); apply firstn_sorted, sort_newest_first_sorted.
  - intros Hpos. assert (E : (limit <? 0) = false) by (apply Z.ltb_ge; lia).
    rewrite E. pose proof (firstn_le_length (Z.to_nat limit)
      (sort_newest_first
         match severity with
         | Some s =>
             if String.eqb s "" then List.filter is_open (alert_history m)
             else List.filter (fun a => String.eqb (Alerts.severity a) s)
                    (List.filter is_open (alert_history m))
         | None => List.filter is_open (alert_history m)
         end)). lia.
Qed.

End QueryFacts.

(** ** The alert store *)

Section StoreFacts.
Import Py Alerts.

Variable utcnow_iso : nat -> string.
Variable md5_hexdigest : string -> string.
Variable py_str : pyval -> string.
Variable format_1f : Q -> string.
Variable cfg : Config.t.

Abbreviation generate' := (generate_alert utcnow_iso md5_hexdigest py_str format_1f cfg).
Abbreviation loop' := (batch_loop utcnow_iso md5_hexdigest py_str format_1f cfg).
Abbreviation batch' :=
  (generate_batch_alerts utcnow_iso md5_hexdigest py_str format_1f cfg).

Lemma value_injective (s1 s2 : AlertSeverity) : value s1 = value s2 -> s1 = s2.
Proof. destruct s1, s2; cbn; intros H; try reflexivity; discriminate. Qed.

Lemma count_severity_app (s : string) (h1 h2 : list alert) :
  count_severity s (h1 ++ h2) = (count_severity s h1 + count_severity s h2)%nat.
Proof. unfold count_severity. now rewrite List.filter_app, List.length_app. Qed.

(** An in-place update that keeps the core keeps the cores of the whole
    history. *)
Lemma update_first_core (update : alert -> alert) (id : string) (history : list alert) :
  (forall a, core (update a) = core a) ->
  map core (fst (update_first update id history)) = map core history.
Proof.
  intros Hcore. induction history as [|a rest IH]; [reflexivity|].
  cbn [update_first]. destruct (String.eqb (alert_id a) id).
  - cbn. now rewrite Hcore.
  - destruct (update_first update id rest) as [rest' found]. cbn in *. now rewrite IH.
Qed.

Lemma count_severity_core (s : string) (h1 h2 : list alert) :
  map core h1 = map core h2 -> count_severity s h1 = count_severity s h2.
Proof.
  unfold count_severity. revert h2.
  induction h1 as [|a h1 IH]; intros [|b h2] H; try discriminate; [reflexivity|].
  cbn in H. injection H as Hid Hts Hsev _ _ _ _ _ _ _ Hrest.
  cbn [List.filter]. rewrite Hsev.
  destruct (String.eqb (severity b) s); cbn [length]; now rewrite (IH h2 Hrest).
Qed.

Lemma severities_core (h1 h2 : list alert) :
  map core h1 = map core h2 ->
  (forall a, In a h1 -> exists sev, severity a = value sev) ->
  forall b, In b h2 -> exists sev, severity b = value sev.
Proof.
  revert h2. induction h1 as [|a h1 IH]; intros [|b h2] H Hall x Hx;
    try discriminate; [contradiction|].
  cbn in H. injection H as _ _ Hsev _ _ _ _ _ _ _ Hrest.
  destruct Hx as [<-|Hx].
  - rewrite <- Hsev. apply Hall. now left.
  - apply (IH h2 Hrest); [|exact Hx]. intros y Hy. apply Hall. now right.
Qed.

Lemma consistent_update (update : alert -> alert) (id : string) (m : AlertManager)
    (reads : nat) :
  (forall a, core (update a) = core a) ->
  consistent m ->
  consistent {| alert_history := fst (update_first update id (alert_history m));
                alert_count := alert_count m;
                clock_reads := reads |}.
Proof.
  intros Hcore [Hsev Hcount].
  pose proof (update_first_core update id (alert_history m) Hcore) as Hmap.
  split; cbn.
  - exact (severities_core _ _ (eq_sym Hmap) Hsev).
  - intros sev. rewrite Hcount. f_equal. apply count_severity_core. now symmetry.
Qed.

Lemma consistent_generate (m : AlertManager) (event_data : dict)
    (threat_info : threat_result) (severity : option AlertSeverity) :
  consistent m -> consistent (fst (generate' m event_data threat_info severity)).
Proof.
  intros [Hsev Hcount]. unfold generate_alert.
  set (sev := match severity with Some s => s | None => _ end).
  split; cbn [fst alert_history alert_count].
  - intros a Hin. apply in_app_or in Hin as [Hin|[<-|[]]]; [now apply Hsev|].
    now exists sev.
  - intros sev'. rewrite count_severity_app. unfold count_severity at 2.
    cbn [List.filter Alerts.severity].
    destruct (String.eqb (value sev) (value sev')) eqn:E.
    + apply String.eqb_eq, value_injective in E. subst sev'.
      rewrite lookup_insert_eq, Hcount. cbn. f_equal. lia.
    + apply String.eqb_neq in E. rewrite lookup_insert_ne by exact E.
      rewrite Hcount. cbn. f_equal. lia.
Qed.

Lemma consistent_loop (events : list dict) (threat_results : list threat_result) :
  forall (i : nat) (m : AlertManager) (alerts : list alert),
    consistent m -> consistent (fst (loop' events i threat_results m alerts)).
Proof.
  induction threat_results as [|r rest IH]; intros i m alerts Hm; [exact Hm|].
  cbn [batch_loop].
  destruct (opt_truthy (is_threat r) || opt_truthy (exceeds_threshold r));
    [|now apply IH].
  destruct (_ <? _); [|now apply IH].
  destruct (py_index events _) as [e|event_data]; [exact Hm|].
  pose proof (consistent_generate m event_data r None Hm) as Hgen.
  destruct (generate' m event_data r None) as [m1 a]. now apply IH.
Qed.

(** X3. The per-severity counters agree with the history: starting from
    the empty manager, [generate_alert], [generate_batch_alerts] (also
    when it is aborted by an exception), [acknowledge_alert] and
    [resolve_alert] keep every alert on one of the four severities and
    every counter equal to the number of alerts of its severity. *)
Theorem counters_agree_with_history (m : AlertManager) :
  consistent Alerts.init
  /\ (consistent m ->
      (forall event_data threat_info severity,
          consistent (fst (generate' m event_data threat_info severity)))
      /\ (forall events threat_results,
            consistent (fst (batch' m events threat_results)))
      /\ (forall id, consistent (fst (acknowledge_alert utcnow_iso m id)))
      /\ (forall id notes, consistent (fst (resolve_alert utcnow_iso m id notes)))).
Proof.
  split.
  - split; [intros a []|]. intros []; reflexivity.
  - intros Hm. split; [|split; [|split]].
    + intros e t s. now apply consistent_generate.
    + intros events results. now apply consistent_loop.
    + intros id. unfold acknowledge_alert.
      pose proof (consistent_update (set_acknowledged (utcnow_iso (clock_reads m))) id m)
        as H.
      destruct (update_first _ id (alert_history m)) as [h found]. cbn in *.
      now apply H.
    + intros id notes. unfold resolve_alert.
      pose proof (consistent_update (set_resolved (utcnow_iso (clock_reads m)) notes) id m)
        as H.
      destruct (update_first _ id (alert_history m)) as [h found]. cbn in *.
      now apply H.
Qed.

Lemma length_by_severity (history : list alert) :
  (forall a, In a history -> exists sev, severity a = value sev) ->
  length history
  = (count_severity "low" history + count_severity "medium" history
     + count_severity "high" history + count_severity "critical" history)%nat.
Proof.
  induction history as [|a rest IH]; intros Hall; [reflexivity|].
  pose proof (IH (fun x Hx => Hall x (or_intror Hx))) as Hrest.
  destruct (Hall a (or_introl eq_refl)) as [sev Hsev].
  unfold count_severity in *. cbn [List.filter length]. rewrite Hsev.
  destruct sev; cbn; lia.
Qed.

(** X4. In the result of [get_alert_statistics] the active count never
    exceeds the total, [recent_alerts] holds at most ten alerts, all of
    them open and no more than the active count, and, while the counters
    agree with the history, the four [by_severity] counters add up to
    [total_alerts]. *)
Theorem statistics_are_coherent (m : AlertManager) :
  let st := get_alert_statistics m in
  (active_alerts st <= total_alerts st)%nat
  /\ (length (recent_alerts st) <= 10)%nat
  /\ (length (recent_alerts st) <= active_alerts st)%nat
  /\ (forall a, In a (recent_alerts st) -> In a (alert_history m) /\ status a = "open")
  /\ (consistent m ->
      (default 0 (by_severity st !! "low") + default 0 (by_severity st !! "medium")
       + default 0 (by_severity st !! "high") + default 0 (by_severity st !! "critical")
       = total_alerts st)%nat).
Proof.
  cbn zeta. unfold get_alert_statistics. cbn [total_alerts active_alerts by_severity
    recent_alerts]. split; [apply filter_length_le|].
  unfold get_active_alerts, slice_to. cbn [Z.ltb Z.compare Z.to_nat Pos.to_nat
    Pos.iter_op Nat.add].
  split; [apply firstn_le_length|]. split.
  - rewrite length_firstn, (Permutation_length (sort_newest_first_perm _)). lia.
  - split.
    + intros a Hin. apply firstn_subset in Hin.
      apply (Permutation_in _ (sort_newest_first_perm _)) in Hin.
      apply filter_In in Hin as [Hh Ho]. split; [exact Hh|]. now apply String.eqb_eq.
    + intros [Hsev Hcount].
      pose proof (Hcount LOW) as H1. pose proof (Hcount MEDIUM) as H2.
      pose proof (Hcount HIGH) as H3. pose proof (Hcount CRITICAL) as H4.
      cbn [value] in H1, H2, H3, H4. rewrite H1, H2, H3, H4.
      cbn [default from_option id]. symmetry. now apply length_by_severity.
Qed.

Lemma update_first_open (update : alert -> alert) (id : string)
    (history : list alert) (a : alert) :
  (forall x, is_open (update x) = false) ->
  find_alert id history = Some a ->
  (length (List.filter is_open (fst (update_first update id history)))
   + (if is_open a then 1 else 0)
   = length (List.filter is_open history))%nat.
Proof.
  intros Hclosed. unfold find_alert.
  induction history as [|x rest IH]; [discriminate|].
  cbn [List.find update_first]. destruct (String.eqb (alert_id x) id).
  - intros [= <-]. cbn [fst List.filter]. rewrite Hclosed.
    destruct (is_open x); cbn [length]; lia.
  - intros Hfind. specialize (IH Hfind).
    destruct (update_first update id rest) as [rest' found]. cbn [fst] in *.
    cbn [List.filter]. destruct (is_open x); cbn [length]; lia.
Qed.

(** X5. Acknowledging or resolving the alert an id denotes leaves the
    total of the statistics unchanged and lowers the active count by one
    when that alert was open, by nothing when it was not. *)
Theorem lifecycle_updates_statistics (m : AlertManager) (id notes : string)
    (a : alert) :
  find_alert id (alert_history m) = Some a ->
  let after_ack := get_alert_statistics (fst (acknowledge_alert utcnow_iso m id)) in
  let after_res := get_alert_statistics (fst (resolve_alert utcnow_iso m id notes)) in
  let before := get_alert_statistics m in
  total_alerts after_ack = total_alerts before
  /\ (active_alerts after_ack + (if is_open a then 1 else 0) = active_alerts before)%nat
  /\ total_alerts after_res = total_alerts before
  /\ (active_alerts after_res + (if is_open a then 1 else 0) = active_alerts before)%nat.
Proof.
  intros Hfind. cbn zeta. unfold get_alert_statistics, acknowledge_alert, resolve_alert.
  pose proof (update_first_open (set_acknowledged (utcnow_iso (clock_reads m))) id
                (alert_history m) a (fun _ => eq_refl) Hfind) as Hack.
  pose proof (update_first_open (set_resolved (utcnow_iso (clock_reads m)) notes) id
                (alert_history m) a (fun _ => eq_refl) Hfind) as Hres.
  pose proof (f_equal (@length _)
                (update_first_core (set_acknowledged (utcnow_iso (clock_reads m))) id
                   (alert_history m) (fun _ => eq_refl))) as Hlen1.
  pose proof (f_equal (@length _)
                (update_first_core (set_resolved (utcnow_iso (clock_reads m)) notes) id
                   (alert_history m) (fun _ => eq_refl))) as Hlen2.
  rewrite !length_map in Hlen1, Hlen2.
  destruct (update_first (set_acknowledged _) id (alert_history m)) as [h1 f1].
  destruct (update_first (set_resolved _ notes) id (alert_history m)) as [h2 f2].
  cbn in *. auto.
Qed.

Lemma update_first_others (update : alert -> alert) (id : string)
    (history : list alert) (i : nat) (b : alert) :
  nth_error history i = Some b ->
  alert_id b <> id ->
  nth_error (fst (update_first update id history)) i = Some b.
Proof.
  revert i. induction history as [|x rest IH]; intros i Hnth Hid.
  - now destruct i.
  - cbn [update_first]. destruct (String.eqb (alert_id x) id) eqn:E.
    + destruct i as [|i]; cbn in *; [|exact Hnth].
      injection Hnth as ->. apply String.eqb_eq in E. contradiction.
    + specialize (IH (pred i)).
      destruct (update_first update id rest) as [rest' found]. cbn [fst] in *.
      destruct i as [|i]; cbn in *; [exact Hnth | now apply IH].
Qed.

(** X6. [acknowledge_alert] and [resolve_alert] write only the lifecycle
    fields: the id, timestamp, severity, confidence, source, description,
    recommendations, event and classification of every alert stay as they
    were, the counters are untouched, and every alert carrying another id
    is left exactly as it was, at its position. *)
Theorem lifecycle_keeps_alert_core (m : AlertManager) (id notes : string) :
  let m1 := fst (acknowledge_alert utcnow_iso m id) in
  let m2 := fst (resolve_alert utcnow_iso m id notes) in
  map core (alert_history m1) = map core (alert_history m)
  /\ map core (alert_history m2) = map core (alert_history m)
  /\ alert_count m1 = alert_count m
  /\ alert_count m2 = alert_count m
  /\ forall i b,
       nth_error (alert_history m) i = Some b ->
       alert_id b <> id ->
       nth_error (alert_history m1) i = Some b
       /\ nth_error (alert_history m2) i = Some b.
Proof.
  cbn zeta. unfold acknowledge_alert, resolve_alert.
  pose proof (update_first_core (set_acknowledged (utcnow_iso (clock_reads m))) id
                (alert_history m) (fun _ => eq_refl)) as Hc1.
  pose proof (update_first_core (set_resolved (utcnow_iso (clock_reads m)) notes) id
                (alert_history m) (fun _ => eq_refl)) as Hc2.
  pose proof (update_first_others (set_acknowledged (utcnow_iso (clock_reads m))) id
                (alert_history m)) as Ho1.
  pose proof (update_first_others (set_resolved (utcnow_iso (clock_reads m)) notes) id
                (alert_history m)) as Ho2.
  destruct (update_first (set_acknowledged _) id (alert_history m)) as [h1 f1].
  destruct (update_first (set_resolved _ notes) id (alert_history m)) as [h2 f2].
  cbn in *. repeat split; auto.
Qed.

Lemma loop_appends (events : list dict) (threat_results : list threat_result) :
  forall (i : nat) (m : AlertManager) (alerts : list alert),
  exists new,
    alert_history (fst (loop' events i threat_results m alerts))
    = alert_history m ++ new
    /\ (length new <= length threat_results)%nat
    /\ Forall (fun a => status a = "open") new
    /\ forall returned,
         snd (loop' events i threat_results m alerts) = inr returned ->
         returned = alerts ++ new.
Proof.
  induction threat_results as [|r rest IH]; intros i m alerts.
  - exists []. cbn. rewrite !app_nil_r. repeat split; auto. now intros ? [= <-].
  - cbn [batch_loop].
    assert (Hskip : exists new,
      alert_history (fst (loop' events (S i) rest m alerts)) = alert_history m ++ new
      /\ (length new <= length (r :: rest))%nat
      /\ Forall (fun a => status a = "open") new
      /\ forall returned,
           snd (loop' events (S i) rest m alerts) = inr returned ->
           returned = alerts ++ new).
    { destruct (IH (S i) m alerts) as (new & Hh & Hlen & Hopen & Hret).
      exists new. cbn [length]. repeat split; auto. }
    destruct (opt_truthy (is_threat r) || opt_truthy (exceeds_threshold r));
      [|exact Hskip].
    destruct (_ <? _); [|exact Hskip].
    destruct (py_index events _) as [e|event_data].
    + exists []. cbn. rewrite app_nil_r. repeat split; auto; [lia | discriminate].
    + pose proof (generate_alert_attribution utcnow_iso md5_hexdigest py_str format_1f
                    cfg m event_data r None) as Hgen.
      destruct (generate' m event_data r None) as [m1 a].
      destruct Hgen as (_ & _ & Hopen1 & Hh1).
      destruct (IH (S i) m1 (alerts ++ [a])) as (new & Hh & Hlen & Hopen & Hret).
      exists (a :: new). rewrite Hh, Hh1, <- app_assoc. cbn [app length].
      repeat split; auto; [lia|].
      intros returned Hr. rewrite (Hret returned Hr). now rewrite <- app_assoc.
Qed.

(** X7. [generate_batch_alerts] only appends to the history: the alerts
    already stored stay in place, also when the batch is aborted by an
    exception; at most one alert per classification result is added, each
    with status open; and when the batch returns, the returned list is
    exactly the list of alerts appended. *)
Theorem batch_only_appends (m : AlertManager) (events : list dict)
    (threat_results : list threat_result) :
  exists new,
    alert_history (fst (batch' m events threat_results)) = alert_history m ++ new
    /\ (length new <= length threat_results)%nat
    /\ Forall (fun a => status a = "open") new
    /\ forall returned,
         snd (batch' m events threat_results) = inr returned -> returned = new.
Proof.
  destruct (loop_appends events threat_results 0%nat m []) as (new & Hh & Hl & Ho & Hr).
  exists new. repeat split; auto.
Qed.

(** X8. Whatever thresholds are configured, the severity never goes
    down when the confidence goes up. *)
Theorem severity_is_monotone (t1 t2 : threat_result) :
  (default (0 : Q) (confidence t1) <= default (0 : Q) (confidence t2))%Q ->
  (rank (calculate_severity cfg t1) <= rank (calculate_severity cfg t2))%nat.
Proof.
  intros Hle. unfold calculate_severity.
  set (c1 := default (0 : Q) (confidence t1)) in *.
  set (c2 := default (0 : Q) (confidence t2)) in *.
  assert (Hup : forall x, Qle_bool x c1 = true -> Qle_bool x c2 = true).
  { intros x H. apply Qle_bool_iff. apply Qle_bool_iff in H.
    exact (Qle_trans _ _ _ H Hle). }
  destruct (Qle_bool (Config.HIGH_SEVERITY_THRESHOLD cfg) c1) eqn:H1.
  - rewrite (Hup _ H1).
    destruct (Qle_bool (95 # 100) c1) eqn:C1; [now rewrite (Hup _ C1)|].
    destruct (Qle_bool (95 # 100) c2); cbn; lia.
  - destruct (Qle_bool (Config.MEDIUM_SEVERITY_THRESHOLD cfg) c1) eqn:M1.
    + destruct (Qle_bool (Config.HIGH_SEVERITY_THRESHOLD cfg) c2).
      * destruct (Qle_bool (95 # 100) c2); cbn; lia.
      * now rewrite (Hup _ M1).
    + destruct (Qle_bool (Config.HIGH_SEVERITY_THRESHOLD cfg) c2).
      * destruct (Qle_bool (95 # 100) c2); cbn; lia.
      * destruct (Qle_bool (Config.MEDIUM_SEVERITY_THRESHOLD cfg) c2); cbn; lia.
Qed.

Ltac sink_cases :=
  repeat split; intros;
  repeat match goal with
         | H : _ \/ _ |- _ => destruct H
         | H : _ /\ _ |- _ => destruct H
         | H : exists _, _ |- _ => destruct H
         | H : False |- _ => destruct H
         | H : Some _ = Some _ |- _ => injection H as H; subst
         end;
  try discriminate; try congruence; try tauto; eauto 8.

(** X9. The notification policy as applied to a freshly generated alert:
    the log sink is always written; a Low or Medium alert goes nowhere
    else; the e-mail sink is used exactly for Critical alerts; the chat
    sink is used exactly when a non-empty webhook is configured and the
    alert is High or Critical. *)
Theorem distribution_follows_severity (m : AlertManager) (event_data : dict)
    (threat_info : threat_result) (severity : option AlertSeverity) :
  let sev := match severity with
             | Some s => s
             | None => calculate_severity cfg threat_info
             end in
  let sinks := distribute_alert cfg (snd (generate' m event_data threat_info severity)) in
  In LogSink sinks
  /\ (In EmailSink sinks <-> sev = CRITICAL)
  /\ (In SlackSink sinks <->
      (exists url, Config.SLACK_WEBHOOK_URL cfg = Some url /\ url <> "")
      /\ (sev = HIGH \/ sev = CRITICAL))
  /\ (sev = LOW \/ sev = MEDIUM -> sinks = [LogSink]).
Proof.
  cbn zeta. unfold generate_alert, distribute_alert. cbn [snd Alerts.severity].
  set (sev := match severity with Some s => s | None => _ end).
  split; [now left|].
  destruct (Config.SLACK_WEBHOOK_URL cfg) as [url|] eqn:Eurl.
  - destruct (String.eqb url "") eqn:Eempty.
    + apply String.eqb_eq in Eempty. subst url.
      destruct sev; cbn; sink_cases.
    + apply String.eqb_neq in Eempty.
      destruct sev; cbn; sink_cases.
  - destruct sev; cbn; sink_cases.
Qed.


End StoreFacts.

(** ** The event queue *)

Section QueueFacts.
Import Py Collector.

Lemma push_all_when_full (events : list dict) (c : UnifiedCollector) :
  (0 < maxsize (event_queue c))%nat ->
  qsize (event_queue c) = maxsize (event_queue c) ->
  push_all c events
  = Some {| event_queue := event_queue c;
            running := running c;
            log := log c ++ repeat (Warning "Event queue is full, dropping event")
                              (length events) |}.
Proof.
  intros Hpos Hfull. revert c Hpos Hfull.
  induction events as [|event rest IH]; intros c Hpos Hfull.
  - cbn. rewrite app_nil_r. now destruct c.
  - cbn [push_all]. rewrite (push_when_full c event Hpos Hfull).
    rewrite IH by assumption. unfold with_log. cbn [event_queue running log length repeat].
    now rewrite <- app_assoc.
Qed.

(** X11. The drop-newest policy in general.  Run by one thread, offering
    a list of events to a bounded queue never waits: the first events
    that fit are appended in order, and each of the others is dropped
    with one warning; nothing already queued is removed or reordered. *)
Theorem push_all_keeps_oldest (c : UnifiedCollector) (events : list dict) :
  (0 < maxsize (event_queue c))%nat ->
  (qsize (event_queue c) <= maxsize (event_queue c))%nat ->
  let room := (maxsize (event_queue c) - qsize (event_queue c))%nat in
  push_all c events
  = Some {| event_queue := {| maxsize := maxsize (event_queue c);
                              items := items (event_queue c) ++ firstn room events |};
            running := running c;
            log := log c ++ repeat (Warning "Event queue is full, dropping event")
                              (length events - room) |}.
Proof.
  intros Hpos Hsize room.
  rewrite <- (firstn_skipn room events) at 1. rewrite push_all_app.
  rewrite push_all_with_room
    by (rewrite length_firstn; unfold room; lia).
  destruct (Nat.le_gt_cases (length events) room) as [Hfit|Hover].
  - rewrite skipn_all2 by exact Hfit. cbn [push_all]. unfold with_queue.
    replace (length events - room)%nat with 0%nat by lia.
    cbn [repeat]. now rewrite app_nil_r.
  - rewrite push_all_when_full.
    + unfold with_queue. cbn [event_queue running log]. rewrite length_skipn. reflexivity.
    + exact Hpos.
    + unfold with_queue, qsize. cbn [event_queue items maxsize].
      rewrite length_app, length_firstn. unfold room in *. unfold qsize in *. lia.
Qed.

Lemma get_events_spec (max_events : nat) (q : Queue) :
  get_events max_events q
  = (firstn max_events (items q),
     {| maxsize := maxsize q; items := skipn max_events (items q) |}).
Proof.
  revert q. induction max_events as [|n IH]; intros q.
  - cbn. now destruct q.
  - cbn [get_events]. unfold empty, qsize, get_nowait.
    destruct (items q) as [|event rest] eqn:E; cbn.
    + destruct q; cbn in *. now subst.
    + rewrite IH. reflexivity.
Qed.

(** X12. [get_events] is first in, first out and loses nothing: it
    returns the oldest [max_events] events of the queue in arrival order
    (all of them when there are fewer), leaves the others queued in
    order, and never returns more than [max_events]. *)
Theorem get_events_is_fifo (max_events : nat) (q : Queue) :
  let '(events, q') := get_events max_events q in
  events ++ items q' = items q
  /\ length events = Nat.min max_events (qsize q)
  /\ maxsize q' = maxsize q
  /\ (empty q = true -> events = []).
Proof.
  rewrite get_events_spec. cbn [items maxsize].
  split; [apply firstn_skipn|]. split; [apply length_firstn|]. split; [reflexivity|].
  unfold empty, qsize. intros H. apply Nat.eqb_eq in H.
  destruct (items q); [now destruct max_events | discriminate].
Qed.

(** X13. What one thread pushes is what the consumer gets: after offering
    events that fit to a queue, draining the whole queue returns the
    events that were queued before followed by the new ones, in order,
    and leaves the queue empty. *)
Theorem push_then_get_round_trip (c : UnifiedCollector) (events : list dict) :
  (qsize (event_queue c) + length events <= maxsize (event_queue c))%nat ->
  exists c',
    push_all c events = Some c'
    /\ log c' = log c
    /\ get_events (qsize (event_queue c) + length events) (event_queue c')
       = (items (event_queue c) ++ events,
          {| maxsize := maxsize (event_queue c); items := [] |}).
Proof.
  intros Hroom. rewrite push_all_with_room by exact Hroom.
  eexists. split; [reflexivity|]. split; [reflexivity|].
  rewrite get_events_spec. unfold with_queue, qsize. cbn [event_queue items maxsize].
  rewrite <- length_app. now rewrite firstn_all, skipn_all.
Qed.

End QueueFacts.

(** ** The collection threads *)

Section ThreadFacts.
Import Py Collector.

Lemma step_accounted (a : action) (s s' : system) :
  step a s = Some s' ->
  (accounted s' <= accounted s + polled [a])%nat
  /\ (accounted s + polled [a] <= accounted s' + gets [a])%nat.
Proof.
  unfold step, accounted. destruct a as [who events|who|]; cbn [polled gets].
  - destruct who; cbn [pc_of set_pc].
    + destruct (aws s); try discriminate. intros [= <-]. cbn. lia.
    + destruct (azure s); try discriminate. intros [= <-]. cbn. lia.
  - destruct who; cbn [pc_of set_pc].
    + destruct (aws s) as [|[|event pending]|event pending]; try discriminate.
      * intros [= <-]. cbn. lia.
      * destruct (negb (full _)); intros [= <-]; cbn; rewrite ?length_app; cbn; lia.
      * unfold put. destruct (_ || _); [|discriminate]. intros [= <-].
        unfold qsize. cbn. rewrite length_app. cbn. lia.
    + destruct (azure s) as [|[|event pending]|event pending]; try discriminate.
      * intros [= <-]. cbn. lia.
      * destruct (negb (full _)); intros [= <-]; cbn; rewrite ?length_app; cbn; lia.
      * unfold put. destruct (_ || _); [|discriminate]. intros [= <-].
        unfold qsize. cbn. rewrite length_app. cbn. lia.
  - unfold get_nowait, qsize.
    destruct (items (event_queue (collector s))) as [|item rest] eqn:E;
      intros [= <-]; cbn; rewrite ?E; cbn; lia.
Qed.

Lemma polled_cons (a : action) (trace : list action) :
  polled (a :: trace) = (polled [a] + polled trace)%nat.
Proof. destruct a; cbn; lia. Qed.

Lemma gets_cons (a : action) (trace : list action) :
  gets (a :: trace) = (gets [a] + gets trace)%nat.
Proof. destruct a; cbn; lia. Qed.

Lemma run_accounted (trace : list action) (s s' : system) :
  run trace s = Some s' ->
  (accounted s' <= accounted s + polled trace)%nat
  /\ (accounted s + polled trace <= accounted s' + gets trace)%nat.
Proof.
  revert s. induction trace as [|a rest IH]; intros s.
  - intros [= <-]. cbn. lia.
  - cbn [run]. destruct (step a s) as [s1|] eqn:E; [|discriminate].
    intros Hrun. destruct (step_accounted a s s1 E) as [H1 H2].
    destruct (IH s1 Hrun) as [H3 H4].
    rewrite polled_cons, gets_cons. lia.
Qed.

(** X14. No event is lost silently.  In every state the two collection
    threads and the consumer can reach, in any interleaving, the events
    in the queue, the events still held by a thread and the warnings
    logged for dropped events together never exceed the events handed
    over by the polls, and fall short of them by at most the number of
    consumer steps. *)
Theorem events_are_accounted_for (trace : list action) (s : system) :
  run trace (start init) = Some s ->
  (accounted s <= polled trace)%nat
  /\ (polled trace <= accounted s + gets trace)%nat.
Proof.
  intros Hrun. destruct (run_accounted trace (start init) s Hrun) as [H1 H2].
  assert (H0 : accounted (start init) = 0%nat) by reflexivity.
  rewrite H0 in *. cbn [Nat.add] in *. now split.
Qed.

(** X15. A thread waiting inside [put] is released by the consumer: in a
    state where it is blocked the queue is not empty, and after one
    [get_nowait] of the consumer its next step appends its event to the
    queue; the event is delayed, not dropped. *)
Theorem blocked_thread_resumes (who : producer) (s : system) (event : dict)
    (rest : list dict) :
  reachable s ->
  pc_of who s = AtPut event rest ->
  step (Step who) s = None ->
  exists oldest remaining s1 s2,
    items (event_queue (collector s)) = oldest :: remaining
    /\ step Get s = Some s1
    /\ step (Step who) s1 = Some s2
    /\ items (event_queue (collector s2)) = remaining ++ [event]
    /\ pc_of who s2 = AtFullCheck rest
    /\ log (collector s2) = log (collector s).
Proof.
  intros [trace Hrun] Hpc Hblocked.
  assert (Hbound : (qsize (event_queue (collector s))
                    <= maxsize (event_queue (collector s)))%nat).
  { destruct (run_bounded trace (start init) s) as (_ & _ & H); [|exact Hrun|exact H].
    split; [reflexivity|]. split; [exact capacity_positive|].
    unfold qsize. cbn [start collector event_queue init items length]. lia. }
  unfold qsize in Hbound.
  unfold step in Hblocked. rewrite Hpc in Hblocked.
  unfold put in Hblocked.
  destruct (maxsize (event_queue (collector s)) =? 0)%nat eqn:Emax; [discriminate|].
  destruct (qsize (event_queue (collector s)) <? maxsize (event_queue (collector s)))%nat
    eqn:Esize; [discriminate|].
  apply Nat.eqb_neq in Emax. apply Nat.ltb_ge in Esize. unfold qsize in Esize.
  destruct (items (event_queue (collector s))) as [|oldest remaining] eqn:Eitems;
    [cbn in Esize; lia|].
  exists oldest, remaining.
  assert (Hget : step Get s
                 = Some {| collector := with_queue (collector s)
                                          {| maxsize := maxsize (event_queue (collector s));
                                             items := remaining |};
                           aws := aws s; azure := azure s |}).
  { unfold step, get_nowait. now rewrite Eitems. }
  set (s1 := {| collector := with_queue (collector s)
                               {| maxsize := maxsize (event_queue (collector s));
                                  items := remaining |};
                aws := aws s; azure := azure s |}) in *.
  exists s1, (set_pc who (AtFullCheck rest)
                (with_queue (collector s1)
                   {| maxsize := maxsize (event_queue (collector s));
                      items := remaining ++ [event] |}) s1).
  split; [reflexivity|]. split; [exact Hget|].
  assert (Hroom : (length remaining <? maxsize (event_queue (collector s)))%nat = true)
    by (apply Nat.ltb_lt; cbn [length] in Hbound; lia).
  destruct who; cbn [pc_of] in Hpc; unfold step, s1; cbn [pc_of collector aws azure];
    rewrite Hpc; unfold put, qsize; cbn [with_queue event_queue maxsize items];
    rewrite Hroom, orb_true_r; (split; [reflexivity|]); cbn; repeat split; reflexivity.
Qed.

End ThreadFacts.

(** ** More on feature extraction *)

Section ExtractionFacts.
Import Py Features.

Variable md5_hexdigest : string -> exn + string.
Variable py_repr : pyval -> exn + string.
Variable fromisoformat : string -> option datetime.
Variable py_int : string -> option Z.
Variable findall_count : string -> string -> nat.
Variable log2 : Q -> Q.

Abbreviation temporal' := (extract_temporal_features fromisoformat).
Abbreviation network' := (extract_network_features md5_hexdigest py_repr py_int).
Abbreviation event' := (extract_event_features md5_hexdigest py_repr).
Abbreviation pattern' := (extract_pattern_features py_repr findall_count).
Abbreviation statistical' := (extract_statistical_features py_repr log2).
Abbreviation body' :=
  (extract_body md5_hexdigest py_repr fromisoformat py_int findall_count log2).
Abbreviation extract' :=
  (extract_features md5_hexdigest py_repr fromisoformat py_int findall_count log2).

Ltac names_of_dom :=
  let v := fresh "v" in
  let Hv := fresh "Hv" in
  intros k Hk; apply elem_of_dom in Hk as [v Hv]; cbn [In];
  repeat (rewrite lookup_insert in Hv; case_decide; [now auto 10|]);
  now rewrite lookup_empty in Hv.

Lemma temporal_names_only (log_event : dict) :
  forall k, k ∈ dom (temporal' log_event) -> In k temporal_names.
Proof.
  unfold extract_temporal_features, temporal_body, temporal_names.
  destruct (truthy _); [|unfold temporal_sentinels; names_of_dom].
  destruct (dict_get _ _ _); cbn [bind];
    try (unfold temporal_sentinels; names_of_dom).
  destruct (fromisoformat _); cbn [bind]; unfold temporal_sentinels; names_of_dom.
Qed.

Lemma pattern_names_only (log_event : dict) (features : gmap string fval) :
  pattern' log_event = inr features ->
  forall k, k ∈ dom features -> In k pattern_names.
Proof.
  intros H. destruct (pattern_inr_inv _ _ _ _ H) as (? & ? & ? & ? & ? & ->).
  unfold pattern_names. names_of_dom.
Qed.

Lemma statistical_names_only (log_event : dict) (features : gmap string fval) :
  statistical' log_event = inr features ->
  forall k, k ∈ dom features -> In k statistical_names.
Proof.
  intros H. destruct (statistical_inr_inv _ _ _ _ H) as (? & _ & ->).
  unfold statistical_names. names_of_dom.
Qed.

Lemma network_names_only (fe fe' : FeatureExtractor) (log_event : dict)
    (features : gmap string fval) :
  network' fe log_event = inr (features, fe') ->
  forall k, k ∈ dom features -> In k network_names.
Proof.
  intros H.
  destruct (network_inr_inv _ _ _ _ _ _ _ H)
    as (? & ? & ? & ? & ? & _ & _ & _ & -> & _).
  unfold network_names. names_of_dom.
Qed.

Lemma event_names_only (log_event : dict) (features : gmap string fval) :
  event' log_event = inr features ->
  forall k, k ∈ dom features -> In k event_names.
Proof.
  intros H.
  destruct (event_inr_inv _ _ _ _ H)
    as (? & ? & ? & ? & ? & ? & ? & ? & ? & ? & _ & _ & _ & _ & ->).
  unfold event_names. names_of_dom.
Qed.

Lemma body_names_exact (fe fe' : FeatureExtractor) (log_event : dict)
    (features : gmap string fval) :
  body' fe log_event = inr (features, fe') ->
  forall k, is_Some (features !! k) <-> In k declared_features.
Proof.
  intros Hbody k. split.
  - intros Hk. apply elem_of_dom in Hk.
    destruct (body_inr_inv _ _ _ _ _ _ _ _ _ _ Hbody)
      as (nw & ev & pat & st & Hnw & Hev & Hpat & Hst & ->).
    rewrite !dom_update in Hk.
    unfold declared_features. rewrite !in_app_iff.
    destruct Hk as [Hk|[Hk|[Hk|[Hk|[Hk|Hk]]]]].
    + do 5 right. now apply (statistical_names_only log_event st Hst).
    + do 4 right. left. now apply (pattern_names_only log_event pat Hpat).
    + do 3 right. left. now apply (event_names_only _ _ Hev).
    + do 2 right. left. now apply (network_names_only _ _ _ _ Hnw).
    + right. left. now apply (temporal_names_only log_event).
    + left. revert k Hk. names_of_dom.
  - intros Hin. apply elem_of_dom.
    exact (body_complete md5_hexdigest py_repr fromisoformat py_int findall_count log2
             fe fe' log_event features Hbody k Hin).
Qed.

Lemma declared_features_nodup : NoDup declared_features.
Proof. apply (bool_decide_unpack _). vm_compute. reflexivity. Qed.

(** X16. A run of [extract_features] that does not fail assigns the
    declared feature names and nothing else: a name is present in the
    result exactly when it is one of the declared names, so the result
    always has 29 entries. *)
Theorem extracted_names_are_exact (fe fe' : FeatureExtractor) (log_event : dict)
    (features : gmap string fval) :
  body' fe log_event = inr (features, fe') ->
  (forall k, is_Some (features !! k) <-> In k declared_features)
  /\ size features = 29%nat.
Proof.
  intros Hbody.
  pose proof (body_names_exact fe fe' log_event features Hbody) as Hnames.
  split; [exact Hnames|].
  assert (Hdom : dom features = list_to_set (C := gset string) declared_features).
  { apply set_eq. intros k.
    rewrite elem_of_dom, elem_of_list_to_set, list_elem_of_In. apply Hnames. }
  transitivity (size (dom features)); [symmetry; apply size_dom|].
  rewrite Hdom, size_list_to_set; [reflexivity|apply declared_features_nodup].
Qed.

(** X17. A timestamp that cannot be used degrades to the sentinels: when
    the timestamp entry is not a string (a number, a list, None, ...), or
    is a string that [datetime.fromisoformat] rejects, the temporal
    features are those of a missing timestamp (hour and day -1, flags 0);
    the exception is caught inside the temporal extraction. *)
Theorem unusable_timestamp_gives_sentinels (log_event : dict) (v : pyval) :
  dict_lookup "timestamp" log_event = Some v ->
  (forall s, v = VStr s -> fromisoformat (replace_Z s) = None) ->
  temporal' log_event = temporal_sentinels.
Proof.
  intros Hv Hbad. unfold extract_temporal_features, temporal_body, dict_get.
  rewrite Hv. destruct (truthy v); [|reflexivity].
  destruct v; cbn [bind]; try reflexivity.
  now rewrite (Hbad s eq_refl).
Qed.

(** X18. A timestamp that parses is read off the parsed date: hour and
    weekday are copied, the weekend flag is set exactly for weekdays 5
    and 6 (or more), the business-hours flag exactly for hours 9 to 17,
    the night flag exactly for hours below 6 or above 22; and for every
    event whatsoever the business-hours and night flags are never both
    set. *)
Theorem usable_timestamp_gives_flags (log_event : dict) :
  (forall s dt,
      dict_lookup "timestamp" log_event = Some (VStr s) ->
      s <> "" ->
      fromisoformat (replace_Z s) = Some dt ->
      temporal' log_event !! "hour" = Some (FInt (hour dt))
      /\ temporal' log_event !! "day_of_week" = Some (FInt (weekday dt))
      /\ temporal' log_event !! "is_weekend"
         = Some (FInt (if 5 <=? weekday dt then 1 else 0))
      /\ temporal' log_event !! "is_business_hours"
         = Some (FInt (if (9 <=? hour dt) && (hour dt <=? 17) then 1 else 0))
      /\ temporal' log_event !! "is_night"
         = Some (FInt (if (hour dt <? 6) || (22 <? hour dt) then 1 else 0)))
  /\ ~ (temporal' log_event !! "is_business_hours" = Some (FInt 1)
        /\ temporal' log_event !! "is_night" = Some (FInt 1)).
Proof.
  split.
  - intros s dt Hs Hne Hdt.
    unfold extract_temporal_features, temporal_body, dict_get. rewrite Hs.
    assert (Ht : truthy (VStr s) = true).
    { cbn. destruct (String.eqb s "") eqn:E; [|reflexivity].
      apply String.eqb_eq in E. contradiction. }
    rewrite Ht. cbn [bind]. rewrite Hdt. cbn [bind].
    repeat split; now simplify_map_eq.
  - unfold extract_temporal_features, temporal_body.
    destruct (truthy _); [|unfold temporal_sentinels; simplify_map_eq; intros [? ?]; discriminate].
    destruct (dict_get _ _ _); cbn [bind];
      try (unfold temporal_sentinels; simplify_map_eq; intros [? ?]; discriminate).
    destruct (fromisoformat _) as [dt|]; cbn [bind];
      [|unfold temporal_sentinels; simplify_map_eq; intros [? ?]; discriminate].
    simplify_map_eq. intros [Hb Hn].
    destruct ((9 <=? hour dt) && (hour dt <=? 17)) eqn:B; [|discriminate].
    destruct ((hour dt <? 6) || (22 <? hour dt)) eqn:N; [|discriminate].
    apply andb_true_iff in B as [B1 B2]. apply Z.leb_le in B1, B2.
    apply orb_true_iff in N as [N|N]; apply Z.ltb_lt in N; lia.
Qed.

Lemma lookup_outside (m : gmap string fval) (names : list string) (k : string) :
  (forall k', k' ∈ dom m -> In k' names) -> ~ In k names -> m !! k = None.
Proof. intros H Hn. apply not_elem_of_dom. intros Hk. exact (Hn (H k Hk)). Qed.

Ltac not_listed Hin :=
  cbn in Hin; decompose [or] Hin; try contradiction; subst;
  cbn; intuition discriminate.

(** The groups of names are disjoint, so a feature of the final
    dictionary is the one its own extraction assigned. *)
Lemma body_parts (fe fe' : FeatureExtractor) (log_event : dict)
    (features : gmap string fval) :
  body' fe log_event = inr (features, fe') ->
  exists nw ev pat st,
    network' fe log_event = inr (nw, fe')
    /\ event' log_event = inr ev
    /\ pattern' log_event = inr pat
    /\ statistical' log_event = inr st
    /\ (forall k, In k statistical_names -> features !! k = st !! k)
    /\ (forall k, In k pattern_names -> features !! k = pat !! k)
    /\ (forall k, In k event_names -> features !! k = ev !! k)
    /\ (forall k, In k network_names -> features !! k = nw !! k)
    /\ (forall k, In k temporal_names -> features !! k = temporal' log_event !! k).
Proof.
  intros H.
  destruct (body_inr_inv _ _ _ _ _ _ _ _ _ _ H)
    as (nw & ev & pat & st & Hnw & Hev & Hpat & Hst & ->).
  exists nw, ev, pat, st.
  pose proof (statistical_names_only log_event st Hst) as Ostat.
  pose proof (pattern_names_only log_event pat Hpat) as Opat.
  pose proof (event_names_only log_event ev Hev) as Oev.
  pose proof (network_names_only fe fe' log_event nw Hnw) as Onw.
  split; [exact Hnw|]. split; [exact Hev|]. split; [exact Hpat|].
  split; [exact Hst|]. unfold update.
  split; [|split; [|split; [|split]]]; intros k Hin.
  - apply lookup_union_l', elem_of_dom.
    now apply (statistical_names_present py_repr log2 log_event st Hst).
  - rewrite (lookup_union_r st)
      by (apply (lookup_outside _ _ _ Ostat); not_listed Hin).
    apply lookup_union_l', elem_of_dom.
    now apply (pattern_names_present py_repr findall_count log_event pat Hpat).
  - rewrite (lookup_union_r st)
      by (apply (lookup_outside _ _ _ Ostat); not_listed Hin).
    rewrite (lookup_union_r pat)
      by (apply (lookup_outside _ _ _ Opat); not_listed Hin).
    apply lookup_union_l', elem_of_dom.
    now apply (event_names_present md5_hexdigest py_repr log_event ev Hev).
  - rewrite (lookup_union_r st)
      by (apply (lookup_outside _ _ _ Ostat); not_listed Hin).
    rewrite (lookup_union_r pat)
      by (apply (lookup_outside _ _ _ Opat); not_listed Hin).
    rewrite (lookup_union_r ev)
      by (apply (lookup_outside _ _ _ Oev); not_listed Hin).
    apply lookup_union_l', elem_of_dom.
    now apply (network_names_present md5_hexdigest py_repr py_int fe fe' log_event nw Hnw).
  - rewrite (lookup_union_r st)
      by (apply (lookup_outside _ _ _ Ostat); not_listed Hin).
    rewrite (lookup_union_r pat)
      by (apply (lookup_outside _ _ _ Opat); not_listed Hin).
    rewrite (lookup_union_r ev)
      by (apply (lookup_outside _ _ _ Oev); not_listed Hin).
    rewrite (lookup_union_r nw)
      by (apply (lookup_outside _ _ _ Onw); not_listed Hin).
    apply lookup_union_l', elem_of_dom.
    now apply (temporal_names_present fromisoformat).
Qed.

Lemma hash_value_range (value : string) (z : Z) :
  hash_value md5_hexdigest value = inr z -> 0 <= z < 1000000.
Proof.
  unfold hash_value. destruct (_ || _); [intros [= <-]; lia|].
  intros H. apply bind_inr_inv in H as (digest & _ & H). injection H as <-.
  apply Z.mod_pos_bound. lia.
Qed.

(** X19. Every hashed feature of a successful extraction (address, event
    id, activity, category, identity) is an integer from 0 up to, and not
    including, 1 000 000, whatever the digest function returns. *)
Theorem hashed_features_in_range (fe fe' : FeatureExtractor) (log_event : dict)
    (features : gmap string fval) :
  body' fe log_event = inr (features, fe') ->
  forall k,
    In k ["ip_address_hash"; "event_id_hash"; "activity_hash"; "category_hash";
          "identity_hash"] ->
    exists z, features !! k = Some (FInt z) /\ 0 <= z < 1000000.
Proof.
  intros Hbody k Hin.
  destruct (body_parts fe fe' log_event features Hbody)
    as (nw & ev & pat & st & Hnw & Hev & _ & _ & _ & _ & Pev & Pnw & _).
  destruct (network_inr_inv _ _ _ _ _ _ _ Hnw)
    as (ip & h0 & user_agent & flag & text & Hh0 & _ & _ & -> & _).
  destruct (event_inr_inv _ _ _ _ Hev)
    as (event_id & activity & category & result_str & identity_str & identity
        & h1 & h2 & h3 & h4 & Hh1 & Hh2 & Hh3 & Hh4 & ->).
  cbn in Hin. destruct Hin as [<-|[<-|[<-|[<-|[<-|[]]]]]].
  - rewrite Pnw by (cbn; auto 10). simplify_map_eq.
    eexists. split; [reflexivity|exact (hash_value_range _ _ Hh0)].
  - rewrite Pev by (cbn; auto 10). simplify_map_eq.
    eexists. split; [reflexivity|exact (hash_value_range _ _ Hh1)].
  - rewrite Pev by (cbn; auto 10). simplify_map_eq.
    eexists. split; [reflexivity|exact (hash_value_range _ _ Hh2)].
  - rewrite Pev by (cbn; auto 10). simplify_map_eq.
    eexists. split; [reflexivity|exact (hash_value_range _ _ Hh3)].
  - rewrite Pev by (cbn; auto 10). simplify_map_eq.
    eexists. split; [reflexivity|exact (hash_value_range _ _ Hh4)].
Qed.

Lemma temporal_flags_binary (log_event : dict) (k : string) :
  In k ["is_weekend"; "is_business_hours"; "is_night"] ->
  exists z, temporal' log_event !! k = Some (FInt z) /\ (z = 0 \/ z = 1).
Proof.
  intros Hin. unfold extract_temporal_features, temporal_body.
  assert (Hs : exists z, temporal_sentinels !! k = Some (FInt z) /\ (z = 0 \/ z = 1)).
  { unfold temporal_sentinels. cbn in Hin.
    destruct Hin as [<-|[<-|[<-|[]]]]; simplify_map_eq; eauto. }
  destruct (truthy _); [|exact Hs].
  destruct (dict_get _ _ _); cbn [bind]; try exact Hs.
  destruct (fromisoformat _) as [dt|]; cbn [bind]; [|exact Hs].
  cbn in Hin. destruct Hin as [<-|[<-|[<-|[]]]]; simplify_map_eq;
    eexists; (split; [reflexivity|]).
  - destruct (5 <=? weekday dt); auto.
  - destruct ((9 <=? hour dt) && (hour dt <=? 17)); auto.
  - destruct ((hour dt <? 6) || (22 <? hour dt)); auto.
Qed.

Lemma is_private_ip_binary (ip : string) :
  is_private_ip py_int ip = 0 \/ is_private_ip py_int ip = 1.
Proof.
  unfold is_private_ip.
  destruct (split_dot ip) as [|o0 [|o1 [|o2 [|o3 [|]]]]]; auto.
  destruct (py_int o0) as [first|]; auto.
  destruct (py_int o1) as [second|]; auto.
  destruct (first =? 10); auto.
  destruct ((first =? 172) && (16 <=? second) && (second <=? 31)); auto.
  destruct ((first =? 192) && (second =? 168)); auto.
Qed.

Lemma check_suspicious_agent_binary (user_agent : pyval) (flag : Z) :
  check_suspicious_agent py_repr user_agent = inr flag -> flag = 0 \/ flag = 1.
Proof.
  unfold check_suspicious_agent. intros H.
  apply bind_inr_inv in H as (text & _ & H). injection H as <-.
  match goal with |- context [if ?b then _ else _] => destruct b end; auto.
Qed.

(** X20. Every flag of a successful extraction (weekend, business hours,
    night, private address, suspicious agent, failure, success, identity
    present) is the integer 0 or the integer 1. *)
Theorem flag_features_are_binary (fe fe' : FeatureExtractor) (log_event : dict)
    (features : gmap string fval) :
  body' fe log_event = inr (features, fe') ->
  forall k,
    In k ["is_weekend"; "is_business_hours"; "is_night"; "is_private_ip";
          "is_suspicious_agent"; "is_failure"; "is_success"; "has_identity"] ->
    exists z, features !! k = Some (FInt z) /\ (z = 0 \/ z = 1).
Proof.
  intros Hbody k Hin.
  destruct (body_parts fe fe' log_event features Hbody)
    as (nw & ev & pat & st & Hnw & Hev & _ & _ & _ & _ & Pev & Pnw & Ptemp).
  destruct (network_inr_inv _ _ _ _ _ _ _ Hnw)
    as (ip & h0 & user_agent & flag & text & _ & Hflag & _ & -> & _).
  destruct (event_inr_inv _ _ _ _ Hev)
    as (event_id & activity & category & result_str & identity_str & identity
        & h1 & h2 & h3 & h4 & _ & _ & _ & _ & ->).
  cbn in Hin. destruct Hin as [<-|[<-|[<-|[<-|[<-|[<-|[<-|[<-|[]]]]]]]]].
  - rewrite Ptemp by (cbn; auto 10). apply temporal_flags_binary. cbn. auto.
  - rewrite Ptemp by (cbn; auto 10). apply temporal_flags_binary. cbn. auto.
  - rewrite Ptemp by (cbn; auto 10). apply temporal_flags_binary. cbn. auto.
  - rewrite Pnw by (cbn; auto 10). simplify_map_eq.
    eexists. split; [reflexivity|apply is_private_ip_binary].
  - rewrite Pnw by (cbn; auto 10). simplify_map_eq.
    eexists. split; [reflexivity|exact (check_suspicious_agent_binary _ _ Hflag)].
  - rewrite Pev by (cbn; auto 10). simplify_map_eq.
    eexists. split; [reflexivity|]. destruct (contains "fail" _); auto.
  - rewrite Pev by (cbn; auto 10). simplify_map_eq.
    eexists. split; [reflexivity|]. destruct (contains "success" _); auto.
  - rewrite Pev by (cbn; auto 10). simplify_map_eq.
    eexists. split; [reflexivity|]. destruct (truthy _); auto.
Qed.

Lemma score_of_count_bounds (count : nat) :
  (0 <= score_of_count count <= 1)%Q.
Proof.
  unfold score_of_count. split; [|apply Q.le_min_r].
  apply Q.min_glb; [|discriminate].
  unfold Qle, Qdiv, Qmult, Qinv, inject_Z. simpl. lia.
Qed.

(** X21. The pattern scores are normalised.  [_extract_pattern_features]
    returns whenever [str(log_event)] does, and in what it returns each
    of the five scores and their average [overall_malicious_score] is a
    number between 0 and 1, whatever number of matches the regular
    expressions find. *)
Theorem pattern_scores_are_normalised (log_event : dict) (k : string) :
  In k pattern_names ->
  (forall text, str py_repr (VDict log_event) = inr text ->
     exists features, pattern' log_event = inr features)
  /\ forall features,
       pattern' log_event = inr features ->
       exists q, features !! k = Some (FFloat q) /\ (0 <= q <= 1)%Q.
Proof.
  intros Hin. split.
  - intros text Ht. unfold extract_pattern_features. rewrite Ht. cbn [bind].
    now eexists.
  - intros features H.
    destruct (pattern_inr_inv _ _ _ _ H) as (n0 & n1 & n2 & n3 & n4 & ->).
    pose proof (score_of_count_bounds n0) as H0.
    pose proof (score_of_count_bounds n1) as H1.
    pose proof (score_of_count_bounds n2) as H2.
    pose proof (score_of_count_bounds n3) as H3.
    pose proof (score_of_count_bounds n4) as H4.
    set (sql := score_of_count n0) in *. set (xss := score_of_count n1) in *.
    set (path := score_of_count n2) in *. set (cmd := score_of_count n3) in *.
    set (code := score_of_count n4) in *.
    cbn in Hin. destruct Hin as [<-|[<-|[<-|[<-|[<-|[<-|[]]]]]]]; simplify_map_eq;
      eexists; (split; [reflexivity|]); try assumption.
    split.
    + apply Qle_shift_div_l; [reflexivity|]. lra.
    + apply Qle_shift_div_r; [reflexivity|]. lra.
Qed.

Lemma length_list_ascii (s : string) :
  length (list_ascii_of_string s) = String.length s.
Proof. induction s as [|c s IH]; [reflexivity|]. cbn. now rewrite IH. Qed.

(** The statistical features count what they say: in what
    [_extract_statistical_features] returns, the number of special
    characters lies between 0 and the message length, and the field count
    is the number of entries of a dictionary message and 0 for a message
    of any other type. *)
Theorem statistical_counts_are_bounded (log_event : dict)
    (features : gmap string fval) :
  statistical' log_event = inr features ->
  exists n k f,
    features !! "message_length" = Some (FInt n)
    /\ features !! "num_special_chars" = Some (FInt k)
    /\ features !! "num_fields" = Some (FInt f)
    /\ 0 <= k <= n
    /\ (forall d, dict_get log_event "message" (VDict []) = VDict d ->
          f = Z.of_nat (length d))
    /\ (is_dict (dict_get log_event "message" (VDict [])) = false -> f = 0).
Proof.
  intros H. destruct (statistical_inr_inv _ _ _ _ H) as (message_str & _ & ->).
  set (message := dict_get log_event "message" (VDict [])).
  do 3 eexists. simplify_map_eq.
  split; [reflexivity|]. split; [reflexivity|]. split; [reflexivity|].
  split; [|split].
  - split; [lia|]. rewrite <- length_list_ascii. apply Nat2Z.inj_le.
    apply length_filter.
  - intros d ->. reflexivity.
  - destruct message; try reflexivity. discriminate.
Qed.

Lemma init_sound : cache_sound py_int init.
Proof. intros ip score H. cbn in H. now rewrite lookup_empty in H. Qed.

Lemma reputation_of_sound_cache (fe : FeatureExtractor) (ip : string) :
  cache_sound py_int fe ->
  fst (get_ip_reputation py_int fe ip) = computed_reputation py_int ip
  /\ cache_sound py_int (snd (get_ip_reputation py_int fe ip)).
Proof.
  intros Hs. unfold get_ip_reputation.
  destruct (ip_cache fe !! ip) as [score|] eqn:E; cbn [fst snd].
  - split; [exact (Hs ip score E)|exact Hs].
  - split; [reflexivity|]. intros ip' score'. cbn [ip_cache].
    destruct (decide (ip = ip')) as [<-|Hne].
    + rewrite lookup_insert_eq. now intros [= <-].
    + rewrite lookup_insert_ne by exact Hne. apply Hs.
Qed.

(** Neither the exception nor the features of the network extraction
    depend on the cache, and the cache stays sound, also when the
    extraction leaves with an exception. *)
Lemma network_transparent (fe : FeatureExtractor) (log_event : dict) :
  cache_sound py_int fe ->
  match network' fe log_event, network' init log_event with
  | inr (f, fe'), inr (f0, _) => f = f0 /\ cache_sound py_int fe'
  | inl (e, fe'), inl (e0, _) => e = e0 /\ cache_sound py_int fe'
  | _, _ => False
  end.
Proof.
  intros Hs. unfold extract_network_features. cbv zeta.
  destruct (bind (py_get _ "ip_address" _) _) as [x|[ip h]]; [now split|].
  destruct (reputation_of_sound_cache fe ip Hs) as [H1 H2].
  destruct (reputation_of_sound_cache init ip init_sound) as [H3 _].
  destruct (get_ip_reputation py_int fe ip) as [score fe1].
  destruct (get_ip_reputation py_int init ip) as [score0 fe0].
  cbn [fst snd] in *. subst score score0.
  destruct (bind (py_get _ "user_agent" _) _) as [x|[flag text]]; now split.
Qed.

Lemma extract_transparent (fe : FeatureExtractor) (log_event : dict) :
  cache_sound py_int fe ->
  fst (extract' fe log_event) = fst (extract' init log_event)
  /\ cache_sound py_int (snd (extract' fe log_event)).
Proof.
  intros Hs. unfold extract_features, extract_body. cbv zeta.
  pose proof (network_transparent fe log_event Hs) as H.
  destruct (network' fe log_event) as [[x fe1]|[nw fe1]],
    (network' init log_event) as [[y fe0]|[nw0 fe0]]; try contradiction.
  - destruct H as [_ Hs']. split; [reflexivity|exact Hs'].
  - destruct H as [-> Hs'].
    destruct (bind (event' log_event) _) as [x|features]; cbn [fst snd];
      (split; [reflexivity|exact Hs']).
Qed.

(** X22. The reputation cache does not change what is extracted.  A cache
    that holds nothing but scores the extractor computed itself (as every
    cache grown from the empty one does) yields, for every event, the
    features a fresh extractor yields, and is again such a cache after the
    call. *)
Theorem cache_is_transparent (fe : FeatureExtractor) (log_event : dict) :
  cache_sound py_int fe ->
  fst (extract' fe log_event) = fst (extract' init log_event)
  /\ cache_sound py_int (snd (extract' fe log_event)).
Proof. apply extract_transparent. Qed.

(** The reputation score follows the private-address flag: with such
    a cache, a successful network extraction reports 0.9 for an address it
    flags as private and 0.5 for any other, and it leaves every cache
    entry it found in place. *)
Theorem reputation_follows_private_flag (fe fe' : FeatureExtractor)
    (log_event : dict) (nw : gmap string fval) :
  cache_sound py_int fe ->
  network' fe log_event = inr (nw, fe') ->
  (exists b,
      nw !! "is_private_ip" = Some (FInt b)
      /\ nw !! "ip_reputation_score"
         = Some (FFloat (if b =? 0 then 5 # 10 else 9 # 10)))
  /\ (forall ip score, ip_cache fe !! ip = Some score ->
        ip_cache fe' !! ip = Some score).
Proof.
  intros Hs Hnw.
  destruct (network_inr_inv _ _ _ _ _ _ _ Hnw)
    as (ip & h0 & user_agent & flag & text & _ & _ & _ & -> & ->).
  destruct (reputation_of_sound_cache fe ip Hs) as [H1 _]. split.
  - exists (is_private_ip py_int ip). simplify_map_eq. split; [reflexivity|].
    now rewrite H1.
  - intros ip' score' Hc. unfold get_ip_reputation.
    destruct (ip_cache fe !! ip) as [score|] eqn:E; cbn [snd ip_cache]; [exact Hc|].
    rewrite lookup_insert_ne; [exact Hc|]. intros <-. congruence.
Qed.

Lemma lower_char_idempotent (c : ascii) : lower_char (lower_char c) = lower_char c.
Proof. destruct c as [[] [] [] [] [] [] [] []]; reflexivity. Qed.

Lemma lower_idempotent (s : string) : lower (lower s) = lower s.
Proof.
  induction s as [|c s IH]; [reflexivity|].
  cbn [lower]. now rewrite lower_char_idempotent, IH.
Qed.

Lemma prefix_spec (a b : string) :
  String.prefix a b = true <-> exists post, b = a +:+ post.
Proof.
  revert b. induction a as [|c a IH]; intros b.
  - split; [intros _; now exists b|intros _; now destruct b].
  - destruct b as [|c' b]; cbn [String.prefix].
    + split; [discriminate|]. intros [post H]. rewrite append_cons in H. discriminate.
    + destruct (ascii_dec c c') as [->|Hne].
      * rewrite IH. split; intros [post H]; exists post.
        -- now rewrite append_cons, H.
        -- rewrite append_cons in H. now injection H.
      * split; [discriminate|]. intros [post H]. rewrite append_cons in H. congruence.
Qed.

(** [contains] is the substring test. *)
Lemma contains_spec (needle hay : string) :
  contains needle hay = true <-> exists pre post, hay = pre +:+ needle +:+ post.
Proof.
  induction hay as [|c hay IH].
  - cbn [contains]. rewrite orb_false_r, prefix_spec. split.
    + intros [post H]. exists "", post. now rewrite append_nil.
    + intros (pre & post & H). destruct pre as [|c pre].
      * exists post. now rewrite append_nil in H.
      * rewrite append_cons in H. discriminate.
  - cbn [contains]. rewrite orb_true_iff, prefix_spec, IH. split.
    + intros [[post H]|(pre & post & H)].
      * exists "", post. now rewrite append_nil.
      * exists (String c pre), post. now rewrite append_cons, H.
    + intros (pre & post & H). destruct pre as [|c' pre].
      * left. exists post. now rewrite append_nil in H.
      * right. rewrite append_cons in H. injection H as _ H. now exists pre, post.
Qed.

(** X23. The suspicious-agent check is a case-insensitive substring
    search: it returns 1 exactly when [str] gives a text for the user
    agent whose lower-cased form contains one of the six listed keywords
    somewhere, and 0 for any other text; it raises what [str] raises;
    a text and its lower-cased form get the same verdict. *)
Theorem suspicious_agent_is_substring_match (user_agent : pyval) :
  (check_suspicious_agent py_repr user_agent = inr 1 <->
   exists text agent pre post,
     str py_repr user_agent = inr text
     /\ In agent SUSPICIOUS_AGENTS
     /\ lower text = pre +:+ agent +:+ post)
  /\ (forall text, str py_repr user_agent = inr text ->
        check_suspicious_agent py_repr user_agent = inr 0
        \/ check_suspicious_agent py_repr user_agent = inr 1)
  /\ (forall e, str py_repr user_agent = inl e ->
        check_suspicious_agent py_repr user_agent = inl e)
  /\ (forall s, check_suspicious_agent py_repr (VStr (lower s))
                = check_suspicious_agent py_repr (VStr s)).
Proof.
  unfold check_suspicious_agent. split; [|split; [|split]].
  - destruct (str py_repr user_agent) as [e|text]; cbn [bind].
    + split; [discriminate|]. intros (t & _ & _ & _ & Ht & _). discriminate.
    + destruct (existsb _ _) eqn:E.
      * split; [intros _|reflexivity].
        apply existsb_exists in E as (agent & Hin & Hc).
        apply contains_spec in Hc as (pre & post & Hc).
        now exists text, agent, pre, post.
      * split; [discriminate|]. intros (t & agent & pre & post & [= <-] & Hin & Hc).
        assert (Ht : existsb (fun agent => contains agent (lower text))
                       SUSPICIOUS_AGENTS = true).
        { apply existsb_exists. exists agent. split; [exact Hin|].
          apply contains_spec. now exists pre, post. }
        congruence.
  - intros text ->. cbn [bind]. destruct (existsb _ _); auto.
  - intros e ->. reflexivity.
  - intros s. cbn [str bind]. now rewrite lower_idempotent.
Qed.

Abbreviation processed' :=
  (Preprocessor.processed_logs md5_hexdigest py_repr fromisoformat py_int
     findall_count log2).

Lemma processed_logs_rows (fe : FeatureExtractor) (raw_logs : list dict) :
  cache_sound py_int fe ->
  fst (processed' fe raw_logs)
  = List.filter (fun features => negb (size features =? 0)%nat)
      (map (fun log => fst (extract' init log)) raw_logs)
  /\ cache_sound py_int (snd (processed' fe raw_logs)).
Proof.
  revert fe. induction raw_logs as [|log rest IH]; intros fe Hs.
  - split; [reflexivity|exact Hs].
  - cbn [Preprocessor.processed_logs map List.filter].
    destruct (extract_transparent fe log Hs) as [Hf Hs1].
    destruct (extract' fe log) as [features fe1]. cbn [fst snd] in Hf, Hs1.
    destruct (IH fe1 Hs1) as [Hrows Hs2].
    destruct (processed' fe1 rest) as [rows fe2]. cbn [fst snd] in *.
    rewrite <- Hf, <- Hrows. split; [|exact Hs2].
    now destruct (size features =? 0)%nat.
Qed.

(** X24. The loop of [normalize_logs] treats every event on its own: the
    rows it collects are, in order, the non-empty feature dictionaries a
    fresh extractor gives for each event, so there are at most as many
    rows as events and every row carries exactly the declared feature
    names: the frame built from the rows has no missing cell. *)
Theorem batch_rows_are_complete (fe : FeatureExtractor) (raw_logs : list dict) :
  cache_sound py_int fe ->
  let rows := fst (processed' fe raw_logs) in
  rows = List.filter (fun features => negb (size features =? 0)%nat)
           (map (fun log => fst (extract' init log)) raw_logs)
  /\ (length rows <= length raw_logs)%nat
  /\ (forall row, In row rows ->
        forall k, is_Some (row !! k) <-> In k declared_features).
Proof.
  intros Hs rows. destruct (processed_logs_rows fe raw_logs Hs) as [Hrows _].
  split; [exact Hrows|]. subst rows. rewrite Hrows. split.
  - etransitivity; [apply List.filter_length_le|]. now rewrite length_map.
  - intros row Hin. apply List.filter_In in Hin as [Hin Hne].
    apply in_map_iff in Hin as (log & <- & _). revert Hne.
    unfold extract_features.
    destruct (body' init log) as [[x fe1]|[features fe']] eqn:E; cbn [fst].
    + rewrite map_size_empty. discriminate.
    + intros _. exact (body_names_exact init fe' log features E).
Qed.

End ExtractionFacts.

(** ** More on the feature array *)

Section ArrayFacts.
Import Py Preprocessor.

Lemma length_values (n : nat) (nf : numeric_frame) : length (values n nf) = n.
Proof. unfold values. now rewrite length_map, length_seq. Qed.

Lemma values_row_length (n : nat) (nf : numeric_frame) (row : list Q) :
  In row (values n nf) -> length row = length nf.
Proof.
  unfold values, row_at. intros H. apply in_map_iff in H as (i & <- & _).
  apply length_map.
Qed.

Lemma get_feature_names_some (cols : list string) :
  get_feature_names {| feature_columns := Some cols |} = cols.
Proof. now destruct cols. Qed.

Lemma column_of_listed (nf : numeric_frame) (name : string) :
  In name (map fst nf) -> column_of name nf <> None.
Proof.
  induction nf as [|[n v] rest IH]; [contradiction|].
  cbn. intros [->|Hin]; [now rewrite String.eqb_refl|].
  destruct (String.eqb n name); [discriminate|now apply IH].
Qed.

Lemma add_missing_covers (n : nat) (cols : list string) (nf : numeric_frame)
    (name : string) :
  In name cols -> column_of name (add_missing n cols nf) <> None.
Proof.
  intros Hin. destruct (column_of name nf) as [values|] eqn:E.
  - now rewrite (add_missing_keeps _ _ _ _ _ E).
  - now rewrite (add_missing_adds _ _ _ _ Hin E).
Qed.

Lemma select_numeric_in (cols : list (string * column)) (name : string)
    (values : list cell) :
  In (name, values) (select_numeric cols) <-> In (name, NumCol values) cols.
Proof.
  induction cols as [|[n [v|v]] rest IH]; cbn; [tauto| |].
  - rewrite IH. split; (intros [H|H]; [left|now right]); congruence.
  - rewrite IH. split; [now right|]. intros [H|H]; [discriminate|exact H].
Qed.

Lemma drop_timestamp_in (nf : numeric_frame) (name : string) (values : list cell) :
  In (name, values) (drop_timestamp nf)
  <-> name <> "timestamp" /\ In (name, values) nf.
Proof.
  unfold drop_timestamp. rewrite <- !list_elem_of_In, list_elem_of_filter.
  cbn. destruct (String.eqb name "timestamp") eqn:E; cbn.
  - apply String.eqb_eq in E. tauto.
  - apply String.eqb_neq in E. tauto.
Qed.

Lemma in_names (nf : numeric_frame) (name : string) :
  In name (map fst nf) <-> exists values, In (name, values) nf.
Proof.
  rewrite in_map_iff. split.
  - intros ([n v] & <- & Hin). now exists v.
  - intros (v & Hin). now exists (name, v).
Qed.

Lemma select_numeric_nodup (cols : list (string * column)) :
  NoDup (map fst cols) -> NoDup (map fst (select_numeric cols)).
Proof.
  induction cols as [|[n [v|v]] rest IH]; cbn; intros H; [exact H| |].
  - apply NoDup_cons in H as [Hn H]. apply NoDup_cons. split; [|now apply IH].
    rewrite list_elem_of_In in *.
    intros Hin. apply Hn. apply in_names in Hin as (w & Hin).
    apply select_numeric_in in Hin. apply in_map_iff. now exists (n, NumCol w).
  - apply NoDup_cons in H as [_ H]. now apply IH.
Qed.

Lemma drop_timestamp_nodup (nf : numeric_frame) :
  NoDup (map fst nf) -> NoDup (map fst (drop_timestamp nf)).
Proof.
  intros H. unfold drop_timestamp. eapply sublist_NoDup; [exact H|].
  exact (fmap_sublist fst _ _ (sublist_filter _ nf)).
Qed.

Lemma add_missing_present (n : nat) (cols : list string) (nf : numeric_frame) :
  (forall name, In name cols -> column_of name nf <> None) ->
  add_missing n cols nf = nf.
Proof.
  induction cols as [|col rest IH]; intros Hall; [reflexivity|].
  cbn. destruct (column_of col nf) eqn:E.
  - apply IH. intros name Hin. apply Hall. now right.
  - exfalso. apply (Hall col); [now left|exact E].
Qed.

Lemma column_of_skip (pre nf : numeric_frame) (name : string) :
  ~ In name (map fst pre) -> column_of name (pre ++ nf) = column_of name nf.
Proof.
  induction pre as [|[n v] rest IH]; intros Hn; [reflexivity|].
  cbn. destruct (String.eqb n name) eqn:E.
  - apply String.eqb_eq in E. exfalso. apply Hn. now left.
  - apply IH. intros Hin. apply Hn. now right.
Qed.

Lemma reindex_self (pre nf : numeric_frame) :
  NoDup (map fst (pre ++ nf)) -> reindex (map fst nf) (pre ++ nf) = Some nf.
Proof.
  revert pre. induction nf as [|[n v] rest IH]; intros pre H; [reflexivity|].
  cbn [map fst reindex].
  assert (Hn : ~ In n (map fst pre)).
  { rewrite map_app in H. cbn in H. apply NoDup_app in H as (_ & Hdisj & _).
    intros Hin. apply (Hdisj n); apply list_elem_of_In; [exact Hin|now left]. }
  rewrite (column_of_skip pre _ n Hn). cbn [column_of]. rewrite String.eqb_refl.
  replace (pre ++ (n, v) :: rest) with ((pre ++ [(n, v)]) ++ rest) in *
    by now rewrite <- app_assoc.
  now rewrite (IH _ H).
Qed.

(** X25. The array has a fixed shape.  For a non-empty frame
    [prepare_for_ml] returns one row per row of the frame; after a
    training call, and at inference with a non-empty registry, every row
    has as many entries as the registry lists names, whatever columns
    the frame has. *)
Theorem prepared_array_shape (p : LogPreprocessor) (df : DataFrame)
    (training : bool) :
  df_empty df = false ->
  length (snd (prepare_for_ml p df training)) = nrows df
  /\ (training = true \/ get_feature_names p <> [] ->
      forall row, In row (snd (prepare_for_ml p df training)) ->
        length row = length (get_feature_names (fst (prepare_for_ml p df training)))).
Proof.
  intros Hdf. unfold prepare_for_ml. rewrite Hdf.
  set (nf := drop_timestamp (select_numeric (columns df))).
  destruct training.
  - cbn [fst snd]. split; [apply length_values|]. intros _ row Hin.
    rewrite get_feature_names_some, length_map. exact (values_row_length _ _ _ Hin).
  - destruct (feature_columns p) as [[|col cols]|] eqn:E.
    + cbn [fst snd]. split; [apply length_values|].
      intros [H|H]; [discriminate|]. unfold get_feature_names in H.
      rewrite E in H. contradiction.
    + destruct (reindex_total (col :: cols) (add_missing (nrows df) (col :: cols) nf))
        as (nf' & -> & Hfst & _).
      { intros name Hin. now apply add_missing_covers. }
      cbn [fst snd]. split; [apply length_values|]. intros _ row Hin.
      unfold get_feature_names. rewrite E, <- Hfst, length_map.
      exact (values_row_length _ _ _ Hin).
    + cbn [fst snd]. split; [apply length_values|].
      intros [H|H]; [discriminate|]. unfold get_feature_names in H.
      rewrite E in H. contradiction.
Qed.

(** X26. Training then inference is a round trip: after a training call
    on a non-empty frame with distinct column names, preparing the same
    frame for inference returns the array the training call returned and
    keeps the registry. *)
Theorem train_then_infer_round_trip (p : LogPreprocessor) (df : DataFrame) :
  df_empty df = false ->
  NoDup (map fst (columns df)) ->
  prepare_for_ml (fst (prepare_for_ml p df true)) df false
  = prepare_for_ml p df true.
Proof.
  intros Hdf Hnd. unfold prepare_for_ml. rewrite Hdf.
  cbn [fst feature_columns].
  set (nf := drop_timestamp (select_numeric (columns df))).
  assert (Hnf : NoDup (map fst nf))
    by now apply drop_timestamp_nodup, select_numeric_nodup.
  destruct (map fst nf) as [|col cols] eqn:E; [reflexivity|].
  rewrite <- E in Hnf |- *.
  rewrite (add_missing_present (nrows df) (map fst nf) nf)
    by (intros name Hin; now apply column_of_listed).
  pose proof (reindex_self [] nf Hnf) as Hre. cbn [app] in Hre.
  now rewrite Hre.
Qed.

(** X27. Only training writes the registry.  An inference call returns
    the preprocessor it was given; an empty frame returns the empty array
    and the preprocessor it was given, training or not; a training call
    on a non-empty frame registers exactly the names of the numeric
    columns of the frame other than [timestamp]. *)
Theorem registry_is_written_by_training_only (p : LogPreprocessor) (df : DataFrame) :
  fst (prepare_for_ml p df false) = p
  /\ (df_empty df = true ->
      forall training, prepare_for_ml p df training = (p, []))
  /\ (df_empty df = false ->
      forall name,
        In name (get_feature_names (fst (prepare_for_ml p df true)))
        <-> name <> "timestamp"
            /\ exists values, In (name, NumCol values) (columns df)).
Proof.
  split; [|split].
  - unfold prepare_for_ml. destruct (df_empty df); [reflexivity|].
    destruct (feature_columns p) as [[|col cols]|]; try reflexivity.
    now destruct (reindex _ _).
  - intros Hdf training. unfold prepare_for_ml. now rewrite Hdf.
  - intros Hdf name. unfold prepare_for_ml. rewrite Hdf. cbn [fst].
    rewrite get_feature_names_some, in_names. split.
    + intros (v & Hin). apply drop_timestamp_in in Hin as [Hne Hin].
      apply select_numeric_in in Hin. split; [exact Hne|now exists v].
    + intros (Hne & v & Hin). exists v. apply drop_timestamp_in.
      split; [exact Hne|]. now apply select_numeric_in.
Qed.

End ArrayFacts.

(** ** The detection pipeline *)

Section PipelineFacts.
Import Py Alerts Detector.

Variable utcnow_iso : nat -> string.
Variable md5_hexdigest : string -> string.
Variable py_str : pyval -> string.
Variable format_1f : Q -> string.
Variable cfg : Config.t.
Variable model_predict : list (list Q) -> exn + list Z.
Variable model_predict_proba : list (list Q) -> exn + list (Q * Q).

Abbreviation detect := (detect_threats model_predict model_predict_proba cfg).
Abbreviation alert_batch :=
  (generate_batch_alerts utcnow_iso md5_hexdigest py_str format_1f cfg).

Lemma detect_loop_seq (predictions : list Z) (probabilities : list (Q * Q))
    (threshold : Q) (n start : nat) (results : list threat_result) :
  detect_loop predictions probabilities threshold (seq start n) = inr results ->
  length results = n
  /\ forall j r, nth_error results j = Some r ->
       exists y p,
         nth_error predictions (start + j) = Some y
         /\ nth_error probabilities (start + j) = Some p
         /\ r = {| index := Some (Z.of_nat (start + j));
                   is_threat := Some (y =? 1);
                   confidence := Some (snd p);
                   prediction := Some y;
                   exceeds_threshold := Some (Qle_bool threshold (snd p)) |}.
Proof.
  revert start results. induction n as [|n IH]; intros start results H.
  - cbn in H. injection H as <-. split; [reflexivity|].
    intros [|j] r Hr; discriminate.
  - cbn [seq detect_loop] in H.
    apply bind_inr_inv in H as (p & Hp & H).
    apply bind_inr_inv in H as (y & Hy & H).
    apply bind_inr_inv in H as (rest & Hrest & H).
    injection H as <-. destruct (IH _ _ Hrest) as [Hlen Hnth].
    split; [cbn; now rewrite Hlen|]. intros [|j] r Hr.
    + cbn in Hr. injection Hr as <-. exists y, p. rewrite Nat.add_0_r.
      destruct (nth_error probabilities start); [|discriminate].
      destruct (nth_error predictions start); [|discriminate].
      injection Hp as ->. injection Hy as ->. now repeat split.
    + cbn in Hr. destruct (Hnth j r Hr) as (y' & p' & H1 & H2 & H3).
      exists y', p'. now rewrite Nat.add_succ_r.
Qed.

(** X28. The results of [detect_threats] follow the rows.  For every
    model, the result list is empty or has one result per row; the
    result at position [i] carries index [i], the prediction and the
    second probability the model gave for row [i], is a threat exactly
    when that prediction is 1, and exceeds the threshold exactly when
    that probability is at least the threshold in force. *)
Theorem detection_results_follow_rows (d : ThreatDetector) (X : list (list Q))
    (threshold : option Q) :
  (detect d X threshold = [] \/ length (detect d X threshold) = length X)
  /\ forall i r, nth_error (detect d X threshold) i = Some r ->
       exists y p,
         nth_error (predict model_predict d X) i = Some y
         /\ nth_error (predict_proba model_predict_proba d X) i = Some p
         /\ index r = Some (Z.of_nat i)
         /\ prediction r = Some y
         /\ is_threat r = Some (y =? 1)
         /\ confidence r = Some (snd p)
         /\ exceeds_threshold r
            = Some (Qle_bool (default (Config.CONFIDENCE_THRESHOLD cfg) threshold)
                      (snd p)).
Proof.
  unfold detect_threats.
  replace (match threshold with
           | Some t => t
           | None => Config.CONFIDENCE_THRESHOLD cfg
           end)
    with (default (Config.CONFIDENCE_THRESHOLD cfg) threshold)
    by now destruct threshold.
  destruct (detect_loop _ _ _ _) as [e|results] eqn:E.
  - split; [now left|]. intros [|i] r Hr; discriminate.
  - destruct (detect_loop_seq _ _ _ _ _ _ E) as [Hlen Hnth].
    split; [now right|]. intros i r Hr.
    destruct (Hnth i r Hr) as (y & p & Hy & Hp & ->).
    exists y, p. cbn in Hy, Hp. now repeat split.
Qed.



Lemma batch_loop_quiet (events : list dict) (results : list threat_result) :
  Forall (fun r => opt_truthy (is_threat r) || opt_truthy (exceeds_threshold r)
                   = false) results ->
  forall i m alerts,
    batch_loop utcnow_iso md5_hexdigest py_str format_1f cfg events i results m alerts
    = (m, inr alerts).
Proof.
  induction 1 as [|r rest Hr _ IH]; intros i m alerts; [reflexivity|].
  cbn [batch_loop]. rewrite Hr. apply IH.
Qed.

(** X30. An untrained detector raises no alert.  When the model is not
    trained and the threshold in force is above 0.5, batch alerting on
    the results of [detect_threats] returns no alert and leaves the
    alert manager as it was, for any rows and events. *)
Theorem untrained_detector_raises_no_alert (m : AlertManager) (events : list dict)
    (d : ThreatDetector) (X : list (list Q)) (threshold : option Q) :
  is_trained d = false ->
  (5 # 10 < default (Config.CONFIDENCE_THRESHOLD cfg) threshold)%Q ->
  alert_batch m events (detect d X threshold) = (m, inr []).
Proof.
  intros Hd Ht. unfold generate_batch_alerts. apply batch_loop_quiet.
  unfold detect_threats, predict, predict_proba. rewrite Hd. cbn [negb].
  rewrite (detect_loop_untrained _ _ _ (seq_below (length X))).
  apply List.Forall_forall. intros r Hin. apply in_map_iff in Hin as (i & <- & _).
  cbn. destruct threshold as [t|]; cbn in Ht; now rewrite (Qle_bool_false _ _ Ht).
Qed.

End PipelineFacts.

(** ** Worked instances of the further properties *)

Section WorkedInstances.

Abbreviation plain_body :=
  (Features.extract_body plain_digest plain_repr plain_fromisoformat plain_int
     plain_findall_count plain_log2).
Abbreviation plain_extract :=
  (Features.extract_features plain_digest plain_repr plain_fromisoformat plain_int
     plain_findall_count plain_log2).
Abbreviation plain_processed :=
  (Preprocessor.processed_logs plain_digest plain_repr plain_fromisoformat plain_int
     plain_findall_count plain_log2).

(** Acknowledging the only alert of a manager, which is open: the total
    stays 1 and the active count falls to 0. *)
Lemma lifecycle_updates_statistics_witness :
  Alerts.total_alerts
    (Alerts.get_alert_statistics
       (fst (Alerts.acknowledge_alert steady_clock (sample_manager sample_alert)
               "751a1a3554ed"))) = 1%nat
  /\ (Alerts.active_alerts
        (Alerts.get_alert_statistics
           (fst (Alerts.acknowledge_alert steady_clock (sample_manager sample_alert)
                   "751a1a3554ed"))) + 1 = 1)%nat.
Proof.
  destruct (lifecycle_updates_statistics steady_clock (sample_manager sample_alert)
              "751a1a3554ed" "" sample_alert eq_refl) as (H1 & H2 & _).
  split; [exact H1 | exact H2].
Defined.

(** Confidence 0.7 against confidence 0.9 under the default thresholds. *)
Lemma severity_is_monotone_witness :
  (Alerts.rank (Alerts.calculate_severity Config.default (scored (7 # 10)))
   <= Alerts.rank (Alerts.calculate_severity Config.default (scored (9 # 10))))%nat.
Proof.
  apply (severity_is_monotone Config.default (scored (7 # 10)) (scored (9 # 10))).
  unfold Qle. cbn. lia.
Defined.


(** Three events offered to a queue of two slots, one of them taken. *)
Lemma push_all_keeps_oldest_witness :
  Collector.push_all
    {| Collector.event_queue :=
         {| Collector.maxsize := 2; Collector.items := [event_from "aws"] |};
       Collector.running := true;
       Collector.log := [] |}
    [event_from "azure"; event_from "aws"; event_from "azure"]
  = Some {| Collector.event_queue :=
              {| Collector.maxsize := 2;
                 Collector.items := [event_from "aws"; event_from "azure"] |};
            Collector.running := true;
            Collector.log :=
              [Collector.Warning "Event queue is full, dropping event";
               Collector.Warning "Event queue is full, dropping event"] |}.
Proof.
  apply (push_all_keeps_oldest
           {| Collector.event_queue :=
                {| Collector.maxsize := 2; Collector.items := [event_from "aws"] |};
              Collector.running := true;
              Collector.log := [] |}
           [event_from "azure"; event_from "aws"; event_from "azure"]);
    cbn; lia.
Defined.

(** Two events offered to a queue of three slots, one of them taken. *)
Lemma push_then_get_round_trip_witness :
  exists c',
    Collector.push_all
      {| Collector.event_queue :=
           {| Collector.maxsize := 3; Collector.items := [event_from "aws"] |};
         Collector.running := true;
         Collector.log := [] |}
      [event_from "azure"; event_from "aws"] = Some c'
    /\ Collector.log c' = []
    /\ Collector.get_events 3 (Collector.event_queue c')
       = ([event_from "aws"; event_from "azure"; event_from "aws"],
          {| Collector.maxsize := 3; Collector.items := [] |}).
Proof.
  apply (push_then_get_round_trip
           {| Collector.event_queue :=
                {| Collector.maxsize := 3; Collector.items := [event_from "aws"] |};
              Collector.running := true;
              Collector.log := [] |}
           [event_from "azure"; event_from "aws"]).
  cbn. lia.
Defined.

(** One event polled, queued and consumed. *)
Lemma events_are_accounted_for_witness :
  exists s,
    Collector.run
      [Collector.Poll Collector.Aws [event_from "aws"]; Collector.Step Collector.Aws;
       Collector.Step Collector.Aws; Collector.Get]
      (Collector.start Collector.init) = Some s
    /\ (Collector.accounted s <= 1)%nat
    /\ (1 <= Collector.accounted s + 1)%nat.
Proof.
  destruct (Collector.run
              [Collector.Poll Collector.Aws [event_from "aws"];
               Collector.Step Collector.Aws; Collector.Step Collector.Aws;
               Collector.Get]
              (Collector.start Collector.init)) as [s|] eqn:E.
  - exists s. split; [reflexivity|]. exact (events_are_accounted_for _ s E).
  - exfalso. vm_compute in E. discriminate E.
Defined.

Lemma race_schedule_runs :
  Collector.run race_schedule (Collector.start Collector.init) = Some race_state.
Proof.
  unfold race_schedule.
  set (events := repeat (event_from "aws") 9999).
  assert (Hlen : length events = 9999%nat) by apply repeat_length.
  rewrite run_app.
  assert (Hpoll : Collector.run [Collector.Poll Collector.Aws events]
                    (Collector.start Collector.init)
                  = Some (Collector.set_pc Collector.Aws (Collector.AtFullCheck events)
                            (Collector.collector (Collector.start Collector.init))
                            (Collector.start Collector.init)))
    by reflexivity.
  rewrite Hpoll, run_app. rewrite <- Hlen. rewrite run_fill.
  - vm_compute. reflexivity.
  - reflexivity.
  - rewrite Hlen. apply Nat.leb_le. vm_compute. reflexivity.
Qed.

(** The Azure thread of the race, waiting at [put] on the full queue. *)
Lemma blocked_thread_resumes_witness :
  exists oldest remaining s1 s2,
    Collector.items (Collector.event_queue (Collector.collector race_state))
    = oldest :: remaining
    /\ Collector.step Collector.Get race_state = Some s1
    /\ Collector.step (Collector.Step Collector.Azure) s1 = Some s2
    /\ Collector.items (Collector.event_queue (Collector.collector s2))
       = remaining ++ [event_from "azure"]
    /\ Collector.pc_of Collector.Azure s2 = Collector.AtFullCheck []
    /\ Collector.log (Collector.collector s2)
       = Collector.log (Collector.collector race_state).
Proof.
  apply (blocked_thread_resumes Collector.Azure race_state (event_from "azure") []).
  - exists race_schedule. exact race_schedule_runs.
  - reflexivity.
  - vm_compute. reflexivity.
Defined.

(** The structured event yields 29 features. *)
Lemma extracted_names_are_exact_witness :
  size (fst (plain_extract Features.init structured_event)) = 29%nat.
Proof.
  unfold Features.extract_features.
  destruct (plain_body Features.init structured_event) as [[e fe1]|[features fe']] eqn:E.
  - exfalso.
    destruct (body_succeeds plain_digest plain_repr plain_fromisoformat plain_int
                plain_findall_count plain_log2 Features.init structured_event
                (fun v => ex_intro _ (plain_str v) eq_refl)
                (fun s => ex_intro _ (MD5.hexdigest s) eq_refl)
                eq_refl eq_refl) as [r Hr].
    congruence.
  - exact (proj2 (extracted_names_are_exact _ _ _ _ _ _ _ _ _ _ E)).
Defined.

(** A timestamp given as a number of seconds, not as a string. *)
Lemma unusable_timestamp_gives_sentinels_witness :
  Features.extract_temporal_features plain_fromisoformat
    [("timestamp", Py.VInt 1793782212)]
  = Features.temporal_sentinels.
Proof.
  apply (unusable_timestamp_gives_sentinels plain_fromisoformat
           [("timestamp", Py.VInt 1793782212)] (Py.VInt 1793782212)).
  - reflexivity.
  - intros s H. discriminate H.
Defined.

(** The address hash of the structured event. *)
Lemma hashed_features_in_range_witness :
  exists z,
    fst (plain_extract Features.init structured_event) !! "ip_address_hash"
    = Some (Features.FInt z)
    /\ 0 <= z < 1000000.
Proof.
  unfold Features.extract_features.
  destruct (plain_body Features.init structured_event) as [[e fe1]|[features fe']] eqn:E.
  - exfalso.
    destruct (body_succeeds plain_digest plain_repr plain_fromisoformat plain_int
                plain_findall_count plain_log2 Features.init structured_event
                (fun v => ex_intro _ (plain_str v) eq_refl)
                (fun s => ex_intro _ (MD5.hexdigest s) eq_refl)
                eq_refl eq_refl) as [r Hr].
    congruence.
  - apply (hashed_features_in_range _ _ _ _ _ _ _ _ _ _ E). left. reflexivity.
Defined.

(** The failure flag of the structured event. *)
Lemma flag_features_are_binary_witness :
  exists z,
    fst (plain_extract Features.init structured_event) !! "is_failure"
    = Some (Features.FInt z)
    /\ (z = 0 \/ z = 1).
Proof.
  unfold Features.extract_features.
  destruct (plain_body Features.init structured_event) as [[e fe1]|[features fe']] eqn:E.
  - exfalso.
    destruct (body_succeeds plain_digest plain_repr plain_fromisoformat plain_int
                plain_findall_count plain_log2 Features.init structured_event
                (fun v => ex_intro _ (plain_str v) eq_refl)
                (fun s => ex_intro _ (MD5.hexdigest s) eq_refl)
                eq_refl eq_refl) as [r Hr].
    congruence.
  - apply (flag_features_are_binary _ _ _ _ _ _ _ _ _ _ E). cbn. auto 10.
Defined.

(** The overall score of the structured event. *)
Lemma pattern_scores_are_normalised_witness :
  exists features q,
    Features.extract_pattern_features plain_repr plain_findall_count structured_event
    = inr features
    /\ features !! "overall_malicious_score" = Some (Features.FFloat q)
    /\ (0 <= q <= 1)%Q.
Proof.
  destruct (pattern_scores_are_normalised plain_repr plain_findall_count
              structured_event "overall_malicious_score") as [Hruns Hbound].
  - cbn. auto 10.
  - destruct (Hruns _ eq_refl) as [features Hf].
    destruct (Hbound features Hf) as (q & Hq & Hq01).
    now exists features, q.
Defined.

(** Extracting the same event twice: the second call finds the address in
    the cache and returns the features of the first. *)
Lemma cache_is_transparent_witness :
  fst (plain_extract (snd (plain_extract Features.init structured_event))
         structured_event)
  = fst (plain_extract Features.init structured_event).
Proof.
  exact (proj1 (cache_is_transparent plain_digest plain_repr plain_fromisoformat
                  plain_int plain_findall_count plain_log2
                  (snd (plain_extract Features.init structured_event)) structured_event
                  (proj2 (cache_is_transparent plain_digest plain_repr
                            plain_fromisoformat plain_int plain_findall_count
                            plain_log2 Features.init structured_event
                            (init_sound plain_int))))).
Defined.

(** A batch of a structured event and one whose message is a string:
    every row that is kept has its hour. *)
Lemma batch_rows_are_complete_witness :
  Forall (fun row : gmap string Features.fval => is_Some (row !! "hour"))
    (fst (plain_processed Features.init [structured_event; raw_text_event])).
Proof.
  apply List.Forall_forall. intros row Hin.
  apply (proj2 (proj2 (batch_rows_are_complete plain_digest plain_repr
                         plain_fromisoformat plain_int plain_findall_count plain_log2
                         Features.init [structured_event; raw_text_event]
                         (init_sound plain_int))) row Hin).
  cbn. auto 10.
Defined.

(** A frame of one row and two columns against a registry of three
    names. *)
Lemma prepared_array_shape_witness :
  length (snd (Preprocessor.prepare_for_ml
                 {| Preprocessor.feature_columns := Some ["a"; "b"; "c"] |}
                 (Preprocessor.frame_of_mapping
                    [("a", Preprocessor.Num 5); ("d", Preprocessor.Num 9)])
                 false)) = 1%nat.
Proof.
  exact (proj1 (prepared_array_shape
                  {| Preprocessor.feature_columns := Some ["a"; "b"; "c"] |}
                  (Preprocessor.frame_of_mapping
                     [("a", Preprocessor.Num 5); ("d", Preprocessor.Num 9)])
                  false eq_refl)).
Defined.

(** A frame with a numeric timestamp column and a missing value. *)
Lemma train_then_infer_round_trip_witness :
  Preprocessor.prepare_for_ml
    (fst (Preprocessor.prepare_for_ml Preprocessor.init
            (Preprocessor.frame_of_mapping
               [("a", Preprocessor.Num 5); ("timestamp", Preprocessor.Num 1);
                ("c", Preprocessor.NaN)])
            true))
    (Preprocessor.frame_of_mapping
       [("a", Preprocessor.Num 5); ("timestamp", Preprocessor.Num 1);
        ("c", Preprocessor.NaN)])
    false
  = Preprocessor.prepare_for_ml Preprocessor.init
      (Preprocessor.frame_of_mapping
         [("a", Preprocessor.Num 5); ("timestamp", Preprocessor.Num 1);
          ("c", Preprocessor.NaN)])
      true.
Proof.
  apply (train_then_infer_round_trip Preprocessor.init
           (Preprocessor.frame_of_mapping
              [("a", Preprocessor.Num 5); ("timestamp", Preprocessor.Num 1);
               ("c", Preprocessor.NaN)])).
  - reflexivity.
  - apply (bool_decide_unpack _). vm_compute. reflexivity.
Defined.

(** One row, one event, the default threshold of 0.7 and a model that is
    never consulted. *)
Lemma untrained_detector_raises_no_alert_witness :
  Alerts.generate_batch_alerts steady_clock MD5.hexdigest plain_str plain_format
    Config.default Alerts.init [event_from "aws"]
    (Detector.detect_threats (fun _ => inl Py.ValueError) (fun _ => inl Py.ValueError)
       Config.default {| Detector.is_trained := false |} [[1%Q]] None)
  = (Alerts.init, inr []).
Proof.
  apply (untrained_detector_raises_no_alert steady_clock MD5.hexdigest plain_str
           plain_format Config.default (fun _ => inl Py.ValueError)
           (fun _ => inl Py.ValueError) Alerts.init [event_from "aws"]
           {| Detector.is_trained := false |} [[1%Q]] None).
  - reflexivity.
  - reflexivity.
Defined.

End WorkedInstances.
